(** * Enjin Snap wallet exporter: derivation and keystore encoding

    A shallow embedding of [generate_addresses.py] (the three derivations,
    [build_keystore] and the helpers of the Python runtime they use) and
    the properties of its byte layouts.

    Conventions.
    - A Python [bytes] value is a [list byte]; a Python [str] is the list
      of its Unicode code points.
    - A Python call either returns or raises: [outcome].
    - Code that reads the CSPRNG, the clock or the class-level switch of
      [eth_account] threads an explicit [World].
    - The cryptographic cores of the third-party packages (scrypt, the
      XSalsa20 key stream, Poly1305, BIP-39/BIP-32, key pair construction)
      are fields of type classes; the Python wrappers around them are
      written out. *)

From Stdlib Require Import List NArith ZArith Lia Bool Arith.
From Stdlib.Strings Require Import String Ascii Byte.
From Stdlib Require Import DecimalString.
Import ListNotations.

Local Open Scope N_scope.

(* ===================================================================== *)
(** ** Python values *)
(* ===================================================================== *)

Definition bytes := list byte.

(** A Unicode code point. *)
Definition char := N.

Definition str := list char.

(** A [str] literal. *)
Definition lit (s : string) : str :=
  map N_of_ascii (list_ascii_of_string s).

Definition byte_of_N (n : N) : byte :=
  match Byte.of_N (n mod 256) with
  | Some b => b
  | None => x00
  end.

(** The exception classes that the modelled code and its libraries raise. *)
Inductive PyExc : Type :=
| AttributeError
| ValueError
| TypeError
| UnicodeEncodeError
| StructError
| CryptoError
| ValidationError
| LibraryError (cls : string).

Definition exc_name (e : PyExc) : string :=
  match e with
  | AttributeError => "AttributeError"
  | ValueError => "ValueError"
  | TypeError => "TypeError"
  | UnicodeEncodeError => "UnicodeEncodeError"
  | StructError => "struct.error"
  | CryptoError => "CryptoError"
  | ValidationError => "ValidationError"
  | LibraryError cls => cls
  end%string.

Definition is_AttributeError (e : PyExc) : bool :=
  match e with
  | AttributeError => true
  | _ => false
  end.

Inductive outcome (A : Type) : Type :=
| Return (a : A)
| Raise (e : PyExc).

Arguments Return {A} a.
Arguments Raise {A} e.

Definition obind {A B} (o : outcome A) (k : A -> outcome B) : outcome B :=
  match o with
  | Return a => k a
  | Raise e => Raise e
  end.

Declare Scope py_scope.
Delimit Scope py_scope with py.

Notation "'let!' x ':=' o 'in' k" := (obind o (fun x => k))
  (at level 10, x name, o at level 100, k at level 200) : py_scope.

Local Open Scope py_scope.

(* --------------------------------------------------------------------- *)
(** *** [str.encode('utf-8')] *)

(** One code point; surrogates cannot be encoded, and no [str] holds a code
    point above U+10FFFF. *)
Definition utf8_char (c : char) : outcome bytes :=
  if c <? 128 then Return [byte_of_N c]
  else if c <? 2048 then
    Return [byte_of_N (192 + c / 64); byte_of_N (128 + c mod 64)]
  else if (55296 <=? c) && (c <=? 57343) then Raise UnicodeEncodeError
  else if c <? 65536 then
    Return [byte_of_N (224 + c / 4096);
            byte_of_N (128 + (c / 64) mod 64);
            byte_of_N (128 + c mod 64)]
  else if c <? 1114112 then
    Return [byte_of_N (240 + c / 262144);
            byte_of_N (128 + (c / 4096) mod 64);
            byte_of_N (128 + (c / 64) mod 64);
            byte_of_N (128 + c mod 64)]
  else Raise UnicodeEncodeError.

Fixpoint utf8_encode (s : str) : outcome bytes :=
  match s with
  | [] => Return []
  | c :: rest =>
      let! b := utf8_char c in
      let! bs := utf8_encode rest in
      Return (b ++ bs)
  end.

(* --------------------------------------------------------------------- *)
(** *** [binascii.hexlify], as [DataBytes.ToHex] of bip_utils uses it *)

Definition hex_digit (n : N) : char :=
  if n <? 10 then 48 + n else 87 + n.

Definition hex_of_byte (b : byte) : str :=
  [hex_digit (Byte.to_N b / 16); hex_digit (Byte.to_N b mod 16)].

Definition ToHex (bs : bytes) : str := flat_map hex_of_byte bs.

(** The half-bytes of a byte string, high half first. *)
Definition nibbles (bs : bytes) : list N :=
  flat_map (fun b => [Byte.to_N b / 16; Byte.to_N b mod 16]) bs.

(** A lowercase hexadecimal digit: '0'..'9' or 'a'..'f'. *)
Definition is_lower_hex (c : char) : Prop :=
  (48 <= c <= 57) \/ (97 <= c <= 102).

(* --------------------------------------------------------------------- *)
(** *** [struct.pack('<I', n)] *)

Definition le32 (n : N) : bytes :=
  [byte_of_N n; byte_of_N (n / 256); byte_of_N (n / 65536);
   byte_of_N (n / 16777216)].

Definition struct_pack_LE_I (n : N) : outcome bytes :=
  if n <? 4294967296 then Return (le32 n) else Raise StructError.

(** Reading the field back (what [struct.unpack('<I', b)] gives). *)
Definition le32_value (b : bytes) : N :=
  match b with
  | [b0; b1; b2; b3] =>
      Byte.to_N b0 + 256 * Byte.to_N b1 + 65536 * Byte.to_N b2
      + 16777216 * Byte.to_N b3
  | _ => 0
  end.

(* --------------------------------------------------------------------- *)
(** *** [base64.b64encode(...).decode('ascii')] *)

Definition b64_alphabet : str :=
  lit "ABCDEFGHIJKLMNOPQRSTUVWXYZabcdefghijklmnopqrstuvwxyz0123456789+/".

Definition b64_pad : char := 61.

Definition b64char (sextet : N) : char :=
  nth (N.to_nat sextet) b64_alphabet b64_pad.

Fixpoint b64encode (bs : bytes) : str :=
  match bs with
  | [] => []
  | [a] =>
      let x := Byte.to_N a in
      [b64char (x / 4); b64char ((x mod 4) * 16); b64_pad; b64_pad]
  | [a; b] =>
      let x := Byte.to_N a in
      let y := Byte.to_N b in
      [b64char (x / 4); b64char ((x mod 4) * 16 + y / 16);
       b64char ((y mod 16) * 4); b64_pad]
  | a :: b :: c :: rest =>
      let x := Byte.to_N a in
      let y := Byte.to_N b in
      let z := Byte.to_N c in
      b64char (x / 4) :: b64char ((x mod 4) * 16 + y / 16)
        :: b64char ((y mod 16) * 4 + z / 64) :: b64char (z mod 64)
        :: b64encode rest
  end.

(** The index of a character in the alphabet. *)
Fixpoint index_of (c : char) (l : str) (i : N) : option N :=
  match l with
  | [] => None
  | d :: rest => if c =? d then Some i else index_of c rest (i + 1)
  end.

Definition b64val (c : char) : option N := index_of c b64_alphabet 0.

(** Decoding of padded base64 text, four characters at a time.  It accepts
    exactly the well-padded texts over the alphabet, which is where
    [base64.b64decode] and every strict decoder agree. *)
Fixpoint b64decode (s : str) : option bytes :=
  match s with
  | [] => Some []
  | c1 :: c2 :: c3 :: c4 :: rest =>
      match b64val c1, b64val c2 with
      | Some v1, Some v2 =>
          let o1 := byte_of_N (v1 * 4 + v2 / 16) in
          match b64val c3 with
          | None =>
              if (c3 =? b64_pad) && (c4 =? b64_pad) then
                match rest with
                | [] => Some [o1]
                | _ => None
                end
              else None
          | Some v3 =>
              let o2 := byte_of_N ((v2 mod 16) * 16 + v3 / 4) in
              match b64val c4 with
              | None =>
                  if c4 =? b64_pad then
                    match rest with
                    | [] => Some [o1; o2]
                    | _ => None
                    end
                  else None
              | Some v4 =>
                  let o3 := byte_of_N ((v3 mod 4) * 64 + v4) in
                  match b64decode rest with
                  | Some t => Some (o1 :: o2 :: o3 :: t)
                  | None => None
                  end
              end
          end
      | _, _ => None
      end
  | _ => None
  end.

(** Comparison of two byte strings. *)
Definition bytes_eqb (a b : bytes) : bool :=
  if list_eq_dec Byte.byte_eq_dec a b then true else false.

(** Byte-wise exclusive or; the result is as long as the shorter input. *)
Fixpoint xor_bytes (a b : bytes) : bytes :=
  match a, b with
  | x :: a', y :: b' =>
      byte_of_N (N.lxor (Byte.to_N x) (Byte.to_N y)) :: xor_bytes a' b'
  | _, _ => []
  end.

(* ===================================================================== *)
(** ** The world outside the program *)
(* ===================================================================== *)

(** What the code reads or writes outside its arguments: the operating
    system's CSPRNG (the bytes it will deliver, and how many were taken),
    the clock, and the switch [Account._use_unaudited_hdwallet_features]
    of eth_account. *)
Record World : Type := mkWorld {
  entropy : nat -> byte;
  cursor : nat;
  clock_ms : N;
  hd_features : bool
}.

(** A computation in the world.  Whatever was done before an exception
    stays done. *)
Definition M (A : Type) : Type := World -> outcome A * World.

Definition ret {A} (a : A) : M A := fun w => (Return a, w).

Definition raise {A} (e : PyExc) : M A := fun w => (Raise e, w).

Definition bind {A B} (c : M A) (k : A -> M B) : M B :=
  fun w =>
    match c w with
    | (Return a, w') => k a w'
    | (Raise e, w') => (Raise e, w')
    end.

Definition lift {A} (o : outcome A) : M A := fun w => (o, w).

Notation "x <- c ;; k" := (bind c (fun x => k))
  (at level 61, c at next level, right associativity) : py_scope.

(** [try: body  except E: handler], [catches] telling the classes [E]. *)
Definition try_except {A} (body : M A) (catches : PyExc -> bool)
    (handler : M A) : M A :=
  fun w =>
    match body w with
    | (Return a, w') => (Return a, w')
    | (Raise e, w') => if catches e then handler w' else (Raise e, w')
    end.

(** [os.urandom(n)] *)
Definition os_urandom (n : nat) : M bytes :=
  fun w =>
    (Return (map (entropy w) (seq (cursor w) n)),
     mkWorld (entropy w) (cursor w + n)%nat (clock_ms w) (hd_features w)).

(** [int(time.time() * 1000)] *)
Definition time_ms : M N := fun w => (Return (clock_ms w), w).

(* ===================================================================== *)
(** ** The libraries *)
(* ===================================================================== *)

Inductive KeypairType : Type := ED25519 | SR25519 | ECDSA.

(** [substrateinterface.Keypair] *)
Record Keypair : Type := mkKeypair {
  ss58_address : str;
  public_key : bytes;
  private_key : bytes;
  crypto_type : KeypairType;
  ss58_format : N
}.

(** [eth_account.signers.local.LocalAccount] *)
Record LocalAccount : Type := mkLocalAccount {
  address : str;
  key : bytes
}.

(** A node of bip_utils' [Bip32Slip10Secp256k1]:
    [node.PrivateKey().Raw()] and the chain code. *)
Record Bip32Node : Type := mkBip32Node {
  PrivateKey_Raw : bytes;
  ChainCode : bytes
}.

(** The key derivation packages.  Each function is the package's, with the
    arguments the package takes (defaulted ones included). *)
Class WalletLibs : Type := {
  (** the BIP-39 check of eth_account: word list and checksum *)
  bip39_is_valid : str -> bool;
  (** what [Account.from_mnemonic] builds from accepted words: mnemonic,
      passphrase, account path *)
  eth_hd_account : str -> str -> str -> outcome LocalAccount;
  (** [Bip39SeedGenerator(mnemonic).Generate(passphrase)] *)
  Bip39SeedGenerator_Generate : str -> str -> outcome bytes;
  (** [Bip32Slip10Secp256k1.FromSeedAndPath(seed, path)] *)
  Bip32Slip10Secp256k1_FromSeedAndPath : bytes -> str -> outcome Bip32Node;
  (** [Keypair.create_from_uri(suri, ss58_format, crypto_type)] *)
  Keypair_create_from_uri : str -> N -> KeypairType -> outcome Keypair;
  (** [Keypair.create_from_seed(seed, ss58_format, crypto_type)] *)
  Keypair_create_from_seed : bytes -> N -> KeypairType -> outcome Keypair
}.

(** The cryptographic cores. *)
Class Primitives : Type := {
  (** scrypt of RFC 7914: password, salt, N, r, p, output length *)
  scrypt_rfc7914 : bytes -> bytes -> N -> N -> N -> nat -> bytes;
  (** the XSalsa20 key stream: key, nonce, number of bytes *)
  xsalsa20_stream : bytes -> bytes -> nat -> bytes;
  (** Poly1305: one-time key, message *)
  poly1305 : bytes -> bytes -> bytes
}.

(** What the primitives guarantee about lengths. *)
Class PrimitivesOk (P : Primitives) : Prop := {
  xsalsa20_stream_length :
    forall k n len, List.length (xsalsa20_stream k n len) = len;
  poly1305_length : forall k m, List.length (poly1305 k m) = 16%nat;
  scrypt_length :
    forall pw salt n r p len,
      List.length (scrypt_rfc7914 pw salt n r p len) = len
}.

(** The interpreter and the OpenSSL it is linked with: whether [hashlib]
    has [scrypt] at all, and OpenSSL's memory limit for scrypt when the
    caller passes none (32 MiB in a stock build). *)
Class Platform : Type := {
  hashlib_has_scrypt : bool;
  openssl_scrypt_max_mem : N
}.

(* --------------------------------------------------------------------- *)
(** *** hashlib *)

(** The memory scrypt needs, as OpenSSL and PyNaCl both count it:
    [Blen + Vlen] with [Blen = p * 128 * r] and
    [Vlen = 32 * r * (N + 2) * 4]. *)
Definition scrypt_memory (n r p : N) : N :=
  p * 128 * r + 32 * r * (n + 2) * 4.

Definition is_power_of_2 (n : N) : bool :=
  (1 <? n) && (N.land n (n - 1) =? 0).

(** [hashlib.scrypt(password, salt=, n=, r=, p=, dklen=)], with [maxmem]
    left at its default 0, which selects OpenSSL's own limit. *)
Definition hashlib_scrypt {Pl : Platform} {P : Primitives}
    (password salt : bytes) (n r p : N) (dklen : nat) : outcome bytes :=
  if negb hashlib_has_scrypt then Raise AttributeError
  else if negb (is_power_of_2 n) then Raise ValueError
  else if openssl_scrypt_max_mem <? scrypt_memory n r p then Raise ValueError
  else Return (scrypt_rfc7914 password salt n r p dklen).

(* --------------------------------------------------------------------- *)
(** *** PyNaCl *)

(** The loop [for n_log2 in range(1, 63): if 2**n_log2 > bound: break];
    the loop variable keeps its last value when the loop runs out. *)
Fixpoint first_log2_above (bound : N) (candidates : list N) (last : N) : N :=
  match candidates with
  | [] => last
  | k :: rest =>
      if bound <? 2 ^ k then k else first_log2_above bound rest k
  end.

(** [nacl.bindings.nacl_bindings_pick_scrypt_params(opslimit, memlimit)]:
    libsodium's choice of [(n_log2, r, p)] for an operations limit and a
    memory limit. *)
Definition nacl_bindings_pick_scrypt_params (opslimit memlimit : N)
    : N * N * N :=
  let opslimit := if opslimit <? 32768 then 32768 else opslimit in
  let r := 8 in
  let range_1_63 := map N.of_nat (seq 1 62) in
  if opslimit <? memlimit / 32 then
    let p := 1 in
    let maxn := opslimit / (4 * r) in
    let n_log2 := first_log2_above (maxn / 2) range_1_63 0 in
    (n_log2, r, p)
  else
    let maxn := memlimit / (r * 128) in
    let n_log2 := first_log2_above (maxn / 2) range_1_63 0 in
    let maxrp := (opslimit / 4) / 2 ^ n_log2 in
    let maxrp := if 1073741823 <? maxrp then 1073741823 else maxrp in
    let p := maxrp / r in
    (n_log2, r, p).

(** [nacl.bindings.crypto_pwhash_scryptsalsa208sha256_ll]: the checks on
    the parameters (block size, parallelisation, cost a power of two,
    memory within [maxmem]), then scrypt. *)
Definition crypto_pwhash_scryptsalsa208sha256_ll {P : Primitives}
    (passwd salt : bytes) (n r p : N) (maxmem : N) (dklen : nat)
    : outcome bytes :=
  if (r =? 0) || (p =? 0) then Raise ValueError
  else if negb (is_power_of_2 n) then Raise ValueError
  else if maxmem <? scrypt_memory n r p then Raise ValueError
  else Return (scrypt_rfc7914 passwd salt n r p dklen).

(** [nacl.pwhash.scrypt.kdf(size, password, salt, opslimit=, memlimit=)] *)
Definition nacl_pwhash_scrypt_kdf {P : Primitives}
    (size : nat) (password salt : bytes) (opslimit memlimit : N)
    : outcome bytes :=
  if negb (List.length salt =? 32)%nat then Raise ValueError
  else
    let '(n_log2, r, p) := nacl_bindings_pick_scrypt_params opslimit memlimit in
    let maxmem := memlimit + 2 ^ 16 in
    crypto_pwhash_scryptsalsa208sha256_ll password salt (2 ^ n_log2) r p
      maxmem size.

(** [nacl.bindings.crypto_secretbox(message, nonce, key)]: NaCl's
    xsalsa20poly1305.  The first 32 bytes of the key stream are the
    Poly1305 key, the rest is added to the message, and the 16-byte
    authenticator of the ciphertext is put in front of it. *)
Definition crypto_secretbox {P : Primitives} (message nonce k : bytes)
    : bytes :=
  let stream := xsalsa20_stream k nonce (32 + List.length message) in
  let c := xor_bytes message (skipn 32 stream) in
  poly1305 (firstn 32 stream) c ++ c.

(** [nacl.bindings.crypto_secretbox_open(ciphertext, nonce, key)] *)
Definition crypto_secretbox_open {P : Primitives} (boxed nonce k : bytes)
    : outcome bytes :=
  if (List.length boxed <? 16)%nat then Raise CryptoError
  else
    let tag := firstn 16 boxed in
    let c := skipn 16 boxed in
    let stream := xsalsa20_stream k nonce (32 + List.length c) in
    if bytes_eqb (poly1305 (firstn 32 stream) c) tag
    then Return (xor_bytes c (skipn 32 stream))
    else Raise CryptoError.

(** [nacl.secret.SecretBox]: the object holds its key. *)
Record SecretBoxObj : Type := mkSecretBox { box_key : bytes }.

(** [SecretBox(key)] *)
Definition SecretBox (k : bytes) : outcome SecretBoxObj :=
  if (List.length k =? 32)%nat then Return (mkSecretBox k)
  else Raise ValueError.

(** [box.encrypt(plaintext, nonce)]: the nonce, then [crypto_secretbox]. *)
Definition SecretBox_encrypt {P : Primitives} (box : SecretBoxObj)
    (plaintext nonce : bytes) : outcome bytes :=
  if negb (List.length nonce =? 24)%nat then Raise ValueError
  else Return (nonce ++ crypto_secretbox plaintext nonce (box_key box)).

(* --------------------------------------------------------------------- *)
(** *** eth_account *)

(** [Account.enable_unaudited_hdwallet_features()] *)
Definition Account_enable_unaudited_hdwallet_features : M unit :=
  fun w => (Return tt, mkWorld (entropy w) (cursor w) (clock_ms w) true).

(** [Account.from_mnemonic(mnemonic, passphrase, account_path)]: refused
    while the switch is off; words that fail the BIP-39 check raise
    eth_utils' [ValidationError]. *)
Definition Account_from_mnemonic {L : WalletLibs}
    (mnemonic passphrase account_path : str) : M LocalAccount :=
  fun w =>
    if negb (hd_features w) then (Raise AttributeError, w)
    else if negb (bip39_is_valid mnemonic) then (Raise ValidationError, w)
    else (eth_hd_account mnemonic passphrase account_path, w).

(* ===================================================================== *)
(** ** generate_addresses.py *)
(* ===================================================================== *)

(** SS58 format for Enjin Matrixchain *)
Definition SS58_FORMAT : N := 1110.

Section Program.

Context {L : WalletLibs} {P : Primitives} {Pl : Platform}.

(** [derive_ethereum]: standard BIP-44 path, passphrase left at its
    default. *)
Definition derive_ethereum (mnemonic : str) : M LocalAccount :=
  _ <- Account_enable_unaudited_hdwallet_features ;;
  Account_from_mnemonic mnemonic (lit "") (lit "m/44'/60'/0'/0/0").

(** [derive_matrixchain_sr25519]: blank derivation path. *)
Definition derive_matrixchain_sr25519 (mnemonic : str) : M Keypair :=
  lift (Keypair_create_from_uri mnemonic SS58_FORMAT SR25519).

(** [derive_enjin_snap_ed25519]: returns [(keypair, seed_bytes)]. *)
Definition derive_enjin_snap_ed25519 (mnemonic : str)
    : M (Keypair * bytes) :=
  (* Step 1: BIP-39 seed from the mnemonic *)
  bip39_seed <- lift (Bip39SeedGenerator_Generate mnemonic (lit "")) ;;
  (* Step 2: SLIP-10 secp256k1 key at m/44'/1155' *)
  bip32_node <- lift (Bip32Slip10Secp256k1_FromSeedAndPath bip39_seed
                        (lit "m/44'/1155'")) ;;
  (* Step 3: 0x-prefixed hex private key *)
  let priv_key_hex := lit "0x" ++ ToHex (PrivateKey_Raw bip32_node) in
  (* Step 4: the first 32 characters of the hex string *)
  let seed_str := firstn 32 priv_key_hex in
  (* Step 5: UTF-8 bytes *)
  seed_bytes <- lift (utf8_encode seed_str) ;;
  (* Step 6: ed25519 keypair from seed *)
  keypair <- lift (Keypair_create_from_seed seed_bytes SS58_FORMAT ED25519) ;;
  ret (keypair, seed_bytes).

(** The keystore dict that [build_keystore] returns. *)
Record Keystore : Type := mkKeystore {
  encoded : str;
  encoding_content : list str;
  encoding_type : list str;
  encoding_version : str;
  ks_address : str;
  meta_name : str;
  meta_whenCreated : N
}.

Definition pkcs8_header : bytes :=
  [x30; x53; x02; x01; x01; x30; x05; x06;
   x03; x2b; x65; x70; x04; x22; x04; x20].

Definition pkcs8_divider : bytes := [xa1; x23; x03; x21; x00].

(** [build_keystore(keypair, seed_bytes, password)] *)
Definition build_keystore (keypair : Keypair) (seed_bytes : bytes)
    (password : str) : M Keystore :=
  let plaintext :=
    pkcs8_header ++ seed_bytes ++ pkcs8_divider ++ public_key keypair in
  (* Scrypt parameters *)
  let scrypt_n := N.shiftl 1 15 in
  let scrypt_p := 1 in
  let scrypt_r := 8 in
  salt <- os_urandom 32 ;;
  (* Derive encryption key via scrypt *)
  password_bytes <- lift (utf8_encode password) ;;
  key <- try_except
           (lift (hashlib_scrypt password_bytes salt scrypt_n scrypt_r
                    scrypt_p 32))
           is_AttributeError
           ((* Fallback to PyNaCl's scrypt implementation *)
            let memlimit := 128 * scrypt_n * scrypt_r in
            lift (nacl_pwhash_scrypt_kdf 32 password_bytes salt scrypt_n
                    memlimit)) ;;
  (* Encrypt with xsalsa20-poly1305 *)
  nonce <- os_urandom 24 ;;
  box <- lift (SecretBox key) ;;
  message <- lift (SecretBox_encrypt box plaintext nonce) ;;
  let encrypted := skipn 24 message in
  (* salt + N(LE) + p(LE) + r(LE) + nonce + ciphertext *)
  packed_n <- lift (struct_pack_LE_I scrypt_n) ;;
  packed_p <- lift (struct_pack_LE_I scrypt_p) ;;
  packed_r <- lift (struct_pack_LE_I scrypt_r) ;;
  let encoded_bytes :=
    salt ++ packed_n ++ packed_p ++ packed_r ++ nonce ++ encrypted in
  let encoded_b64 := b64encode encoded_bytes in
  now <- time_ms ;;
  ret {| encoded := encoded_b64;
         encoding_content := [lit "pkcs8"; lit "ed25519"];
         encoding_type := [lit "scrypt"; lit "xsalsa20-poly1305"];
         encoding_version := lit "3";
         ks_address := ss58_address keypair;
         meta_name := lit "Enjin Snap";
         meta_whenCreated := now |}.

(** The reader that the round-trip property speaks of (the program has no
    reader of its own; this one follows the property): decode the text,
    read salt, N, p, r and nonce back from the blob, derive the key from
    the password with the parameters found there, open the box. *)
Definition spec_read_keystore (encoded_text : str) (password : str)
    : outcome bytes :=
  match b64decode encoded_text with
  | None => Raise ValueError
  | Some blob =>
      let salt := firstn 32 blob in
      let n := le32_value (firstn 4 (skipn 32 blob)) in
      let p := le32_value (firstn 4 (skipn 36 blob)) in
      let r := le32_value (firstn 4 (skipn 40 blob)) in
      let nonce := firstn 24 (skipn 44 blob) in
      let boxed := skipn 68 blob in
      let! password_bytes := utf8_encode password in
      crypto_secretbox_open boxed nonce
        (scrypt_rfc7914 password_bytes salt n r p 32)
  end.

End Program.

(** The bytes that two draws [os.urandom(32)] then [os.urandom(24)] take
    from a world. *)
Definition drawn_salt (w : World) : bytes :=
  map (entropy w) (seq (cursor w) 32).

Definition drawn_nonce (w : World) : bytes :=
  map (entropy w) (seq (cursor w + 32) 24).

(* ===================================================================== *)
(** ** Notions used in the statements *)
(* ===================================================================== *)


(** The world after [n] more bytes were taken from the CSPRNG. *)
Definition after_draw (n : nat) (w : World) : World :=
  mkWorld (entropy w) (cursor w + n)%nat (clock_ms w) (hd_features w).

(** The key derivation of [build_keystore], both branches: hashlib's
    scrypt, and PyNaCl's when hashlib raises [AttributeError]. *)
Definition keystore_key {P : Primitives} {Pl : Platform}
    (password_bytes salt : bytes) : outcome bytes :=
  match hashlib_scrypt password_bytes salt 32768 8 1 32 with
  | Return k => Return k
  | Raise e =>
      if is_AttributeError e
      then nacl_pwhash_scrypt_kdf 32 password_bytes salt 32768 33554432
      else Raise e
  end.

(** The layout of the blob. *)
Definition keystore_blob (salt nonce boxed : bytes) : bytes :=
  salt ++ le32 32768 ++ le32 1 ++ le32 8 ++ nonce ++ boxed.

(** The dict around an encoded text. *)
Definition keystore_record (keypair : Keypair) (encoded_b64 : str) (now : N)
    : Keystore :=
  {| encoded := encoded_b64;
     encoding_content := [lit "pkcs8"; lit "ed25519"];
     encoding_type := [lit "scrypt"; lit "xsalsa20-poly1305"];
     encoding_version := lit "3";
     ks_address := ss58_address keypair;
     meta_name := lit "Enjin Snap";
     meta_whenCreated := now |}.

(** The two parts of a secret box: the ciphertext proper and its
    authenticator. *)
Definition secretbox_ciphertext {P : Primitives} (message nonce k : bytes)
    : bytes :=
  xor_bytes message
    (skipn 32 (xsalsa20_stream k nonce (32 + List.length message))).

Definition secretbox_tag {P : Primitives} (message nonce k : bytes) : bytes :=
  poly1305 (firstn 32 (xsalsa20_stream k nonce (32 + List.length message)))
    (secretbox_ciphertext message nonce k).

(** All byte values. *)
Definition all_bytes : list byte :=
  map (fun i => byte_of_N (N.of_nat i)) (seq 0 256).

(* ===================================================================== *)
(** ** Small instances, to run the definitions *)
(* ===================================================================== *)

Module Toy.

(** A CSPRNG whose bytes count up. *)
Definition counting (i : nat) : byte := byte_of_N (N.of_nat i).

Definition world0 : World := mkWorld counting 0 1700000000000 false.

(** Primitives with the right lengths, and a scrypt that tells its [N]. *)
Definition prims : Primitives :=
  {| scrypt_rfc7914 := fun _ _ n _ _ len => repeat (byte_of_N (N.log2 n)) len;
     xsalsa20_stream := fun k _ len => repeat (hd x00 k) len;
     poly1305 := fun k _ => repeat (hd x00 k) 16 |}.

(** A stock interpreter, one whose OpenSSL allows 64 MiB, and one whose
    [hashlib] has no [scrypt]. *)
Definition stock : Platform :=
  {| hashlib_has_scrypt := true; openssl_scrypt_max_mem := 33554432 |}.

Definition roomy : Platform :=
  {| hashlib_has_scrypt := true; openssl_scrypt_max_mem := 67108864 |}.

Definition no_hashlib_scrypt : Platform :=
  {| hashlib_has_scrypt := false; openssl_scrypt_max_mem := 33554432 |}.

Definition good_words : str :=
  lit "abandon abandon abandon abandon abandon abandon abandon abandon abandon abandon abandon about".

Definition bad_words : str :=
  lit "abandon abandon abandon abandon abandon abandon abandon abandon abandon abandon abandon abandon".

Definition str_eqb (a b : str) : bool :=
  if list_eq_dec N.eq_dec a b then true else false.

Definition scalar : bytes :=
  map (fun i => byte_of_N (171 + 7 * N.of_nat i)) (seq 0 32).

Definition keypair_of (seed : bytes) : Keypair :=
  mkKeypair (lit "toy") (map (fun b => byte_of_N (Byte.to_N b + 1)) seed)
    seed ED25519 SS58_FORMAT.

Definition libs : WalletLibs :=
  {| bip39_is_valid := fun m => str_eqb m good_words;
     eth_hd_account := fun _ _ _ => Return (mkLocalAccount (lit "0x00") []);
     Bip39SeedGenerator_Generate := fun m _ =>
       if str_eqb m good_words then Return (repeat x01 64)
       else Raise ValueError;
     Bip32Slip10Secp256k1_FromSeedAndPath := fun _ _ =>
       Return (mkBip32Node scalar (repeat x02 32));
     Keypair_create_from_uri := fun _ f t =>
       Return (mkKeypair (lit "toy") (repeat x03 32) [] t f);
     Keypair_create_from_seed := fun seed _ _ => Return (keypair_of seed) |}.

Definition seed32 : bytes := repeat x41 32.

Definition keypair : Keypair := keypair_of seed32.

Definition password : str := lit "pw".

Definition plaintext : bytes :=
  pkcs8_header ++ seed32 ++ pkcs8_divider ++ public_key keypair.

End Toy.

(* ===================================================================== *)
(** ** The terminal, the disk and the interactive helpers *)
(* ===================================================================== *)

(** What waits at the keyboard: typed lines (without their newline) and
    interrupts; when nothing is left the input is at its end. *)
Inductive Key : Type :=
| Typed (line : str)
| CtrlC.

(** What the program shows: [print(s)], the prompt of [input(prompt)], the
    prompt of [getpass.getpass(prompt)]. *)
Inductive Output : Type :=
| Printed (s : str)
| Asked (prompt : str)
| AskedHidden (prompt : str).

(** The dict that [Account.encrypt] returns: its [address] entry, if it has
    one, and the rest of it. *)
Record Web3Keystore : Type := mkWeb3Keystore {
  w3_address : option str;
  w3_rest : str
}.

(** What [json.dump(keystore, f, indent=2)] was given. *)
Inductive Document : Type :=
| PolkadotJson (ks : Keystore)
| Web3Json (ks : Web3Keystore).

(** A run of the script: the world of the core functions, the keyboard,
    the screen, the clock read in seconds ([int(time.time())]), whether
    [open(path, 'w')] fails and with what, and the files written so far,
    oldest first. *)
Record Session : Type := mkSession {
  world : World;
  keyboard : list Key;
  screen : list Output;
  clock_s : N;
  disk_error : option PyExc;
  files : list (str * Document)
}.

(** How a call ends when it does not return: an exception of the classes
    of [PyExc], [EOFError], [KeyboardInterrupt], or [SystemExit(code)]. *)
Inductive Signal : Type :=
| Exc (e : PyExc)
| EOFError
| KeyboardInterrupt
| SystemExit (code : N).

Inductive result (A : Type) : Type :=
| Done (a : A)
| Stopped (sig : Signal).

Arguments Done {A} a.
Arguments Stopped {A} sig.

Definition IO (A : Type) : Type := Session -> result A * Session.

Definition io_ret {A} (a : A) : IO A := fun s => (Done a, s).

Definition io_bind {A B} (c : IO A) (k : A -> IO B) : IO B :=
  fun s =>
    match c s with
    | (Done a, s') => k a s'
    | (Stopped sig, s') => (Stopped sig, s')
    end.

Declare Scope io_scope.
Delimit Scope io_scope with io.

Notation "x <- c ;; k" := (io_bind c (fun x => k))
  (at level 61, c at next level, right associativity) : io_scope.

Notation "c ;;; k" := (io_bind c (fun _ => k))
  (at level 61, right associativity) : io_scope.

Local Open Scope io_scope.

(** A core function run inside the script. *)
Definition run_M {A} (c : M A) : IO A :=
  fun s =>
    let (o, w') := c (world s) in
    let s' := mkSession w' (keyboard s) (screen s) (clock_s s)
                (disk_error s) (files s) in
    match o with
    | Return a => (Done a, s')
    | Raise e => (Stopped (Exc e), s')
    end.

Definition show (o : Output) : IO unit :=
  fun s =>
    (Done tt,
     mkSession (world s) (keyboard s) (screen s ++ [o]) (clock_s s)
       (disk_error s) (files s)).

(** [print(s)] *)
Definition print (s : str) : IO unit := show (Printed s).

(** Taking what waits at the keyboard. *)
Definition read_key : IO str :=
  fun s =>
    match keyboard s with
    | [] => (Stopped EOFError, s)
    | Typed line :: rest =>
        (Done line,
         mkSession (world s) rest (screen s) (clock_s s) (disk_error s)
           (files s))
    | CtrlC :: rest =>
        (Stopped KeyboardInterrupt,
         mkSession (world s) rest (screen s) (clock_s s) (disk_error s)
           (files s))
    end.

(** [input(prompt)] *)
Definition input (prompt : str) : IO str := show (Asked prompt) ;;; read_key.

(** [getpass.getpass(prompt)] *)
Definition getpass (prompt : str) : IO str :=
  show (AskedHidden prompt) ;;; read_key.

(** [sys.exit(code)] *)
Definition sys_exit {A} (code : N) : IO A :=
  fun s => (Stopped (SystemExit code), s).

(** [int(time.time())] *)
Definition time_s : IO N := fun s => (Done (clock_s s), s).

(** [with open(path, 'w') as f: json.dump(doc, f, indent=2)] *)
Definition write_json (path : str) (doc : Document) : IO unit :=
  fun s =>
    match disk_error s with
    | Some e => (Stopped (Exc e), s)
    | None =>
        (Done tt,
         mkSession (world s) (keyboard s) (screen s) (clock_s s)
           (disk_error s) (files s ++ [(path, doc)]))
    end.

(** [try: body  except ...: handler], with [catches] telling what the
    clause names and the handler given what was caught. *)
Definition io_try {A} (body : IO A) (catches : Signal -> bool)
    (handler : Signal -> IO A) : IO A :=
  fun s =>
    match body s with
    | (Done a, s') => (Done a, s')
    | (Stopped sig, s') =>
        if catches sig then handler sig s' else (Stopped sig, s')
    end.

(** [except (KeyboardInterrupt, EOFError)] *)
Definition is_interrupt_or_eof (sig : Signal) : bool :=
  match sig with
  | KeyboardInterrupt | EOFError => true
  | _ => false
  end.

(** [except Exception]: [SystemExit] and [KeyboardInterrupt] are not
    exceptions of that class. *)
Definition is_Exception (sig : Signal) : bool :=
  match sig with
  | Exc _ | EOFError => true
  | _ => false
  end.

Definition str_eq (a b : str) : bool :=
  if list_eq_dec N.eq_dec a b then true else false.

(** [x in (a, b, ...)], also [x in set(...)], for strings. *)
Definition str_in (x : str) (l : list str) : bool := existsb (str_eq x) l.

(** [sep.join(l)] *)
Fixpoint str_join (sep : str) (l : list str) : str :=
  match l with
  | [] => []
  | [x] => x
  | x :: rest => x ++ sep ++ str_join sep rest
  end.

(** [str(n)] for a natural number. *)
Definition str_of_N (n : N) : str :=
  lit (NilEmpty.string_of_uint (N.to_uint n)).

(** [c.isspace()] *)
Definition is_space (c : char) : bool :=
  ((9 <=? c) && (c <=? 13)) || ((28 <=? c) && (c <=? 32))
  || (c =? 133) || (c =? 160) || (c =? 5760)
  || ((8192 <=? c) && (c <=? 8202))
  || (c =? 8232) || (c =? 8233) || (c =? 8239) || (c =? 8287)
  || (c =? 12288).

Fixpoint lstrip (s : str) : str :=
  match s with
  | c :: rest => if is_space c then lstrip rest else s
  | [] => []
  end.

(** [s.strip()] *)
Definition str_strip (s : str) : str := rev (lstrip (rev (lstrip s))).

(** Lower case of an ASCII character. *)
Definition ascii_lower (c : char) : char :=
  if (65 <=? c) && (c <=? 90) then c + 32 else c.

(** [posixpath.join(a, b)] *)
Definition os_path_join (a b : str) : str :=
  match b with
  | 47 :: _ => b
  | _ =>
      match rev a with
      | [] => b
      | 47 :: _ => a ++ b
      | _ => a ++ [47] ++ b
      end
  end.

(** The facts of the installation that the script reads. *)
Class Host : Type := {
  (** [s.lower()], by the interpreter's Unicode tables *)
  str_lower : str -> str;
  (** [str(e)] of a caught exception *)
  exc_text : PyExc -> str;
  (** [os.path.dirname(os.path.abspath(__file__))] *)
  script_dir : str;
  (** eth_account's [Account.encrypt(private_key, password)], which draws
      its own salt and IV *)
  Account_encrypt : str -> str -> M Web3Keystore;
  (** [load_mnemonic()], which argues with the user over the .env file *)
  load_mnemonic : IO str
}.

Section Script.

Context {L : WalletLibs} {P : Primitives} {Pl : Platform} {H : Host}.

Definition aborted_by_user {A} (_ : Signal) : IO A :=
  print ([10] ++ lit "Aborted by user.") ;;; sys_exit 1.

(** [ask_yes_no(prompt, default, max_retries)]; [default] is a string or
    [None]. *)
Fixpoint ask_yes_no (prompt : str) (default : option str)
    (max_retries : nat) : IO bool :=
  match max_retries with
  | O =>
      print (lit "Too many invalid responses. Aborting.") ;;; sys_exit 1
  | S retries_left =>
      ans <- io_try (line <- input prompt ;;
                     io_ret (str_lower (str_strip line)))
               is_interrupt_or_eof aborted_by_user ;;
      let ans :=
        match default with
        | Some d => if str_eq ans [] then d else ans
        | None => ans
        end in
      if str_in ans [lit "y"; lit "yes"] then io_ret true
      else if str_in ans [lit "n"; lit "no"] then io_ret false
      else
        print (lit "Please answer 'y' or 'n'.") ;;;
        ask_yes_no prompt default retries_left
  end.

(** [ask_choice(prompt, choices, default, max_retries)] *)
Fixpoint ask_choice (prompt : str) (choices : list str)
    (default : option str) (max_retries : nat) : IO str :=
  match max_retries with
  | O =>
      print (lit "Too many invalid responses. Aborting.") ;;; sys_exit 1
  | S retries_left =>
      ans <- io_try (line <- input prompt ;; io_ret (str_strip line))
               is_interrupt_or_eof aborted_by_user ;;
      let ans :=
        match default with
        | Some d => if str_eq ans [] then d else ans
        | None => ans
        end in
      if str_in ans choices then io_ret ans
      else
        print (lit "Invalid selection; choose one of: "
                 ++ str_join (lit ", ") choices) ;;;
        ask_choice prompt choices default retries_left
  end.

(** [get_password_confirm(prompt1, prompt2, max_retries)] *)
Fixpoint get_password_confirm (prompt1 prompt2 : str) (max_retries : nat)
    : IO str :=
  match max_retries with
  | O =>
      print (lit "Too many invalid password attempts. Aborting.") ;;;
      sys_exit 1
  | S retries_left =>
      pw <- io_try (getpass (lit "  " ++ prompt1 ++ lit ": "))
              is_interrupt_or_eof aborted_by_user ;;
      match pw with
      | [] =>
          print (lit "  Error: Password cannot be empty.") ;;;
          get_password_confirm prompt1 prompt2 retries_left
      | _ =>
          confirm <- io_try (getpass (lit "  " ++ prompt2 ++ lit ": "))
                       is_interrupt_or_eof aborted_by_user ;;
          if negb (str_eq pw confirm) then
            print (lit "  Error: Passwords do not match.") ;;;
            get_password_confirm prompt1 prompt2 retries_left
          else io_ret pw
      end
  end.

(** [build_web3_keystore(private_key_hex, password)] *)
Definition build_web3_keystore (private_key_hex password : str)
    : IO Web3Keystore :=
  run_M (Account_encrypt private_key_hex password).

(** [keystore.get('address', 'unknown')] *)
Definition address_or_unknown (ks : Web3Keystore) : str :=
  match w3_address ks with
  | Some a => a
  | None => lit "unknown"
  end.

(** [f"{keystore.get('address')}"] *)
Definition address_or_None (ks : Web3Keystore) : str :=
  match w3_address ks with
  | Some a => a
  | None => lit "None"
  end.

(** [str(e)] in [except Exception as e]. *)
Definition caught_text (sig : Signal) : str :=
  match sig with
  | Exc e => exc_text e
  | _ => lit "EOF when reading a line"
  end.

(** [export_keystore(keypair, seed_bytes)] *)
Definition export_keystore (keypair : Keypair) (seed_bytes : bytes)
    : IO unit :=
  print (lit "Generate JSON keystore file for Enjin Wallet import?") ;;;
  wanted <- ask_yes_no (lit "  Export keystore? (y/n): ") (Some (lit "n")) 3 ;;
  if negb wanted then io_ret tt
  else
    password <- get_password_confirm (lit "Enter password for keystore")
                  (lit "Confirm password") 3 ;;
    print (lit "  Keystore format:") ;;;
    print (lit "    1) Ethereum v3 (Web3) " ++ [8212]
             ++ lit " supported by Enjin Wallet and compatible with Ethereum wallets (default)") ;;;
    print (lit "    2) Polkadot-style (scrypt + xsalsa20-poly1305)") ;;;
    choice <- ask_choice (lit "  Select format [1]: ") [lit "1"; lit "2"]
                (Some (lit "1")) 3 ;;
    if str_eq choice (lit "1") then
      (* fmt == 'web3' *)
      let private_key_hex := lit "0x" ++ ToHex seed_bytes in
      fun s =>
        match build_web3_keystore private_key_hex password s with
        | (Stopped sig, s') =>
            if is_Exception sig then
              print (lit "  Error building Web3 keystore: "
                       ++ caught_text sig) s'
            else (Stopped sig, s')
        | (Done keystore, s') =>
            (ts <- time_s ;;
             let filename :=
               lit "enjin-snap-keystore-web3-"
                 ++ firstn 8 (address_or_unknown keystore) ++ lit "-"
                 ++ str_of_N ts ++ lit ".json" in
             let filepath := os_path_join script_dir filename in
             write_json filepath (Web3Json keystore) ;;;
             print ([10] ++ lit "  Web3 keystore saved to: " ++ filename) ;;;
             print (lit "  Address: " ++ address_or_None keystore) ;;;
             print (lit "  Format: Web3 secret storage (v3)") ;;;
             print ([10] ++ lit "  Import this into Enjin Wallet via:") ;;;
             print (lit "    Settings > Wallets > Add Wallet > Import Wallet > Import Keystore") ;;;
             print (lit "    Copy the content of the exported file and paste in the 'Import Keystore' field.") ;;;
             print (lit "    Input the password in the 'Encryption Password' field.")) s'
        end
    else
      (* Polkadot-style keystore *)
      keystore <- run_M (build_keystore keypair seed_bytes password) ;;
      ts <- time_s ;;
      let filename :=
        lit "enjin-snap-keystore-" ++ firstn 8 (ss58_address keypair)
          ++ lit "-" ++ str_of_N ts ++ lit ".json" in
      let filepath := os_path_join script_dir filename in
      write_json filepath (PolkadotJson keystore) ;;;
      print ([10] ++ lit "  Keystore saved to: " ++ filename) ;;;
      print (lit "  Address: " ++ ss58_address keypair) ;;;
      print (lit "  Encoding: scrypt + xsalsa20-poly1305 (ed25519)") ;;;
      print ([10] ++ lit "  Note: Enjin Wallet currently does not support importing Polkadot-style keystore files.") ;;;
      print (lit "  You may try importing this file into Ethereum-compatible wallets, but compatibility is not guaranteed.").

(** [main()].  The warnings filter it sets first shows nowhere here. *)
Definition main : IO unit :=
  mnemonic <- load_mnemonic ;;
  print (repeat 61 60) ;;;
  (* 1. Ethereum address *)
  io_try (eth_account <- run_M (derive_ethereum mnemonic) ;;
          print (lit "Ethereum (m/44'/60'/0'/0/0):" ++ [10] ++ lit "  "
                   ++ address eth_account))
    is_Exception
    (fun e => print (lit "Error generating Ethereum address: "
                       ++ caught_text e)) ;;;
  print (repeat 45 60) ;;;
  (* 2. sr25519 Matrixchain address *)
  io_try (sr25519_kp <- run_M (derive_matrixchain_sr25519 mnemonic) ;;
          print (lit "Matrixchain sr25519 (blank derivation):" ++ [10]
                   ++ lit "  " ++ ss58_address sr25519_kp))
    is_Exception
    (fun e => print (lit "Error generating sr25519 address: "
                       ++ caught_text e)) ;;;
  print (repeat 45 60) ;;;
  (* 3. Enjin Snap ed25519 address + exports *)
  io_try (pair <- run_M (derive_enjin_snap_ed25519 mnemonic) ;;
          let '(snap_keypair, seed_bytes) := pair in
          print (lit "Enjin Snap ed25519 (m/44'/1155' seed logic):" ++ [10]
                   ++ lit "  " ++ ss58_address snap_keypair) ;;;
          print (lit "  Public key: 0x" ++ ToHex (public_key snap_keypair)) ;;;
          print (repeat 45 60) ;;;
          let private_key_hex := lit "0x" ++ ToHex seed_bytes in
          print (lit "Private key (hex seed) for wallet import:" ++ [10]
                   ++ lit "  " ++ private_key_hex) ;;;
          print (repeat 45 60) ;;;
          export_keystore snap_keypair seed_bytes)
    is_Exception
    (fun e => print (lit "Error generating Enjin Snap address: "
                       ++ caught_text e)) ;;;
  print (repeat 61 60).

End Script.

Local Close Scope io_scope.

(* ===================================================================== *)
(** ** Notions used in the statements about the script *)
(* ===================================================================== *)

(** The session [s] after [shown] was added to the screen and the keyboard
    was read down to [rest]. *)
Definition talked (s : Session) (shown : list Output) (rest : list Key)
    : Session :=
  mkSession (world s) rest (screen s ++ shown) (clock_s s) (disk_error s)
    (files s).

(** How [ask_yes_no] takes a typed line: yes, no, or not an answer. *)
Definition yes_no_verdict {H : Host} (default : option str) (line : str)
    : option bool :=
  let ans := str_lower (str_strip line) in
  let ans :=
    match default with
    | Some d => if str_eq ans [] then d else ans
    | None => ans
    end in
  if str_in ans [lit "y"; lit "yes"] then Some true
  else if str_in ans [lit "n"; lit "no"] then Some false
  else None.

(** What [ask_choice] makes of a typed line. *)
Definition choice_answer (default : option str) (line : str) : str :=
  match default with
  | Some d => if str_eq (str_strip line) [] then d else str_strip line
  | None => str_strip line
  end.

(** Between [s] and [s'] nothing happened but talk: at most [max_keys] keys
    were taken, the screen grew, and world, clock, disk and files are as
    they were. *)
Definition only_talked (max_keys : nat) (s s' : Session) : Prop :=
  world s' = world s
  /\ clock_s s' = clock_s s
  /\ disk_error s' = disk_error s
  /\ files s' = files s
  /\ (exists shown, screen s' = screen s ++ shown)
  /\ (exists k, (k <= max_keys)%nat /\ keyboard s' = skipn k (keyboard s)).

(** A call that ends by returning or by [sys.exit(1)]. *)
Definition returns_or_exits {A} (r : result A) : Prop :=
  match r with
  | Done _ => True
  | Stopped (SystemExit 1) => True
  | Stopped _ => False
  end.

(** What [ask_yes_no] prints after a line that is no answer. *)
Definition please : Output := Printed (lit "Please answer 'y' or 'n'.").

(** What the helpers print before they leave. *)
Definition aborted : Output := Printed ([10] ++ lit "Aborted by user.").

Definition too_many : Output :=
  Printed (lit "Too many invalid responses. Aborting.").

Definition too_many_passwords : Output :=
  Printed (lit "Too many invalid password attempts. Aborting.").

Definition password_prompt (prompt : str) : Output :=
  AskedHidden (lit "  " ++ prompt ++ lit ": ").

Definition empty_password : Output :=
  Printed (lit "  Error: Password cannot be empty.").

Definition no_match : Output :=
  Printed (lit "  Error: Passwords do not match.").

Definition invalid_selection (choices : list str) : Output :=
  Printed (lit "Invalid selection; choose one of: "
             ++ str_join (lit ", ") choices).

(** What [export_keystore] shows and asks. *)
Definition export_header : Output :=
  Printed (lit "Generate JSON keystore file for Enjin Wallet import?").

Definition export_question : str := lit "  Export keystore? (y/n): ".

Definition format_menu : list Output :=
  [Printed (lit "  Keystore format:");
   Printed (lit "    1) Ethereum v3 (Web3) " ++ [8212]
              ++ lit " supported by Enjin Wallet and compatible with Ethereum wallets (default)");
   Printed (lit "    2) Polkadot-style (scrypt + xsalsa20-poly1305)")].

Definition format_question : str := lit "  Select format [1]: ".

Definition web3_filename (ks : Web3Keystore) (ts : N) : str :=
  lit "enjin-snap-keystore-web3-" ++ firstn 8 (address_or_unknown ks)
    ++ lit "-" ++ str_of_N ts ++ lit ".json".

Definition polkadot_filename (keypair : Keypair) (ts : N) : str :=
  lit "enjin-snap-keystore-" ++ firstn 8 (ss58_address keypair) ++ lit "-"
    ++ str_of_N ts ++ lit ".json".

Definition web3_report (ks : Web3Keystore) (ts : N) : list Output :=
  [Printed ([10] ++ lit "  Web3 keystore saved to: " ++ web3_filename ks ts);
   Printed (lit "  Address: " ++ address_or_None ks);
   Printed (lit "  Format: Web3 secret storage (v3)");
   Printed ([10] ++ lit "  Import this into Enjin Wallet via:");
   Printed (lit "    Settings > Wallets > Add Wallet > Import Wallet > Import Keystore");
   Printed (lit "    Copy the content of the exported file and paste in the 'Import Keystore' field.");
   Printed (lit "    Input the password in the 'Encryption Password' field.")].

Definition polkadot_report (keypair : Keypair) (ts : N) : list Output :=
  [Printed ([10] ++ lit "  Keystore saved to: " ++ polkadot_filename keypair ts);
   Printed (lit "  Address: " ++ ss58_address keypair);
   Printed (lit "  Encoding: scrypt + xsalsa20-poly1305 (ed25519)");
   Printed ([10] ++ lit "  Note: Enjin Wallet currently does not support importing Polkadot-style keystore files.");
   Printed (lit "  You may try importing this file into Ethereum-compatible wallets, but compatibility is not guaranteed.")].

(** The session [s] with the world of the core functions moved on to [w]. *)
Definition in_world (s : Session) (w : World) : Session :=
  mkSession w (keyboard s) (screen s) (clock_s s) (disk_error s) (files s).

(** The session [s] after a file was written and [shown] printed. *)
Definition wrote (s : Session) (path : str) (doc : Document)
    (shown : list Output) : Session :=
  mkSession (world s) (keyboard s) (screen s ++ shown) (clock_s s)
    (disk_error s) (files s ++ [(path, doc)]).

(** What [export_keystore] does once password and format are known, for
    format 1 and for format 2. *)
Definition finish_web3 {H : Host} (seed_bytes : bytes) (password : str)
    (s : Session) : result unit * Session :=
  match Account_encrypt (lit "0x" ++ ToHex seed_bytes) password (world s) with
  | (Raise e, w') =>
      (Done tt,
       talked (in_world s w')
         [Printed (lit "  Error building Web3 keystore: " ++ exc_text e)]
         (keyboard s))
  | (Return ks, w') =>
      match disk_error s with
      | Some e => (Stopped (Exc e), in_world s w')
      | None =>
          (Done tt,
           wrote (in_world s w')
             (os_path_join script_dir (web3_filename ks (clock_s s)))
             (Web3Json ks) (web3_report ks (clock_s s)))
      end
  end.

Definition finish_polkadot {P : Primitives} {Pl : Platform} {H : Host}
    (keypair : Keypair) (seed_bytes : bytes) (password : str) (s : Session)
    : result unit * Session :=
  match build_keystore keypair seed_bytes password (world s) with
  | (Raise e, w') => (Stopped (Exc e), in_world s w')
  | (Return ks, w') =>
      match disk_error s with
      | Some e => (Stopped (Exc e), in_world s w')
      | None =>
          (Done tt,
           wrote (in_world s w')
             (os_path_join script_dir (polkadot_filename keypair (clock_s s)))
             (PolkadotJson ks) (polkadot_report keypair (clock_s s)))
      end
  end.

(** The session after the four prompts of [export_keystore] were answered
    and the keyboard stands at [rest]. *)
Definition asked_all (s : Session) (rest : list Key) : Session :=
  talked s
    ([export_header; Asked export_question;
      password_prompt (lit "Enter password for keystore");
      password_prompt (lit "Confirm password")]
       ++ format_menu ++ [Asked format_question])
    rest.

(** A call that ends by returning, by [sys.exit(1)] or with an exception
    of the classes of [PyExc]: no interrupt and no end of input escapes. *)
Definition returns_exits_or_raises {A} (r : result A) : Prop :=
  match r with
  | Done _ => True
  | Stopped (SystemExit 1) => True
  | Stopped (Exc _) => True
  | Stopped _ => False
  end.

(** A computation that, wherever it starts, ends by returning or by
    [sys.exit(1)]; and one that may also raise. *)
Definition ends_well {A} (c : IO A) : Prop :=
  forall s, returns_or_exits (fst (c s)).

Definition ends_or_raises {A} (c : IO A) : Prop :=
  forall s, returns_exits_or_raises (fst (c s)).

(** A computation that only adds to the screen. *)
Definition keeps_screen {A} (c : IO A) : Prop :=
  forall s, exists shown, screen (snd (c s)) = screen s ++ shown.

(** A computation that leaves [o] on the screen however it ends, and one
    that always returns [a]. *)
Definition shows {A} (o : Output) (c : IO A) : Prop :=
  forall s, In o (screen (snd (c s))).

Definition always_gives {A} (a : A) (c : IO A) : Prop :=
  forall s, fst (c s) = Done a.

(** The line in which [main] shows the private key. *)
Definition private_key_line (seed_bytes : bytes) : Output :=
  Printed (lit "Private key (hex seed) for wallet import:" ++ [10]
             ++ lit "  " ++ lit "0x" ++ ToHex seed_bytes).

Module Demo.

(** A host whose [lower] is the ASCII one, whose [Account.encrypt] takes 48
    bytes from the CSPRNG, and whose .env holds good words. *)
Definition host : Host :=
  {| str_lower := map ascii_lower;
     exc_text := fun e => lit (exc_name e);
     script_dir := lit "/home/user/exporter";
     Account_encrypt := fun private_key_hex password w =>
       (Return (mkWeb3Keystore (Some (lit "3f2a9c0d11aa22bb"))
                  (private_key_hex ++ password)),
        mkWorld (entropy w) (cursor w + 48)%nat (clock_ms w)
          (hd_features w));
     load_mnemonic := fun s => (Done Toy.good_words, s) |}.

(** A host whose [Account.encrypt] fails. *)
Definition failing_host : Host :=
  {| str_lower := map ascii_lower;
     exc_text := fun e => lit (exc_name e);
     script_dir := lit "/home/user/exporter";
     Account_encrypt := fun _ _ w => (Raise TypeError, w);
     load_mnemonic := fun s => (Done Toy.good_words, s) |}.

Definition session (keys : list Key) : Session :=
  mkSession Toy.world0 keys [] 1700000000 None [].

(** A user who says yes, types the password "pw" twice, answers the format
    prompt with [selection] and has typed one more line. *)
Definition exporting (selection : str) : Session :=
  session [Typed (lit "y"); Typed (lit "pw"); Typed (lit "pw");
           Typed selection; Typed (lit "left")].

Definition node : Bip32Node := mkBip32Node Toy.scalar (repeat x02 32).

Definition snap_seed : bytes :=
  map byte_of_N (firstn 32 (lit "0x" ++ ToHex Toy.scalar)).

End Demo.

(* ===================================================================== *)
(** ** The runtime helpers on known values *)
(* ===================================================================== *)

Example utf8_latin : utf8_encode [233] = Return [xc3; xa9].
Proof. reflexivity. Qed.

Example utf8_euro : utf8_encode [8364] = Return [xe2; x82; xac].
Proof. reflexivity. Qed.

Example utf8_astral : utf8_encode [128512] = Return [xf0; x9f; x98; x80].
Proof. reflexivity. Qed.

Example utf8_surrogate : utf8_encode [55296] = Raise UnicodeEncodeError.
Proof. reflexivity. Qed.

Example ToHex_known : ToHex [x00; x9f; xab; xff] = lit "009fabff".
Proof. reflexivity. Qed.

Example struct_pack_known :
  struct_pack_LE_I 32768 = Return [x00; x80; x00; x00].
Proof. reflexivity. Qed.

Example b64encode_known :
  b64encode [x00; x01; x02; x03; x04] = lit "AAECAwQ=".
Proof. reflexivity. Qed.

Example b64decode_known :
  b64decode (lit "AAECAwQ=") = Some [x00; x01; x02; x03; x04].
Proof. reflexivity. Qed.

(** libsodium's documented choices: the interactive limits give
    N = 2^14, the sensitive ones N = 2^20, both with r = 8 and p = 1. *)
Example pick_scrypt_params_interactive :
  nacl_bindings_pick_scrypt_params 524288 16777216 = (14, 8, 1).
Proof. vm_compute. reflexivity. Qed.

Example pick_scrypt_params_sensitive :
  nacl_bindings_pick_scrypt_params 33554432 1073741824 = (20, 8, 1).
Proof. vm_compute. reflexivity. Qed.

(** [hashlib.scrypt(b'pw', salt=..., n=1 << 15, r=8, p=1, dklen=32)] on a
    stock build: "memory limit exceeded". *)
Example hashlib_scrypt_stock :
  hashlib_scrypt (Pl := Toy.stock) (P := Toy.prims) [x70; x77]
    (repeat x30 32) 32768 8 1 32 = Raise ValueError.
Proof. reflexivity. Qed.

Example hashlib_scrypt_stock_16384 :
  hashlib_scrypt (Pl := Toy.stock) (P := Toy.prims) [x70; x77]
    (repeat x30 32) 16384 8 1 32 = Return (repeat x0e 32).
Proof. reflexivity. Qed.

(* ===================================================================== *)
(** ** Bytes, text and encodings *)
(* ===================================================================== *)

Lemma byte_of_to_N (b : byte) : byte_of_N (Byte.to_N b) = b.
Proof.
  unfold byte_of_N.
  rewrite N.mod_small by (pose proof (Byte.to_N_bounded b); lia).
  now rewrite Byte.of_to_N.
Qed.

Lemma to_N_byte_of_N (n : N) : n < 256 -> Byte.to_N (byte_of_N n) = n.
Proof.
  intros Hn. unfold byte_of_N. rewrite N.mod_small by exact Hn.
  destruct (Byte.of_N n) as [b|] eqn:E.
  - now apply Byte.to_of_N.
  - apply Byte.of_N_None_iff in E. lia.
Qed.

Lemma byte_of_N_inj (m n : N) :
  m < 256 -> n < 256 -> byte_of_N m = byte_of_N n -> m = n.
Proof.
  intros Hm Hn E.
  rewrite <- (to_N_byte_of_N m Hm), <- (to_N_byte_of_N n Hn).
  now rewrite E.
Qed.

Lemma to_N_lt_256 (b : byte) : Byte.to_N b < 256.
Proof. pose proof (Byte.to_N_bounded b). lia. Qed.

(** ASCII text encodes to one byte per character, the character's code. *)
Lemma utf8_encode_ascii (s : str) :
  Forall (fun c => c < 128) s -> utf8_encode s = Return (map byte_of_N s).
Proof.
  induction 1 as [|c s Hc Hs IH]; simpl.
  - reflexivity.
  - unfold utf8_char. apply N.ltb_lt in Hc. rewrite Hc. simpl.
    now rewrite IH.
Qed.

Lemma to_N_ascii_bytes (s : str) :
  Forall (fun c => c < 128) s -> map Byte.to_N (map byte_of_N s) = s.
Proof.
  induction 1 as [|c s Hc Hs IH]; simpl.
  - reflexivity.
  - rewrite IH, to_N_byte_of_N by lia. reflexivity.
Qed.

Lemma hex_digit_lower_hex (n : N) : n < 16 -> is_lower_hex (hex_digit n).
Proof.
  intros Hn. unfold is_lower_hex, hex_digit.
  destruct (N.ltb_spec n 10); lia.
Qed.

Lemma is_lower_hex_ascii (c : char) : is_lower_hex c -> c < 128.
Proof. unfold is_lower_hex. lia. Qed.

Lemma ToHex_length (bs : bytes) :
  List.length (ToHex bs) = (2 * List.length bs)%nat.
Proof.
  unfold ToHex. induction bs as [|b bs IH]; simpl; [reflexivity|].
  rewrite IH. lia.
Qed.

Lemma ToHex_nibbles (bs : bytes) : ToHex bs = map hex_digit (nibbles bs).
Proof.
  unfold ToHex, nibbles. induction bs as [|b bs IH]; simpl; [reflexivity|].
  now rewrite IH.
Qed.

Lemma nibbles_lt_16 (bs : bytes) : Forall (fun n => n < 16) (nibbles bs).
Proof.
  unfold nibbles. induction bs as [|b bs IH]; simpl; [constructor|].
  pose proof (to_N_lt_256 b) as Hb.
  constructor; [|constructor; [|exact IH]].
  - apply N.Div0.div_lt_upper_bound. lia.
  - apply N.mod_lt. lia.
Qed.

Lemma ToHex_lower_hex (bs : bytes) : Forall is_lower_hex (ToHex bs).
Proof.
  rewrite ToHex_nibbles. apply Forall_map.
  eapply Forall_impl; [|apply nibbles_lt_16].
  intros n Hn. now apply hex_digit_lower_hex.
Qed.

Lemma Forall_firstn {A} (Q : A -> Prop) (n : nat) (l : list A) :
  Forall Q l -> Forall Q (firstn n l).
Proof.
  intros H. revert n. induction H; intros [|n]; simpl; constructor; auto.
Qed.

Lemma firstn_ToHex (n : nat) (bs : bytes) :
  firstn (2 * n) (ToHex bs) = ToHex (firstn n bs).
Proof.
  unfold ToHex. revert bs. induction n as [|n IH]; intros bs.
  - reflexivity.
  - destruct bs as [|b bs]; [reflexivity|].
    replace (2 * S n)%nat with (S (S (2 * n))) by lia.
    simpl firstn. simpl flat_map. simpl in IH. now rewrite IH.
Qed.

Lemma lit_0x : lit "0x" = [48; 120].
Proof. reflexivity. Qed.

(** The 32-character prefix of the hex text of a scalar of at least 15
    bytes, and its bytes. *)
Lemma snap_text_shape (raw : bytes) :
  (15 <= List.length raw)%nat ->
  firstn 32 (lit "0x" ++ ToHex raw)
  = 48 :: 120 :: map hex_digit (nibbles (firstn 15 raw)).
Proof.
  intros Hlen. rewrite lit_0x. simpl app.
  change (firstn 32 (48 :: 120 :: ToHex raw))
    with (48 :: 120 :: firstn (2 * 15) (ToHex raw)).
  now rewrite firstn_ToHex, ToHex_nibbles.
Qed.

Lemma snap_text_ascii (raw : bytes) :
  Forall (fun c => c < 128) (firstn 32 (lit "0x" ++ ToHex raw)).
Proof.
  apply Forall_firstn. rewrite lit_0x. simpl app.
  constructor; [lia|]. constructor; [lia|].
  eapply Forall_impl; [|apply ToHex_lower_hex].
  intros c Hc. now apply is_lower_hex_ascii.
Qed.

(* ===================================================================== *)
(** ** The derivations *)
(* ===================================================================== *)

Section Derivations.

Context {L : WalletLibs}.

(** What [derive_enjin_snap_ed25519] does once the seed generator and the
    SLIP-10 derivation have returned. *)
Lemma derive_enjin_snap_ed25519_run (mnemonic : str) (w : World)
    (seed : bytes) (node : Bip32Node) :
  Bip39SeedGenerator_Generate mnemonic (lit "") = Return seed ->
  Bip32Slip10Secp256k1_FromSeedAndPath seed (lit "m/44'/1155'")
    = Return node ->
  let seed_bytes :=
    map byte_of_N (firstn 32 (lit "0x" ++ ToHex (PrivateKey_Raw node))) in
  derive_enjin_snap_ed25519 mnemonic w
  = (let! keypair := Keypair_create_from_seed seed_bytes SS58_FORMAT ED25519 in
     Return (keypair, seed_bytes), w).
Proof.
  intros Hseed Hnode seed_bytes.
  unfold derive_enjin_snap_ed25519, bind, lift, ret.
  rewrite Hseed, Hnode.
  rewrite (utf8_encode_ascii _ (snap_text_ascii (PrivateKey_Raw node))).
  fold seed_bytes.
  destruct (Keypair_create_from_seed seed_bytes SS58_FORMAT ED25519);
    reflexivity.
Qed.

End Derivations.

(** C1.  When the BIP-39 seed generator (called with the empty passphrase)
    and the SLIP-10 secp256k1 derivation at m/44'/1155' return a node
    with a 32-byte private scalar, the Snap derivation hands to the
    ed25519 key construction, and returns as its seed bytes, the first 32
    characters of "0x" followed by the lowercase hex text of the scalar,
    one byte per character with the character's code: 32 bytes, made of
    '0', 'x' and the first 30 hex digits. *)
Theorem snap_seed_is_hex_text_prefix (L : WalletLibs) (mnemonic : str)
    (w : World) (seed : bytes) (node : Bip32Node) :
  Bip39SeedGenerator_Generate mnemonic (lit "") = Return seed ->
  Bip32Slip10Secp256k1_FromSeedAndPath seed (lit "m/44'/1155'")
    = Return node ->
  List.length (PrivateKey_Raw node) = 32%nat ->
  let text := firstn 32 (lit "0x" ++ ToHex (PrivateKey_Raw node)) in
  let seed_bytes := map byte_of_N text in
  derive_enjin_snap_ed25519 mnemonic w
  = (let! keypair := Keypair_create_from_seed seed_bytes SS58_FORMAT ED25519 in
     Return (keypair, seed_bytes), w)
  /\ map Byte.to_N seed_bytes = text
  /\ List.length seed_bytes = 32%nat
  /\ text = lit "0x" ++ firstn 30 (ToHex (PrivateKey_Raw node)).
Proof.
  intros Hseed Hnode Hlen text seed_bytes.
  split; [now apply derive_enjin_snap_ed25519_run with (seed := seed)|].
  split; [apply to_N_ascii_bytes, snap_text_ascii|].
  split.
  - unfold seed_bytes, text. rewrite length_map, length_firstn, length_app.
    rewrite ToHex_length, Hlen. reflexivity.
  - unfold text. rewrite lit_0x. reflexivity.
Qed.

Lemma snap_seed_is_hex_text_prefix_witness :
  exists keypair seed_bytes,
    derive_enjin_snap_ed25519 (L := Toy.libs) Toy.good_words Toy.world0
    = (Return (keypair, seed_bytes), Toy.world0)
    /\ List.length seed_bytes = 32%nat.
Proof.
  destruct (snap_seed_is_hex_text_prefix Toy.libs Toy.good_words Toy.world0
              (repeat x01 64) (mkBip32Node Toy.scalar (repeat x02 32))
              eq_refl eq_refl eq_refl) as (Hrun & _ & Hlen & _).
  eexists. eexists. split; [rewrite Hrun; reflexivity | exact Hlen].
Defined.

(** C10.  Under the same conditions, whatever seed the Snap derivation
    returns starts with the bytes 0x30 ('0') and 0x78 ('x'), and its other
    30 bytes are codes of lowercase hexadecimal digits; they are the hex
    digits of the first 15 bytes of the scalar, so the seed is a function
    of 120 bits. *)
Theorem snap_seed_alphabet (L : WalletLibs) (mnemonic : str) (w w' : World)
    (seed : bytes) (node : Bip32Node) (keypair : Keypair)
    (seed_bytes : bytes) :
  Bip39SeedGenerator_Generate mnemonic (lit "") = Return seed ->
  Bip32Slip10Secp256k1_FromSeedAndPath seed (lit "m/44'/1155'")
    = Return node ->
  List.length (PrivateKey_Raw node) = 32%nat ->
  derive_enjin_snap_ed25519 mnemonic w = (Return (keypair, seed_bytes), w') ->
  nth_error seed_bytes 0 = Some x30
  /\ nth_error seed_bytes 1 = Some x78
  /\ List.length (skipn 2 seed_bytes) = 30%nat
  /\ Forall (fun b => is_lower_hex (Byte.to_N b)) (skipn 2 seed_bytes)
  /\ seed_bytes
     = x30 :: x78
         :: map (fun d => byte_of_N (hex_digit d))
              (nibbles (firstn 15 (PrivateKey_Raw node)))
  /\ List.length (nibbles (firstn 15 (PrivateKey_Raw node))) = 30%nat
  /\ Forall (fun d => d < 16) (nibbles (firstn 15 (PrivateKey_Raw node))).
Proof.
  intros Hseed Hnode Hlen Hrun.
  rewrite (derive_enjin_snap_ed25519_run mnemonic w seed node Hseed Hnode)
    in Hrun.
  rewrite snap_text_shape in Hrun by lia.
  destruct (Keypair_create_from_seed _ _ _) as [kp|e]; simpl in Hrun;
    [|discriminate].
  injection Hrun as _ Hsb _. subst seed_bytes.
  set (ds := nibbles (firstn 15 (PrivateKey_Raw node))).
  assert (Hds : Forall (fun d => d < 16) ds) by apply nibbles_lt_16.
  assert (Hn : List.length ds = 30%nat).
  { unfold ds. rewrite <- (length_map hex_digit), <- ToHex_nibbles.
    rewrite ToHex_length, length_firstn, Hlen. reflexivity. }
  simpl map. rewrite map_map.
  repeat split; try reflexivity; try assumption.
  - simpl skipn. now rewrite length_map.
  - simpl skipn. apply Forall_map.
    eapply Forall_impl; [|exact Hds].
    intros d Hd. simpl.
    pose proof (hex_digit_lower_hex d Hd) as Hx.
    rewrite to_N_byte_of_N; [exact Hx|].
    apply is_lower_hex_ascii in Hx. lia.
Qed.

Lemma snap_seed_alphabet_witness :
  nth_error (map byte_of_N (firstn 32 (lit "0x" ++ ToHex Toy.scalar))) 0
  = Some x30.
Proof.
  exact (proj1 (snap_seed_alphabet Toy.libs Toy.good_words Toy.world0
                  Toy.world0 (repeat x01 64)
                  (mkBip32Node Toy.scalar (repeat x02 32))
                  (Toy.keypair_of
                     (map byte_of_N
                        (firstn 32 (lit "0x" ++ ToHex Toy.scalar))))
                  (map byte_of_N (firstn 32 (lit "0x" ++ ToHex Toy.scalar)))
                  eq_refl eq_refl eq_refl eq_refl)).
Defined.

(** The world after [derive_ethereum]: the switch is on, nothing else has
    changed. *)
Lemma derive_ethereum_run (L : WalletLibs) (mnemonic : str) (w : World) :
  derive_ethereum mnemonic w
  = (if bip39_is_valid mnemonic
     then eth_hd_account mnemonic (lit "") (lit "m/44'/60'/0'/0/0")
     else Raise ValidationError,
     mkWorld (entropy w) (cursor w) (clock_ms w) true).
Proof.
  unfold derive_ethereum, bind, Account_enable_unaudited_hdwallet_features,
    Account_from_mnemonic.
  simpl. destruct (bip39_is_valid mnemonic); simpl; [|reflexivity].
  destruct (eth_hd_account _ _ _); reflexivity.
Qed.




(** C9, as the code has it.  For words that fail the BIP-39 check,
    [derive_ethereum] raises the [ValidationError] of the library, which
    leaves the function as an exception, and no account is returned. *)
Theorem derive_ethereum_invalid_raises (L : WalletLibs) (mnemonic : str)
    (w : World) :
  bip39_is_valid mnemonic = false ->
  derive_ethereum mnemonic w
  = (Raise ValidationError,
     mkWorld (entropy w) (cursor w) (clock_ms w) true)
  /\ forall account w', derive_ethereum mnemonic w <> (Return account, w').
Proof.
  intros Hbad. rewrite derive_ethereum_run, Hbad.
  split; [reflexivity|]. intros account w' H. discriminate H.
Qed.

Lemma derive_ethereum_invalid_raises_witness :
  derive_ethereum (L := Toy.libs) Toy.bad_words Toy.world0
  = (Raise ValidationError, mkWorld Toy.counting 0 1700000000000 true).
Proof.
  exact (proj1 (derive_ethereum_invalid_raises Toy.libs Toy.bad_words
                  Toy.world0 eq_refl)).
Defined.

(** C9, as stated, fails even when an exception is taken for the typed
    failure: no error of a class [InvalidMnemonic] comes out. *)
Lemma derive_ethereum_no_InvalidMnemonic :
  ~ (forall (L : WalletLibs) (mnemonic : str) (w : World),
        bip39_is_valid mnemonic = false ->
        exists e w',
          derive_ethereum mnemonic w = (Raise e, w')
          /\ exc_name e = "InvalidMnemonic"%string).
Proof.
  intros H.
  destruct (H Toy.libs Toy.bad_words Toy.world0 eq_refl) as (e & w' & Hrun & He).
  rewrite derive_ethereum_run in Hrun. simpl in Hrun.
  injection Hrun as He' _. subst e. discriminate He.
Qed.

(* ===================================================================== *)
(** ** The keystore encoder, step by step *)
(* ===================================================================== *)

Lemma drawn_salt_length (w : World) : List.length (drawn_salt w) = 32%nat.
Proof. unfold drawn_salt. now rewrite length_map, length_seq. Qed.

Lemma drawn_nonce_length (w : World) : List.length (drawn_nonce w) = 24%nat.
Proof. unfold drawn_nonce. now rewrite length_map, length_seq. Qed.

Lemma le32_32768 : le32 32768 = [x00; x80; x00; x00].
Proof. reflexivity. Qed.

Lemma le32_1 : le32 1 = [x01; x00; x00; x00].
Proof. reflexivity. Qed.

Lemma le32_8 : le32 8 = [x08; x00; x00; x00].
Proof. reflexivity. Qed.

Lemma crypto_secretbox_parts (P : Primitives) (message nonce k : bytes) :
  crypto_secretbox message nonce k
  = secretbox_tag message nonce k ++ secretbox_ciphertext message nonce k.
Proof. reflexivity. Qed.

Lemma SecretBox_inv (k : bytes) (box : SecretBoxObj) :
  SecretBox k = Return box -> box_key box = k /\ List.length k = 32%nat.
Proof.
  unfold SecretBox. destruct (Nat.eqb_spec (List.length k) 32) as [E|E].
  - intros H. injection H as <-. now split.
  - discriminate.
Qed.

Lemma skipn_drawn_nonce (w : World) (rest : bytes) :
  skipn 24 (drawn_nonce w ++ rest) = rest.
Proof.
  rewrite skipn_app, drawn_nonce_length.
  rewrite skipn_all2 by (rewrite drawn_nonce_length; lia). reflexivity.
Qed.

Section Encoder.

Context {P : Primitives} {Pl : Platform}.

(** The whole of [build_keystore]: where it can stop, and what it returns
    when it does not. *)
Lemma build_keystore_run (keypair : Keypair) (seed_bytes : bytes)
    (password : str) (w : World) :
  build_keystore keypair seed_bytes password w
  = match utf8_encode password with
    | Raise e => (Raise e, after_draw 32 w)
    | Return password_bytes =>
        match keystore_key password_bytes (drawn_salt w) with
        | Raise e => (Raise e, after_draw 32 w)
        | Return k =>
            match SecretBox k with
            | Raise e => (Raise e, after_draw 24 (after_draw 32 w))
            | Return box =>
                (Return
                   (keystore_record keypair
                      (b64encode
                         (keystore_blob (drawn_salt w) (drawn_nonce w)
                            (crypto_secretbox
                               (pkcs8_header ++ seed_bytes ++ pkcs8_divider
                                  ++ public_key keypair)
                               (drawn_nonce w) k)))
                      (clock_ms w)),
                 after_draw 24 (after_draw 32 w))
            end
        end
    end.
Proof.
  assert (Hrest : forall k,
    (let (o, w') := (SecretBox k, after_draw 24 (after_draw 32 w)) in
     match o with
     | Return box =>
         match SecretBox_encrypt box
                 (pkcs8_header ++ seed_bytes ++ pkcs8_divider
                    ++ public_key keypair) (drawn_nonce w) with
         | Return message =>
             (Return
                (keystore_record keypair
                   (b64encode
                      (drawn_salt w ++ le32 32768 ++ le32 1 ++ le32 8
                         ++ drawn_nonce w ++ skipn 24 message))
                   (clock_ms w)), w')
         | Raise e => (Raise e, w')
         end
     | Raise e => (Raise e, w')
     end)
    = match SecretBox k with
      | Raise e => (Raise e, after_draw 24 (after_draw 32 w))
      | Return box =>
          (Return
             (keystore_record keypair
                (b64encode
                   (keystore_blob (drawn_salt w) (drawn_nonce w)
                      (crypto_secretbox
                         (pkcs8_header ++ seed_bytes ++ pkcs8_divider
                            ++ public_key keypair)
                         (drawn_nonce w) k)))
                (clock_ms w)),
           after_draw 24 (after_draw 32 w))
      end).
  { intros k.
    destruct (SecretBox k) as [box|e] eqn:Hbox; [|reflexivity].
    apply SecretBox_inv in Hbox. destruct Hbox as [Hk _].
    unfold SecretBox_encrypt. rewrite drawn_nonce_length. simpl negb.
    cbv iota. rewrite skipn_drawn_nonce, Hk. reflexivity. }
  unfold build_keystore.
  change (N.shiftl 1 15) with 32768.
  change (128 * 32768 * 8) with 33554432.
  cbv beta iota zeta delta [bind lift ret os_urandom try_except time_ms].
  fold (drawn_salt w). fold (after_draw 32 w).
  destruct (utf8_encode password) as [pwb|e]; [|reflexivity].
  change (map (entropy (after_draw 32 w)) (seq (cursor (after_draw 32 w)) 24))
    with (drawn_nonce w).
  change (struct_pack_LE_I 32768) with (Return (le32 32768)).
  change (struct_pack_LE_I 1) with (Return (le32 1)).
  change (struct_pack_LE_I 8) with (Return (le32 8)).
  cbv beta iota.
  unfold keystore_key.
  destruct (hashlib_scrypt pwb (drawn_salt w) 32768 8 1 32) as [k|e].
  - rewrite <- (Hrest k). clear Hrest.
    destruct (SecretBox k) as [box|e]; [|reflexivity].
    destruct (SecretBox_encrypt box _ _); reflexivity.
  - destruct (is_AttributeError e); [|reflexivity].
    destruct (nacl_pwhash_scrypt_kdf 32 pwb (drawn_salt w) 32768 33554432)
      as [k|e']; [|reflexivity].
    rewrite <- (Hrest k). clear Hrest.
    destruct (SecretBox k) as [box|e']; [|reflexivity].
    destruct (SecretBox_encrypt box _ _); reflexivity.
Qed.

End Encoder.

(* ===================================================================== *)
(** ** base64 and the fields of the blob *)
(* ===================================================================== *)

Lemma list_ind3 {A} (Q : list A -> Prop) :
  Q [] -> (forall a, Q [a]) -> (forall a b, Q [a; b]) ->
  (forall a b c l, Q l -> Q (a :: b :: c :: l)) ->
  forall l, Q l.
Proof.
  intros H0 H1 H2 H3 l.
  assert (H : forall n l, (List.length l <= n)%nat -> Q l).
  { induction n as [|n IH]; intros [|a [|b [|c t]]] Hl; simpl in Hl;
      try lia; auto.
    apply H3, IH. lia. }
  now apply (H (List.length l)).
Qed.

Lemma sextet_enumerated (s : N) :
  s < 64 -> In s (map N.of_nat (seq 0 64)).
Proof.
  intros Hs. apply in_map_iff. exists (N.to_nat s).
  split; [apply N2Nat.id | apply in_seq; lia].
Qed.

Lemma b64val_b64char (s : N) : s < 64 -> b64val (b64char s) = Some s.
Proof.
  intros Hs.
  assert (H : forallb
                (fun s =>
                   match b64val (b64char s) with
                   | Some v => v =? s
                   | None => false
                   end) (map N.of_nat (seq 0 64)) = true)
    by (vm_compute; reflexivity).
  rewrite forallb_forall in H.
  specialize (H s (sextet_enumerated s Hs)).
  destruct (b64val (b64char s)) as [v|]; [|discriminate].
  apply N.eqb_eq in H. now subst.
Qed.

Lemma b64val_pad : b64val b64_pad = None.
Proof. reflexivity. Qed.

Section Sextets.

Local Ltac Zify.zify_post_hook ::= Z.to_euclidean_division_equations.

Lemma sextet1_lt (x : N) : x < 256 -> x / 4 < 64.
Proof. lia. Qed.

Lemma sextet2_lt (x y : N) : y < 256 -> (x mod 4) * 16 + y / 16 < 64.
Proof. lia. Qed.

Lemma sextet3_lt (y z : N) : z < 256 -> (y mod 16) * 4 + z / 64 < 64.
Proof. lia. Qed.

Lemma sextet4_lt (z : N) : z mod 64 < 64.
Proof. lia. Qed.

Lemma sextet2_short_lt (x : N) : (x mod 4) * 16 < 64.
Proof. lia. Qed.

Lemma sextet3_short_lt (y : N) : (y mod 16) * 4 < 64.
Proof. lia. Qed.

Lemma octet1 (x y : N) :
  y < 256 -> x / 4 * 4 + ((x mod 4) * 16 + y / 16) / 16 = x.
Proof. lia. Qed.

Lemma octet1_short (x : N) : x / 4 * 4 + ((x mod 4) * 16) / 16 = x.
Proof. lia. Qed.

Lemma octet2 (x y z : N) :
  y < 256 -> z < 256 ->
  (((x mod 4) * 16 + y / 16) mod 16) * 16 + ((y mod 16) * 4 + z / 64) / 4 = y.
Proof. lia. Qed.

Lemma octet2_short (x y : N) :
  y < 256 ->
  (((x mod 4) * 16 + y / 16) mod 16) * 16 + ((y mod 16) * 4) / 4 = y.
Proof. lia. Qed.

Lemma octet3 (y z : N) :
  z < 256 -> (((y mod 16) * 4 + z / 64) mod 4) * 64 + z mod 64 = z.
Proof. lia. Qed.

End Sextets.

(** Decoding undoes encoding. *)
Lemma b64decode_b64encode (bs : bytes) : b64decode (b64encode bs) = Some bs.
Proof.
  induction bs as [|a|a b|a b c rest IH] using list_ind3.
  - reflexivity.
  - pose proof (to_N_lt_256 a) as Ha.
    cbn [b64encode b64decode].
    rewrite (b64val_b64char _ (sextet1_lt _ Ha)).
    rewrite (b64val_b64char _ (sextet2_short_lt _)).
    rewrite b64val_pad, N.eqb_refl. cbn [andb].
    now rewrite octet1_short, byte_of_to_N.
  - pose proof (to_N_lt_256 a) as Ha. pose proof (to_N_lt_256 b) as Hb.
    cbn [b64encode b64decode].
    rewrite (b64val_b64char _ (sextet1_lt _ Ha)).
    rewrite (b64val_b64char _ (sextet2_lt (Byte.to_N a) _ Hb)).
    rewrite (b64val_b64char _ (sextet3_short_lt _)).
    rewrite b64val_pad, N.eqb_refl.
    rewrite (octet1 _ _ Hb), (octet2_short _ _ Hb).
    now rewrite !byte_of_to_N.
  - pose proof (to_N_lt_256 a) as Ha. pose proof (to_N_lt_256 b) as Hb.
    pose proof (to_N_lt_256 c) as Hc.
    cbn [b64encode b64decode].
    rewrite (b64val_b64char _ (sextet1_lt _ Ha)).
    rewrite (b64val_b64char _ (sextet2_lt (Byte.to_N a) _ Hb)).
    rewrite (b64val_b64char _ (sextet3_lt (Byte.to_N b) _ Hc)).
    rewrite (b64val_b64char _ (sextet4_lt _)).
    rewrite IH.
    rewrite (octet1 _ _ Hb), (octet2 _ _ _ Hb Hc), (octet3 _ _ Hc).
    now rewrite !byte_of_to_N.
Qed.

Lemma b64encode_inj (a b : bytes) : b64encode a = b64encode b -> a = b.
Proof.
  intros E. apply (f_equal b64decode) in E.
  rewrite !b64decode_b64encode in E. now injection E.
Qed.

Lemma firstn_exact {A} (l1 l2 : list A) :
  firstn (List.length l1) (l1 ++ l2) = l1.
Proof.
  rewrite firstn_app, Nat.sub_diag, firstn_all. simpl. apply app_nil_r.
Qed.

Lemma skipn_exact {A} (l1 l2 : list A) :
  skipn (List.length l1) (l1 ++ l2) = l2.
Proof.
  rewrite skipn_app, Nat.sub_diag, skipn_all. reflexivity.
Qed.

Lemma firstn_length_app {A} (n : nat) (l1 l2 : list A) :
  List.length l1 = n -> firstn n (l1 ++ l2) = l1.
Proof. intros <-. apply firstn_exact. Qed.

Lemma skipn_length_app {A} (n : nat) (l1 l2 : list A) :
  List.length l1 = n -> skipn n (l1 ++ l2) = l2.
Proof. intros <-. apply skipn_exact. Qed.

Lemma skipn_past {A} (n : nat) (l1 l2 : list A) :
  skipn (n + List.length l1) (l1 ++ l2) = skipn n l2.
Proof. now rewrite <- skipn_skipn, skipn_exact. Qed.

(** The reader's slices of a blob are the fields it was made of. *)
Lemma keystore_blob_fields (salt nonce boxed : bytes) :
  List.length salt = 32%nat -> List.length nonce = 24%nat ->
  let blob := keystore_blob salt nonce boxed in
  firstn 32 blob = salt
  /\ firstn 4 (skipn 32 blob) = le32 32768
  /\ firstn 4 (skipn 36 blob) = le32 1
  /\ firstn 4 (skipn 40 blob) = le32 8
  /\ firstn 24 (skipn 44 blob) = nonce
  /\ skipn 68 blob = boxed.
Proof.
  intros Hs Hn blob. unfold blob, keystore_blob.
  assert (S : forall k t, skipn (k + 32) (salt ++ t) = skipn k t)
    by (intros k t; rewrite <- Hs; apply skipn_past).
  repeat split.
  - rewrite <- Hs. apply firstn_exact.
  - rewrite (S 0%nat). reflexivity.
  - rewrite (S 4%nat). reflexivity.
  - rewrite (S 8%nat). reflexivity.
  - rewrite (S 12%nat). simpl skipn. rewrite <- Hn. apply firstn_exact.
  - rewrite (S 36%nat). change 36%nat with (24 + 12)%nat.
    rewrite <- skipn_skipn. simpl (skipn 12 _). rewrite <- Hn.
    apply skipn_exact.
Qed.

(* ===================================================================== *)
(** ** The secret box *)
(* ===================================================================== *)

Lemma in_all_bytes (b : byte) : In b all_bytes.
Proof.
  unfold all_bytes. apply in_map_iff. exists (N.to_nat (Byte.to_N b)).
  split.
  - rewrite N2Nat.id. apply byte_of_to_N.
  - apply in_seq. pose proof (to_N_lt_256 b). lia.
Qed.

Lemma xor_byte_twice (x y : byte) :
  byte_of_N
    (N.lxor (Byte.to_N (byte_of_N (N.lxor (Byte.to_N x) (Byte.to_N y))))
       (Byte.to_N y)) = x.
Proof.
  assert (H : forallb
                (fun x =>
                   forallb
                     (fun y =>
                        Byte.eqb
                          (byte_of_N
                             (N.lxor
                                (Byte.to_N
                                   (byte_of_N
                                      (N.lxor (Byte.to_N x) (Byte.to_N y))))
                                (Byte.to_N y))) x) all_bytes) all_bytes = true)
    by (vm_compute; reflexivity).
  rewrite forallb_forall in H. specialize (H x (in_all_bytes x)).
  rewrite forallb_forall in H. specialize (H y (in_all_bytes y)).
  now apply Byte.byte_dec_bl.
Qed.

Lemma xor_bytes_length (a b : bytes) :
  (List.length a <= List.length b)%nat ->
  List.length (xor_bytes a b) = List.length a.
Proof.
  revert b. induction a as [|x a IH]; intros [|y b] Hl; simpl in *;
    try lia.
  now rewrite IH by lia.
Qed.

Lemma xor_bytes_twice (a b : bytes) :
  (List.length a <= List.length b)%nat ->
  xor_bytes (xor_bytes a b) b = a.
Proof.
  revert b. induction a as [|x a IH]; intros [|y b] Hl; simpl in *;
    try lia; try reflexivity.
  now rewrite xor_byte_twice, IH by lia.
Qed.

Lemma bytes_eqb_refl (a : bytes) : bytes_eqb a a = true.
Proof.
  unfold bytes_eqb. destruct (list_eq_dec Byte.byte_eq_dec a a); congruence.
Qed.

Section SecretBoxFacts.

Context {P : Primitives} {OK : PrimitivesOk P}.

Lemma secretbox_ciphertext_length (message nonce k : bytes) :
  List.length (secretbox_ciphertext message nonce k) = List.length message.
Proof.
  unfold secretbox_ciphertext. apply xor_bytes_length.
  rewrite length_skipn, xsalsa20_stream_length. lia.
Qed.

Lemma secretbox_tag_length (message nonce k : bytes) :
  List.length (secretbox_tag message nonce k) = 16%nat.
Proof. apply poly1305_length. Qed.

(** Opening a box with the key and nonce it was sealed with gives the
    message back. *)
Lemma crypto_secretbox_open_seal (message nonce k : bytes) :
  crypto_secretbox_open (crypto_secretbox message nonce k) nonce k
  = Return message.
Proof.
  rewrite crypto_secretbox_parts. unfold crypto_secretbox_open.
  pose proof (secretbox_tag_length message nonce k) as Ht.
  pose proof (secretbox_ciphertext_length message nonce k) as Hc.
  rewrite length_app, Ht.
  destruct (Nat.ltb_spec (16 + List.length (secretbox_ciphertext message nonce k)) 16);
    [lia|].
  rewrite (firstn_length_app _ _ _ Ht), (skipn_length_app _ _ _ Ht), Hc.
  change (poly1305
            (firstn 32 (xsalsa20_stream k nonce (32 + List.length message)))
            (secretbox_ciphertext message nonce k))
    with (secretbox_tag message nonce k).
  rewrite bytes_eqb_refl.
  unfold secretbox_ciphertext. rewrite xor_bytes_twice; [reflexivity|].
  rewrite length_skipn, xsalsa20_stream_length. lia.
Qed.

End SecretBoxFacts.

(* ===================================================================== *)
(** ** The key derivation, branch by branch *)
(* ===================================================================== *)

Lemma scrypt_memory_32768 : scrypt_memory 32768 8 1 = 33557504.
Proof. reflexivity. Qed.

Lemma pick_scrypt_params_fallback :
  nacl_bindings_pick_scrypt_params 32768 33554432 = (10, 8, 1).
Proof. vm_compute. reflexivity. Qed.

Section KeyDerivation.

Context {P : Primitives} {Pl : Platform}.

(** hashlib has scrypt and OpenSSL allows the memory: the key is scrypt
    with N = 32768, r = 8, p = 1. *)
Lemma keystore_key_hashlib (password_bytes salt : bytes) :
  hashlib_has_scrypt = true ->
  33557504 <= openssl_scrypt_max_mem ->
  keystore_key password_bytes salt
  = Return (scrypt_rfc7914 password_bytes salt 32768 8 1 32).
Proof.
  intros Has Hmem. unfold keystore_key, hashlib_scrypt.
  rewrite Has. cbn [negb].
  change (is_power_of_2 32768) with true. cbn [negb].
  rewrite scrypt_memory_32768.
  destruct (N.ltb_spec openssl_scrypt_max_mem 33557504); [lia|reflexivity].
Qed.

(** hashlib has scrypt but OpenSSL's limit is below what N = 32768, r = 8
    needs (the stock 32 MiB is): [ValueError], which the [except
    AttributeError] clause lets through. *)
Lemma keystore_key_memory_limit (password_bytes salt : bytes) :
  hashlib_has_scrypt = true ->
  openssl_scrypt_max_mem < 33557504 ->
  keystore_key password_bytes salt = Raise ValueError.
Proof.
  intros Has Hmem. unfold keystore_key, hashlib_scrypt.
  rewrite Has. cbn [negb].
  change (is_power_of_2 32768) with true. cbn [negb].
  rewrite scrypt_memory_32768.
  destruct (N.ltb_spec openssl_scrypt_max_mem 33557504); [reflexivity|lia].
Qed.

(** hashlib has no scrypt: PyNaCl's [kdf] is called with
    [opslimit = 32768] and [memlimit = 128 * 32768 * 8], for which it picks
    N = 2^10. *)
Lemma keystore_key_fallback (password_bytes salt : bytes) :
  hashlib_has_scrypt = false ->
  List.length salt = 32%nat ->
  keystore_key password_bytes salt
  = Return (scrypt_rfc7914 password_bytes salt 1024 8 1 32).
Proof.
  intros Has Hsalt. unfold keystore_key, hashlib_scrypt.
  rewrite Has. cbn [negb is_AttributeError].
  unfold nacl_pwhash_scrypt_kdf. rewrite Hsalt. cbn [Nat.eqb negb].
  rewrite pick_scrypt_params_fallback.
  reflexivity.
Qed.

End KeyDerivation.

(* ===================================================================== *)
(** ** The keystore encoder: layout *)
(* ===================================================================== *)

Section EncoderLayout.

Context {P : Primitives} {Pl : Platform}.

(** A call that returns has passed every step. *)
Lemma build_keystore_returns (keypair : Keypair) (seed_bytes : bytes)
    (password : str) (w w' : World) (ks : Keystore) :
  build_keystore keypair seed_bytes password w = (Return ks, w') ->
  exists password_bytes k,
    utf8_encode password = Return password_bytes
    /\ keystore_key password_bytes (drawn_salt w) = Return k
    /\ List.length k = 32%nat
    /\ ks = keystore_record keypair
              (b64encode
                 (keystore_blob (drawn_salt w) (drawn_nonce w)
                    (crypto_secretbox
                       (pkcs8_header ++ seed_bytes ++ pkcs8_divider
                          ++ public_key keypair)
                       (drawn_nonce w) k)))
              (clock_ms w)
    /\ w' = after_draw 24 (after_draw 32 w).
Proof.
  rewrite build_keystore_run.
  destruct (utf8_encode password) as [pwb|e]; [|discriminate].
  destruct (keystore_key pwb (drawn_salt w)) as [k|e] eqn:Hkey;
    [|discriminate].
  destruct (SecretBox k) as [box|e] eqn:Hbox; [|discriminate].
  intros H. injection H as <- <-.
  apply SecretBox_inv in Hbox. destruct Hbox as [_ Hk].
  exists pwb, k. repeat split; auto.
Qed.

(** And every step passed makes the call return. *)
Lemma build_keystore_succeeds (keypair : Keypair) (seed_bytes : bytes)
    (password : str) (w : World) (password_bytes k : bytes) :
  utf8_encode password = Return password_bytes ->
  keystore_key password_bytes (drawn_salt w) = Return k ->
  List.length k = 32%nat ->
  build_keystore keypair seed_bytes password w
  = (Return
       (keystore_record keypair
          (b64encode
             (keystore_blob (drawn_salt w) (drawn_nonce w)
                (crypto_secretbox
                   (pkcs8_header ++ seed_bytes ++ pkcs8_divider
                      ++ public_key keypair)
                   (drawn_nonce w) k)))
          (clock_ms w)),
     after_draw 24 (after_draw 32 w)).
Proof.
  intros Hpw Hkey Hk. rewrite build_keystore_run, Hpw, Hkey.
  unfold SecretBox. rewrite Hk. reflexivity.
Qed.

End EncoderLayout.

(** C2.  In every call of [build_keystore] that returns, with a 32-byte
    seed and a 32-byte public key, the message put in the secret box is
    the 16 header bytes 30 53 02 01 01 30 05 06 03 2b 65 70 04 22 04 20,
    the seed, the 5 divider bytes a1 23 03 21 00 and the public key, 85
    bytes in all. *)
Theorem keystore_plaintext_layout (P : Primitives) (Pl : Platform)
    (keypair : Keypair) (seed_bytes : bytes) (password : str)
    (w w' : World) (ks : Keystore) :
  List.length seed_bytes = 32%nat ->
  List.length (public_key keypair) = 32%nat ->
  build_keystore keypair seed_bytes password w = (Return ks, w') ->
  let plaintext :=
    [x30; x53; x02; x01; x01; x30; x05; x06;
     x03; x2b; x65; x70; x04; x22; x04; x20]
      ++ seed_bytes ++ [xa1; x23; x03; x21; x00] ++ public_key keypair in
  List.length plaintext = 85%nat
  /\ exists k,
       List.length k = 32%nat
       /\ SecretBox_encrypt (mkSecretBox k) plaintext (drawn_nonce w)
          = Return (drawn_nonce w
                      ++ crypto_secretbox plaintext (drawn_nonce w) k)
       /\ encoded ks
          = b64encode
              (keystore_blob (drawn_salt w) (drawn_nonce w)
                 (crypto_secretbox plaintext (drawn_nonce w) k)).
Proof.
  intros Hseed Hpk Hrun plaintext.
  split.
  - unfold plaintext. rewrite !length_app, Hseed, Hpk. reflexivity.
  - apply build_keystore_returns in Hrun.
    destruct Hrun as (pwb & k & _ & _ & Hk & Hks & _).
    exists k. split; [exact Hk|]. split.
    + unfold SecretBox_encrypt. now rewrite drawn_nonce_length.
    + subst ks. reflexivity.
Qed.

(** C3.  In every call that returns, [encoded] is the base64 text of: the
    32-byte salt, then 00 80 00 00 (N = 32768, little-endian), then
    01 00 00 00 (p = 1), then 08 00 00 00 (r = 8), then the 24-byte
    nonce, then the secret box. *)
Theorem keystore_encoded_layout (P : Primitives) (Pl : Platform)
    (keypair : Keypair) (seed_bytes : bytes) (password : str)
    (w w' : World) (ks : Keystore) :
  build_keystore keypair seed_bytes password w = (Return ks, w') ->
  exists salt nonce boxed k,
    encoded ks
    = b64encode
        (salt ++ [x00; x80; x00; x00] ++ [x01; x00; x00; x00]
           ++ [x08; x00; x00; x00] ++ nonce ++ boxed)
    /\ salt = drawn_salt w /\ List.length salt = 32%nat
    /\ nonce = drawn_nonce w /\ List.length nonce = 24%nat
    /\ le32_value [x00; x80; x00; x00] = 32768
    /\ le32_value [x01; x00; x00; x00] = 1
    /\ le32_value [x08; x00; x00; x00] = 8
    /\ boxed
       = crypto_secretbox
           (pkcs8_header ++ seed_bytes ++ pkcs8_divider
              ++ public_key keypair) nonce k.
Proof.
  intros Hrun. apply build_keystore_returns in Hrun.
  destruct Hrun as (pwb & k & _ & _ & _ & Hks & _).
  exists (drawn_salt w), (drawn_nonce w),
    (crypto_secretbox
       (pkcs8_header ++ seed_bytes ++ pkcs8_divider ++ public_key keypair)
       (drawn_nonce w) k), k.
  subst ks.
  repeat split; auto using drawn_salt_length, drawn_nonce_length.
Qed.

Lemma toy_prims_ok : PrimitivesOk Toy.prims.
Proof.
  split; intros; cbn [Toy.prims xsalsa20_stream poly1305 scrypt_rfc7914];
    apply repeat_length.
Qed.

(** A run on a platform whose OpenSSL allows the memory. *)
Lemma toy_roomy_run :
  build_keystore (P := Toy.prims) (Pl := Toy.roomy) Toy.keypair Toy.seed32
    Toy.password Toy.world0
  = (Return
       (keystore_record Toy.keypair
          (b64encode
             (keystore_blob (drawn_salt Toy.world0) (drawn_nonce Toy.world0)
                (crypto_secretbox (P := Toy.prims) Toy.plaintext
                   (drawn_nonce Toy.world0) (repeat x0f 32))))
          1700000000000),
     after_draw 24 (after_draw 32 Toy.world0)).
Proof.
  exact (build_keystore_succeeds (P := Toy.prims) (Pl := Toy.roomy)
           Toy.keypair Toy.seed32 Toy.password Toy.world0
           [x70; x77] (repeat x0f 32) eq_refl eq_refl eq_refl).
Qed.

Lemma keystore_plaintext_layout_witness :
  exists ks w',
    build_keystore (P := Toy.prims) (Pl := Toy.roomy) Toy.keypair Toy.seed32
      Toy.password Toy.world0 = (Return ks, w')
    /\ List.length Toy.plaintext = 85%nat.
Proof.
  eexists. eexists. split; [exact toy_roomy_run|].
  exact (proj1 (keystore_plaintext_layout Toy.prims Toy.roomy Toy.keypair
                  Toy.seed32 Toy.password Toy.world0 _ _ eq_refl eq_refl
                  toy_roomy_run)).
Defined.

Lemma keystore_encoded_layout_witness :
  exists salt nonce boxed,
    b64encode
      (keystore_blob (drawn_salt Toy.world0) (drawn_nonce Toy.world0)
         (crypto_secretbox (P := Toy.prims) Toy.plaintext
            (drawn_nonce Toy.world0) (repeat x0f 32)))
    = b64encode
        (salt ++ [x00; x80; x00; x00] ++ [x01; x00; x00; x00]
           ++ [x08; x00; x00; x00] ++ nonce ++ boxed)
    /\ List.length salt = 32%nat /\ List.length nonce = 24%nat.
Proof.
  destruct (keystore_encoded_layout Toy.prims Toy.roomy Toy.keypair
              Toy.seed32 Toy.password Toy.world0 _ _ toy_roomy_run)
    as (salt & nonce & boxed & k & He & _ & Hs & _ & Hn & _).
  exists salt, nonce, boxed. split; [exact He|]. split; assumption.
Defined.

(** C4, as the code has it.  The secret box that follows the nonce in the
    blob is the 16-byte Poly1305 authenticator followed by the ciphertext
    (the authenticator comes first); the nonce that [box.encrypt] puts in
    front of its result is cut off, so the nonce stands in the blob once,
    and the decoded blob has 32 + 12 + 24 + 16 + 85 bytes. *)
Theorem keystore_box_is_tag_then_ciphertext (P : Primitives)
    (OK : PrimitivesOk P) (Pl : Platform) (keypair : Keypair)
    (seed_bytes : bytes) (password : str) (w w' : World) (ks : Keystore) :
  List.length seed_bytes = 32%nat ->
  List.length (public_key keypair) = 32%nat ->
  build_keystore keypair seed_bytes password w = (Return ks, w') ->
  exists k blob,
    let plaintext :=
      pkcs8_header ++ seed_bytes ++ pkcs8_divider ++ public_key keypair in
    let tag := secretbox_tag plaintext (drawn_nonce w) k in
    let ciphertext := secretbox_ciphertext plaintext (drawn_nonce w) k in
    List.length k = 32%nat
    /\ SecretBox_encrypt (mkSecretBox k) plaintext (drawn_nonce w)
       = Return (drawn_nonce w ++ tag ++ ciphertext)
    /\ b64decode (encoded ks) = Some blob
    /\ firstn 24 (skipn 44 blob) = drawn_nonce w
    /\ skipn 68 blob = tag ++ ciphertext
    /\ List.length tag = 16%nat
    /\ List.length ciphertext = 85%nat
    /\ List.length blob = 169%nat.
Proof.
  intros Hseed Hpk Hrun.
  apply build_keystore_returns in Hrun.
  destruct Hrun as (pwb & k & _ & _ & Hk & Hks & _).
  set (pt := pkcs8_header ++ seed_bytes ++ pkcs8_divider ++ public_key keypair)
    in *.
  assert (Hpt : List.length pt = 85%nat)
    by (unfold pt; rewrite !length_app, Hseed, Hpk; reflexivity).
  exists k,
    (keystore_blob (drawn_salt w) (drawn_nonce w)
       (crypto_secretbox pt (drawn_nonce w) k)).
  cbv zeta.
  destruct (keystore_blob_fields (drawn_salt w) (drawn_nonce w)
              (crypto_secretbox pt (drawn_nonce w) k)
              (drawn_salt_length w) (drawn_nonce_length w))
    as (_ & _ & _ & _ & Hnonce & Hbox).
  pose proof (secretbox_tag_length pt (drawn_nonce w) k) as Ht.
  pose proof (secretbox_ciphertext_length pt (drawn_nonce w) k) as Hc.
  repeat apply conj.
  - exact Hk.
  - unfold SecretBox_encrypt. now rewrite drawn_nonce_length.
  - subst ks. apply b64decode_b64encode.
  - exact Hnonce.
  - exact Hbox.
  - exact Ht.
  - now rewrite Hc.
  - unfold keystore_blob.
    rewrite !length_app, drawn_salt_length, drawn_nonce_length.
    rewrite crypto_secretbox_parts, length_app, Ht, Hc, Hpt. reflexivity.
Qed.

Lemma keystore_box_is_tag_then_ciphertext_witness :
  exists k blob,
    b64decode
      (b64encode
         (keystore_blob (drawn_salt Toy.world0) (drawn_nonce Toy.world0)
            (crypto_secretbox (P := Toy.prims) Toy.plaintext
               (drawn_nonce Toy.world0) (repeat x0f 32))))
    = Some blob
    /\ skipn 68 blob
       = secretbox_tag (P := Toy.prims) Toy.plaintext
           (drawn_nonce Toy.world0) k
         ++ secretbox_ciphertext (P := Toy.prims) Toy.plaintext
              (drawn_nonce Toy.world0) k.
Proof.
  destruct (keystore_box_is_tag_then_ciphertext Toy.prims toy_prims_ok
              Toy.roomy Toy.keypair Toy.seed32 Toy.password Toy.world0 _ _
              eq_refl eq_refl toy_roomy_run)
    as (k & blob & _ & _ & Hd & _ & Hb & _).
  exists k, blob. split; [exact Hd | exact Hb].
Defined.

(** C4, as stated, fails: there are primitives of the right lengths, and
    a call that returns, for which the part of the blob after the nonce is
    not a ciphertext followed by its authenticator, under any key. *)
Lemma keystore_box_not_ciphertext_then_tag :
  ~ (forall (P : Primitives) (OK : PrimitivesOk P) (Pl : Platform)
            (keypair : Keypair) (seed_bytes : bytes) (password : str)
            (w w' : World) (ks : Keystore),
        build_keystore keypair seed_bytes password w = (Return ks, w') ->
        exists k,
          let plaintext :=
            pkcs8_header ++ seed_bytes ++ pkcs8_divider
              ++ public_key keypair in
          encoded ks
          = b64encode
              (keystore_blob (drawn_salt w) (drawn_nonce w)
                 (secretbox_ciphertext plaintext (drawn_nonce w) k
                    ++ secretbox_tag plaintext (drawn_nonce w) k))).
Proof.
  intros H.
  destruct (H Toy.prims toy_prims_ok Toy.roomy Toy.keypair Toy.seed32
              Toy.password Toy.world0 _ _ toy_roomy_run) as (k & Hk).
  cbv zeta in Hk. apply b64encode_inj in Hk.
  apply (f_equal (skipn 68)) in Hk.
  destruct (keystore_blob_fields (drawn_salt Toy.world0)
              (drawn_nonce Toy.world0)
              (crypto_secretbox (P := Toy.prims) Toy.plaintext
                 (drawn_nonce Toy.world0) (repeat x0f 32))
              (drawn_salt_length _) (drawn_nonce_length _))
    as (_ & _ & _ & _ & _ & Hl).
  destruct (keystore_blob_fields (drawn_salt Toy.world0)
              (drawn_nonce Toy.world0)
              (secretbox_ciphertext (P := Toy.prims)
                 (pkcs8_header ++ Toy.seed32 ++ pkcs8_divider
                    ++ public_key Toy.keypair)
                 (drawn_nonce Toy.world0) k
               ++ secretbox_tag (P := Toy.prims)
                    (pkcs8_header ++ Toy.seed32 ++ pkcs8_divider
                       ++ public_key Toy.keypair)
                    (drawn_nonce Toy.world0) k)
              (drawn_salt_length _) (drawn_nonce_length _))
    as (_ & _ & _ & _ & _ & Hr).
  simpl encoded in Hk.
  rewrite Hl, Hr in Hk. clear Hl Hr.
  (* the first byte of each side *)
  apply (f_equal (fun l => (nth 0 l x00, nth 16 l x00))) in Hk.
  unfold secretbox_ciphertext, secretbox_tag, secretbox_ciphertext,
    crypto_secretbox in Hk.
  cbn [Toy.prims xsalsa20_stream poly1305] in Hk.
  set (kb := hd x00 k) in Hk.
  clearbody kb.
  destruct kb; vm_compute in Hk; discriminate Hk.
Qed.

(* ===================================================================== *)
(** ** The key, the freshness of salt and nonce, and reading back *)
(* ===================================================================== *)

(** A run on a platform whose hashlib has no scrypt. *)
Lemma toy_fallback_run :
  build_keystore (P := Toy.prims) (Pl := Toy.no_hashlib_scrypt) Toy.keypair
    Toy.seed32 Toy.password Toy.world0
  = (Return
       (keystore_record Toy.keypair
          (b64encode
             (keystore_blob (drawn_salt Toy.world0) (drawn_nonce Toy.world0)
                (crypto_secretbox (P := Toy.prims) Toy.plaintext
                   (drawn_nonce Toy.world0) (repeat x0a 32))))
          1700000000000),
     after_draw 24 (after_draw 32 Toy.world0)).
Proof.
  exact (build_keystore_succeeds (P := Toy.prims)
           (Pl := Toy.no_hashlib_scrypt) Toy.keypair Toy.seed32 Toy.password
           Toy.world0 [x70; x77] (repeat x0a 32) eq_refl eq_refl eq_refl).
Qed.

(** On a stock platform (hashlib has scrypt, OpenSSL allows 32 MiB) the
    call raises [ValueError] after the salt was drawn. *)
Lemma stock_platform_raises (P : Primitives) (Pl : Platform)
    (keypair : Keypair) (seed_bytes : bytes) (password : str) (w : World)
    (password_bytes : bytes) :
  hashlib_has_scrypt = true ->
  openssl_scrypt_max_mem = 33554432 ->
  utf8_encode password = Return password_bytes ->
  build_keystore keypair seed_bytes password w
  = (Raise ValueError, after_draw 32 w).
Proof.
  intros Has Hmem Hpw.
  rewrite build_keystore_run, Hpw, keystore_key_memory_limit;
    [reflexivity | exact Has | rewrite Hmem; reflexivity].
Qed.

(** C5, at the failing branch.  When hashlib has no scrypt, the key that
    seals the box is scrypt with N = 1024 (r = 8, p = 1, 32 bytes), while
    the blob records N = 32768. *)
Theorem fallback_key_is_scrypt_1024 (P : Primitives) (OK : PrimitivesOk P)
    (Pl : Platform) (keypair : Keypair) (seed_bytes : bytes)
    (password : str) (w : World) (password_bytes : bytes) :
  hashlib_has_scrypt = false ->
  utf8_encode password = Return password_bytes ->
  let k := scrypt_rfc7914 password_bytes (drawn_salt w) 1024 8 1 32 in
  let boxed :=
    crypto_secretbox
      (pkcs8_header ++ seed_bytes ++ pkcs8_divider ++ public_key keypair)
      (drawn_nonce w) k in
  let blob := keystore_blob (drawn_salt w) (drawn_nonce w) boxed in
  keystore_key password_bytes (drawn_salt w) = Return k
  /\ build_keystore keypair seed_bytes password w
     = (Return (keystore_record keypair (b64encode blob) (clock_ms w)),
        after_draw 24 (after_draw 32 w))
  /\ le32_value (firstn 4 (skipn 32 blob)) = 32768.
Proof.
  intros Has Hpw k boxed blob.
  assert (Hkey : keystore_key password_bytes (drawn_salt w) = Return k)
    by (apply keystore_key_fallback; [exact Has | apply drawn_salt_length]).
  split; [exact Hkey|]. split.
  - apply build_keystore_succeeds with (password_bytes := password_bytes);
      [exact Hpw | exact Hkey | apply scrypt_length].
  - destruct (keystore_blob_fields (drawn_salt w) (drawn_nonce w) boxed
                (drawn_salt_length w) (drawn_nonce_length w))
      as (_ & Hn & _).
    fold blob in Hn. rewrite Hn. reflexivity.
Qed.

Lemma fallback_key_is_scrypt_1024_witness :
  keystore_key (P := Toy.prims) (Pl := Toy.no_hashlib_scrypt) [x70; x77]
    (drawn_salt Toy.world0)
  = Return (repeat x0a 32)
  /\ scrypt_rfc7914 (Primitives := Toy.prims) [x70; x77]
       (drawn_salt Toy.world0) 32768 8 1 32 = repeat x0f 32.
Proof.
  split; [|reflexivity].
  exact (proj1 (fallback_key_is_scrypt_1024 Toy.prims toy_prims_ok
                  Toy.no_hashlib_scrypt Toy.keypair Toy.seed32 Toy.password
                  Toy.world0 [x70; x77] eq_refl eq_refl)).
Defined.

(** C6.  Salt and nonce are the next 32 and the next 24 bytes of the
    CSPRNG, taken inside the call, which leaves the CSPRNG 56 bytes
    further; and two calls on the same key pair, seed and password whose
    draws differ (in the salt or in the nonce) return different [encoded]
    texts. *)
Theorem fresh_draws_give_distinct_blobs (P : Primitives) (Pl : Platform)
    (keypair : Keypair) (seed_bytes : bytes) (password : str)
    (w1 w1' w2 w2' : World) (ks1 ks2 : Keystore) :
  build_keystore keypair seed_bytes password w1 = (Return ks1, w1') ->
  build_keystore keypair seed_bytes password w2 = (Return ks2, w2') ->
  (drawn_salt w1, drawn_nonce w1) <> (drawn_salt w2, drawn_nonce w2) ->
  encoded ks1 <> encoded ks2
  /\ (exists blob1,
        b64decode (encoded ks1) = Some blob1
        /\ firstn 32 blob1 = drawn_salt w1
        /\ firstn 24 (skipn 44 blob1) = drawn_nonce w1)
  /\ cursor w1' = (cursor w1 + 56)%nat
  /\ entropy w1' = entropy w1.
Proof.
  intros Hrun1 Hrun2 Hdiff.
  apply build_keystore_returns in Hrun1, Hrun2.
  destruct Hrun1 as (pwb1 & k1 & _ & _ & _ & Hks1 & Hw1).
  destruct Hrun2 as (pwb2 & k2 & _ & _ & _ & Hks2 & _).
  subst ks1 ks2 w1'. cbn [encoded keystore_record].
  set (pt := pkcs8_header ++ seed_bytes ++ pkcs8_divider ++ public_key keypair).
  destruct (keystore_blob_fields (drawn_salt w1) (drawn_nonce w1)
              (crypto_secretbox pt (drawn_nonce w1) k1)
              (drawn_salt_length w1) (drawn_nonce_length w1))
    as (Hs1 & _ & _ & _ & Hn1 & _).
  destruct (keystore_blob_fields (drawn_salt w2) (drawn_nonce w2)
              (crypto_secretbox pt (drawn_nonce w2) k2)
              (drawn_salt_length w2) (drawn_nonce_length w2))
    as (Hs2 & _ & _ & _ & Hn2 & _).
  repeat apply conj.
  - intros E. apply b64encode_inj in E. apply Hdiff.
    assert (Es : drawn_salt w1 = drawn_salt w2) by congruence.
    assert (En : drawn_nonce w1 = drawn_nonce w2) by congruence.
    now rewrite Es, En.
  - eexists. repeat apply conj;
      [apply b64decode_b64encode | exact Hs1 | exact Hn1].
  - simpl. lia.
  - reflexivity.
Qed.

(** Two calls in a row, on a CSPRNG that counts. *)
Lemma fresh_draws_give_distinct_blobs_witness :
  exists ks1 w1 ks2 w2,
    build_keystore (P := Toy.prims) (Pl := Toy.roomy) Toy.keypair Toy.seed32
      Toy.password Toy.world0 = (Return ks1, w1)
    /\ build_keystore (P := Toy.prims) (Pl := Toy.roomy) Toy.keypair
         Toy.seed32 Toy.password w1 = (Return ks2, w2)
    /\ encoded ks1 <> encoded ks2.
Proof.
  pose proof (build_keystore_succeeds (P := Toy.prims) (Pl := Toy.roomy)
                Toy.keypair Toy.seed32 Toy.password
                (after_draw 24 (after_draw 32 Toy.world0))
                [x70; x77] (repeat x0f 32) eq_refl eq_refl eq_refl) as Hrun2.
  eexists. eexists. eexists. eexists.
  split; [exact toy_roomy_run|]. split; [exact Hrun2|].
  refine (proj1 (fresh_draws_give_distinct_blobs Toy.prims Toy.roomy
                   Toy.keypair Toy.seed32 Toy.password Toy.world0 _ _ _ _ _
                   toy_roomy_run Hrun2 _)).
  intros E. vm_compute in E. discriminate E.
Defined.

Section Reading.

Context {P : Primitives}.

(** What the reader does with a blob of the program's layout: it opens
    the box with scrypt at N = 32768, r = 8, p = 1 of the password and the
    salt. *)
Lemma spec_read_keystore_blob (salt nonce boxed : bytes) (password : str)
    (password_bytes : bytes) :
  List.length salt = 32%nat -> List.length nonce = 24%nat ->
  utf8_encode password = Return password_bytes ->
  spec_read_keystore (b64encode (keystore_blob salt nonce boxed)) password
  = crypto_secretbox_open boxed nonce
      (scrypt_rfc7914 password_bytes salt 32768 8 1 32).
Proof.
  intros Hs Hn Hpw. unfold spec_read_keystore.
  rewrite b64decode_b64encode. cbv zeta.
  destruct (keystore_blob_fields salt nonce boxed Hs Hn)
    as (H1 & H2 & H3 & H4 & H5 & H6).
  rewrite H1, H2, H3, H4, H5, H6, Hpw.
  reflexivity.
Qed.

End Reading.

(** Where hashlib derives the key (it has scrypt, and OpenSSL allows the
    memory), reading a keystore back with the password gives the 85-byte
    message, with the seed after the header and the public key last. *)
Lemma roundtrip_hashlib_branch (P : Primitives) (OK : PrimitivesOk P)
    (Pl : Platform) (keypair : Keypair) (seed_bytes : bytes)
    (password : str) (w w' : World) (ks : Keystore) :
  hashlib_has_scrypt = true ->
  33557504 <= openssl_scrypt_max_mem ->
  List.length seed_bytes = 32%nat ->
  List.length (public_key keypair) = 32%nat ->
  build_keystore keypair seed_bytes password w = (Return ks, w') ->
  exists plaintext,
    spec_read_keystore (encoded ks) password = Return plaintext
    /\ List.length plaintext = 85%nat
    /\ firstn 32 (skipn 16 plaintext) = seed_bytes
    /\ skipn 53 plaintext = public_key keypair.
Proof.
  intros Has Hmem Hseed Hpk Hrun.
  apply build_keystore_returns in Hrun.
  destruct Hrun as (pwb & k & Hpw & Hkey & _ & Hks & _).
  rewrite keystore_key_hashlib in Hkey by assumption.
  injection Hkey as <-. subst ks. cbn [encoded keystore_record].
  exists (pkcs8_header ++ seed_bytes ++ pkcs8_divider ++ public_key keypair).
  repeat apply conj.
  - rewrite (spec_read_keystore_blob _ _ _ _ pwb (drawn_salt_length w)
               (drawn_nonce_length w) Hpw).
    apply crypto_secretbox_open_seal.
  - rewrite !length_app, Hseed, Hpk. reflexivity.
  - rewrite (skipn_length_app 16 pkcs8_header _ eq_refl).
    now apply firstn_length_app.
  - change 53%nat with (5 + (32 + 16))%nat.
    rewrite <- !skipn_skipn.
    rewrite (skipn_length_app 16 pkcs8_header _ eq_refl).
    rewrite (skipn_length_app 32 seed_bytes _ Hseed).
    reflexivity.
Qed.

(** C7, at the failing branch.  When hashlib has no scrypt, the reader,
    which derives its key with the N = 32768 that the blob records, opens
    a box that was sealed with the key for N = 1024. *)
Theorem fallback_keystore_opened_with_other_key (P : Primitives)
    (OK : PrimitivesOk P) (Pl : Platform) (keypair : Keypair)
    (seed_bytes : bytes) (password : str) (w w' : World) (ks : Keystore)
    (password_bytes : bytes) :
  hashlib_has_scrypt = false ->
  utf8_encode password = Return password_bytes ->
  build_keystore keypair seed_bytes password w = (Return ks, w') ->
  spec_read_keystore (encoded ks) password
  = crypto_secretbox_open
      (crypto_secretbox
         (pkcs8_header ++ seed_bytes ++ pkcs8_divider ++ public_key keypair)
         (drawn_nonce w)
         (scrypt_rfc7914 password_bytes (drawn_salt w) 1024 8 1 32))
      (drawn_nonce w)
      (scrypt_rfc7914 password_bytes (drawn_salt w) 32768 8 1 32).
Proof.
  intros Has Hpw Hrun.
  apply build_keystore_returns in Hrun.
  destruct Hrun as (pwb & k & Hpw' & Hkey & _ & Hks & _).
  rewrite Hpw in Hpw'. injection Hpw' as <-.
  rewrite keystore_key_fallback in Hkey
    by (assumption || apply drawn_salt_length).
  injection Hkey as <-. subst ks. cbn [encoded keystore_record].
  apply spec_read_keystore_blob;
    auto using drawn_salt_length, drawn_nonce_length.
Qed.

(** With primitives that tell one key from another, the reader then
    rejects the keystore. *)
Lemma fallback_keystore_opened_with_other_key_witness :
  spec_read_keystore (P := Toy.prims)
    (b64encode
       (keystore_blob (drawn_salt Toy.world0) (drawn_nonce Toy.world0)
          (crypto_secretbox (P := Toy.prims) Toy.plaintext
             (drawn_nonce Toy.world0) (repeat x0a 32))))
    Toy.password
  = Raise CryptoError.
Proof.
  etransitivity.
  - exact (fallback_keystore_opened_with_other_key Toy.prims toy_prims_ok
             Toy.no_hashlib_scrypt Toy.keypair Toy.seed32 Toy.password
             Toy.world0 _ _ [x70; x77] eq_refl eq_refl toy_fallback_run).
  - vm_compute. reflexivity.
Defined.

(* ===================================================================== *)
(** ** The interactive helpers *)
(* ===================================================================== *)

Lemma talked_talked (s : Session) (a b : list Output) (r1 r2 : list Key) :
  talked (talked s a r1) b r2 = talked s (a ++ b) r2.
Proof. unfold talked. cbn. now rewrite app_assoc. Qed.

Lemma talked_only_talked (s : Session) (shown : list Output) (k n : nat) :
  (k <= n)%nat -> only_talked n s (talked s shown (skipn k (keyboard s))).
Proof.
  intros Hk. unfold only_talked, talked. cbn.
  repeat apply conj; try reflexivity.
  - now exists shown.
  - now exists k.
Qed.

Lemma str_eq_true (a b : str) : str_eq a b = true <-> a = b.
Proof.
  unfold str_eq. destruct (list_eq_dec N.eq_dec a b); split; congruence.
Qed.

Lemma str_in_In (x : str) (l : list str) : str_in x l = true <-> In x l.
Proof.
  unfold str_in. rewrite existsb_exists. split.
  - intros (y & Hy & E). apply str_eq_true in E. now subst.
  - intros Hx. exists x. split; [exact Hx | now apply str_eq_true].
Qed.

Section YesNo.

Context {H : Host}.

(** One turn of the loop on a typed line. *)
Lemma ask_yes_no_typed (prompt : str) (default : option str) (n : nat)
    (s : Session) (line : str) (rest : list Key) :
  keyboard s = Typed line :: rest ->
  ask_yes_no prompt default (S n) s
  = match yes_no_verdict default line with
    | Some b => (Done b, talked s [Asked prompt] rest)
    | None =>
        ask_yes_no prompt default n (talked s [Asked prompt; please] rest)
    end.
Proof.
  intros Hk. destruct s as [w kb sc cl de fl]. cbn in Hk. subst kb.
  cbn [ask_yes_no].
  unfold talked, yes_no_verdict, please, input, print.
  unfold io_bind, io_try, show, read_key, io_ret.
  cbv beta iota. cbn [keyboard world screen clock_s disk_error files].
  cbv beta iota.
  destruct (str_in _ [lit "y"; lit "yes"]); [reflexivity|].
  destruct (str_in _ [lit "n"; lit "no"]); [reflexivity|].
  cbv beta iota. cbn [keyboard world screen clock_s disk_error files].
  rewrite <- app_assoc. reflexivity.
Qed.

Lemma ask_yes_no_none_left (prompt : str) (default : option str)
    (s : Session) :
  ask_yes_no prompt default 0 s
  = (Stopped (SystemExit 1), talked s [too_many] (keyboard s)).
Proof. reflexivity. Qed.

Lemma ask_yes_no_eof (prompt : str) (default : option str) (n : nat)
    (s : Session) :
  keyboard s = [] ->
  ask_yes_no prompt default (S n) s
  = (Stopped (SystemExit 1), talked s [Asked prompt; aborted] []).
Proof.
  intros Hk. destruct s as [w kb sc cl de fl]. cbn in Hk. subst kb.
  cbn [ask_yes_no].
  unfold talked, aborted, aborted_by_user, input, print, sys_exit.
  unfold io_bind, io_try, show, read_key, io_ret.
  cbv beta iota. cbn [keyboard world screen clock_s disk_error files].
  cbv beta iota. cbn [is_interrupt_or_eof].
  cbn [keyboard world screen clock_s disk_error files].
  rewrite <- app_assoc. reflexivity.
Qed.

Lemma ask_yes_no_interrupted (prompt : str) (default : option str) (n : nat)
    (s : Session) (rest : list Key) :
  keyboard s = CtrlC :: rest ->
  ask_yes_no prompt default (S n) s
  = (Stopped (SystemExit 1), talked s [Asked prompt; aborted] rest).
Proof.
  intros Hk. destruct s as [w kb sc cl de fl]. cbn in Hk. subst kb.
  cbn [ask_yes_no].
  unfold talked, aborted, aborted_by_user, input, print, sys_exit.
  unfold io_bind, io_try, show, read_key, io_ret.
  cbv beta iota. cbn [keyboard world screen clock_s disk_error files].
  cbv beta iota. cbn [is_interrupt_or_eof].
  cbn [keyboard world screen clock_s disk_error files].
  rewrite <- app_assoc. reflexivity.
Qed.

(** X1.  When the first lines typed are no answers, fewer of them than
    [max_retries], and the next line is one, [ask_yes_no] returns that
    answer, has asked once per line read, and leaves the rest of the
    keyboard untouched. *)
Theorem ask_yes_no_first_answer (prompt : str) (default : option str)
    (max_retries : nat) (s : Session) (bad : list str) (line : str)
    (rest : list Key) (b : bool) :
  keyboard s = map Typed bad ++ Typed line :: rest ->
  (List.length bad < max_retries)%nat ->
  Forall (fun l => yes_no_verdict default l = None) bad ->
  yes_no_verdict default line = Some b ->
  ask_yes_no prompt default max_retries s
  = (Done b,
     talked s
       (flat_map (fun _ => [Asked prompt; please]) bad ++ [Asked prompt])
       rest).
Proof.
  revert max_retries s.
  induction bad as [|l bad IH]; intros max_retries s Hk Hn Hbad Hline.
  - destruct max_retries as [|n]; [cbn in Hn; lia|].
    rewrite (ask_yes_no_typed prompt default n s line rest Hk), Hline.
    reflexivity.
  - destruct max_retries as [|n]; [cbn in Hn; lia|].
    inversion Hbad as [|? ? Hl Hbad']; subst.
    rewrite (ask_yes_no_typed prompt default n s l
               (map Typed bad ++ Typed line :: rest) Hk), Hl.
    rewrite (IH n (talked s [Asked prompt; please]
                     (map Typed bad ++ Typed line :: rest)));
      [|reflexivity | cbn in Hn; lia | assumption | assumption].
    rewrite talked_talked. reflexivity.
Qed.

(** X2.  When the first [max_retries] lines typed are no answers,
    [ask_yes_no] prints that there were too many and leaves by
    [sys.exit(1)]; the default is not taken, and no further line is read.
    With [max_retries = 0] it leaves without asking. *)
Theorem ask_yes_no_gives_up (prompt : str) (default : option str)
    (max_retries : nat) (s : Session) (bad : list str) (rest : list Key) :
  keyboard s = map Typed bad ++ rest ->
  List.length bad = max_retries ->
  Forall (fun l => yes_no_verdict default l = None) bad ->
  ask_yes_no prompt default max_retries s
  = (Stopped (SystemExit 1),
     talked s
       (flat_map (fun _ => [Asked prompt; please]) bad ++ [too_many]) rest).
Proof.
  revert max_retries s.
  induction bad as [|l bad IH]; intros max_retries s Hk Hn Hbad.
  - cbn in Hn. subst max_retries. rewrite ask_yes_no_none_left.
    cbn in Hk. now rewrite Hk.
  - destruct max_retries as [|n]; [discriminate Hn|].
    inversion Hbad as [|? ? Hl Hbad']; subst.
    rewrite (ask_yes_no_typed prompt default n s l (map Typed bad ++ rest) Hk),
      Hl.
    rewrite (IH n (talked s [Asked prompt; please] (map Typed bad ++ rest)));
      [|reflexivity | cbn in Hn; lia | assumption].
    rewrite talked_talked. reflexivity.
Qed.

End YesNo.

Lemma only_talked_here (s : Session) (shown : list Output) (n : nat) :
  only_talked n s (talked s shown (keyboard s)).
Proof.
  apply (talked_only_talked s shown 0 n). lia.
Qed.

Lemma only_talked_one_key (s : Session) (shown : list Output) (key : Key)
    (rest : list Key) (n : nat) :
  keyboard s = key :: rest -> only_talked (S n) s (talked s shown rest).
Proof.
  intros Hk. replace rest with (skipn 1 (keyboard s)) by now rewrite Hk.
  apply talked_only_talked. lia.
Qed.

Lemma only_talked_step (s s' : Session) (shown : list Output) (key : Key)
    (rest : list Key) (n : nat) :
  keyboard s = key :: rest ->
  only_talked n (talked s shown rest) s' ->
  only_talked (S n) s s'.
Proof.
  intros Hk (Hw & Hc & Hd & Hf & (sh & Hs) & (k & Hle & Hkb)).
  cbn in *. unfold only_talked.
  repeat apply conj; try assumption.
  - exists (shown ++ sh). now rewrite Hs, app_assoc.
  - exists (S k). split; [lia|]. now rewrite Hk.
Qed.

Lemma only_talked_weaken (s s' : Session) (m n : nat) :
  (m <= n)%nat -> only_talked m s s' -> only_talked n s s'.
Proof.
  intros Hmn (Hw & Hc & Hd & Hf & Hs & (k & Hle & Hkb)).
  unfold only_talked. repeat apply conj; try assumption.
  exists k. split; [lia | assumption].
Qed.

Lemma only_talked_trans (s1 s2 s3 : Session) (m n : nat) :
  only_talked m s1 s2 -> only_talked n s2 s3 -> only_talked (m + n) s1 s3.
Proof.
  intros (Hw & Hc & Hd & Hf & (sh & Hs) & (k & Hle & Hkb))
         (Hw' & Hc' & Hd' & Hf' & (sh' & Hs') & (k' & Hle' & Hkb')).
  unfold only_talked. repeat apply conj; try congruence.
  - exists (sh ++ sh'). now rewrite Hs', Hs, app_assoc.
  - exists (k' + k)%nat. split; [lia|].
    now rewrite Hkb', Hkb, skipn_skipn.
Qed.

(** The facts about [ask_yes_no] that hold on every session. *)
Lemma ask_yes_no_behaviour (H : Host) (prompt : str)
    (default : option str) (max_retries : nat) (s : Session) :
  returns_or_exits (fst (ask_yes_no prompt default max_retries s))
  /\ only_talked max_retries s (snd (ask_yes_no prompt default max_retries s))
  /\ forall b,
       fst (ask_yes_no prompt default max_retries s) = Done b ->
       exists line,
         In (Typed line) (keyboard s)
         /\ yes_no_verdict default line = Some b.
Proof.
  revert s. induction max_retries as [|n IH]; intros s.
  - rewrite ask_yes_no_none_left. cbn [fst snd].
    refine (conj I (conj _ _));
      [apply only_talked_here | intros b Hb; discriminate Hb].
  - destruct (keyboard s) as [|[line|] rest] eqn:Hk.
    + rewrite (ask_yes_no_eof prompt default n s Hk). cbn [fst snd].
      refine (conj I (conj _ _)); [|intros b Hb; discriminate Hb].
      rewrite <- Hk. apply only_talked_here.
    + rewrite (ask_yes_no_typed prompt default n s line rest Hk).
      destruct (yes_no_verdict default line) as [b|] eqn:Hv.
      * cbn [fst snd]. refine (conj I (conj _ _)).
        -- now apply only_talked_one_key with (key := Typed line).
        -- intros b' Hb'. injection Hb' as <-.
           exists line. split; [now left | exact Hv].
      * destruct (IH (talked s [Asked prompt; please] rest))
          as (Hr & Ht & Hs).
        refine (conj Hr (conj _ _)).
        -- now apply only_talked_step with (shown := [Asked prompt; please])
                                            (key := Typed line) (rest := rest).
        -- intros b Hb. destruct (Hs b Hb) as (l & Hin & Hl).
           exists l. split; [right; exact Hin | exact Hl].
    + rewrite (ask_yes_no_interrupted prompt default n s rest Hk).
      cbn [fst snd].
      refine (conj I (conj _ _)); [|intros b Hb; discriminate Hb].
      now apply only_talked_one_key with (key := CtrlC).
Qed.

(** X3.  However the keyboard stands, [ask_yes_no] ends by returning or by
    [sys.exit(1)] (an interrupt or the end of input never escapes it); it
    takes at most [max_retries] keys and touches nothing but keyboard and
    screen; and an answer it returns is the verdict of a line that was
    typed. *)
Theorem ask_yes_no_only_talks (H : Host) (prompt : str)
    (default : option str) (max_retries : nat) (s : Session) :
  returns_or_exits (fst (ask_yes_no prompt default max_retries s))
  /\ only_talked max_retries s (snd (ask_yes_no prompt default max_retries s))
  /\ forall b,
       fst (ask_yes_no prompt default max_retries s) = Done b ->
       exists line,
         In (Typed line) (keyboard s)
         /\ yes_no_verdict default line = Some b.
Proof.
  revert s. induction max_retries as [|n IH]; intros s.
  - rewrite ask_yes_no_none_left. cbn [fst snd].
    refine (conj I (conj _ _));
      [apply only_talked_here | intros b Hb; discriminate Hb].
  - destruct (keyboard s) as [|[line|] rest] eqn:Hk.
    + rewrite (ask_yes_no_eof prompt default n s Hk). cbn [fst snd].
      refine (conj I (conj _ _)); [|intros b Hb; discriminate Hb].
      rewrite <- Hk. apply only_talked_here.
    + rewrite (ask_yes_no_typed prompt default n s line rest Hk).
      destruct (yes_no_verdict default line) as [b|] eqn:Hv.
      * cbn [fst snd]. refine (conj I (conj _ _)).
        -- now apply only_talked_one_key with (key := Typed line).
        -- intros b' Hb'. injection Hb' as <-.
           exists line. split; [now left | exact Hv].
      * destruct (IH (talked s [Asked prompt; please] rest))
          as (Hr & Ht & Hs).
        refine (conj Hr (conj _ _)).
        -- now apply only_talked_step with (shown := [Asked prompt; please])
                                            (key := Typed line) (rest := rest).
        -- intros b Hb. destruct (Hs b Hb) as (l & Hin & Hl).
           exists l. split; [right; exact Hin | exact Hl].
    + rewrite (ask_yes_no_interrupted prompt default n s rest Hk).
      cbn [fst snd].
      refine (conj I (conj _ _)); [|intros b Hb; discriminate Hb].
      now apply only_talked_one_key with (key := CtrlC).
Qed.

Ltac io_step :=
  unfold talked, please, aborted, too_many, too_many_passwords,
    empty_password, no_match, invalid_selection, aborted_by_user, input,
    getpass, print, sys_exit;
  unfold io_bind, io_try, show, read_key, io_ret;
  cbv beta iota;
  cbn [keyboard world screen clock_s disk_error files is_interrupt_or_eof];
  cbv beta iota;
  cbn [keyboard world screen clock_s disk_error files is_interrupt_or_eof];
  rewrite <- ?app_assoc.

Ltac io_tidy :=
  cbn [negb];
  cbv beta iota;
  cbn [keyboard world screen clock_s disk_error files is_interrupt_or_eof];
  rewrite <- ?app_assoc;
  try reflexivity.

Lemma ask_choice_none_left (prompt : str) (choices : list str)
    (default : option str) (s : Session) :
  ask_choice prompt choices default 0 s
  = (Stopped (SystemExit 1), talked s [too_many] (keyboard s)).
Proof. reflexivity. Qed.

Lemma ask_choice_typed (prompt : str) (choices : list str)
    (default : option str) (n : nat) (s : Session) (line : str)
    (rest : list Key) :
  keyboard s = Typed line :: rest ->
  ask_choice prompt choices default (S n) s
  = if str_in (choice_answer default line) choices
    then (Done (choice_answer default line), talked s [Asked prompt] rest)
    else ask_choice prompt choices default n
           (talked s [Asked prompt; invalid_selection choices] rest).
Proof.
  intros Hk. destruct s as [w kb sc cl de fl]. cbn in Hk. subst kb.
  cbn [ask_choice]. unfold choice_answer. io_step.
  destruct default as [d|].
  - destruct (str_in (if str_eq (str_strip line) [] then d else str_strip line)
                choices); io_tidy.
  - destruct (str_in (str_strip line) choices); io_tidy.
Qed.

Lemma ask_choice_eof (prompt : str) (choices : list str)
    (default : option str) (n : nat) (s : Session) :
  keyboard s = [] ->
  ask_choice prompt choices default (S n) s
  = (Stopped (SystemExit 1), talked s [Asked prompt; aborted] []).
Proof.
  intros Hk. destruct s as [w kb sc cl de fl]. cbn in Hk. subst kb.
  cbn [ask_choice]. io_step. reflexivity.
Qed.

Lemma ask_choice_interrupted (prompt : str) (choices : list str)
    (default : option str) (n : nat) (s : Session) (rest : list Key) :
  keyboard s = CtrlC :: rest ->
  ask_choice prompt choices default (S n) s
  = (Stopped (SystemExit 1), talked s [Asked prompt; aborted] rest).
Proof.
  intros Hk. destruct s as [w kb sc cl de fl]. cbn in Hk. subst kb.
  cbn [ask_choice]. io_step. reflexivity.
Qed.

(** The facts about [ask_choice] that hold on every session. *)
Lemma ask_choice_behaviour (prompt : str) (choices : list str)
    (default : option str) (max_retries : nat) (s : Session) :
  returns_or_exits (fst (ask_choice prompt choices default max_retries s))
  /\ only_talked max_retries s
       (snd (ask_choice prompt choices default max_retries s))
  /\ forall ans,
       fst (ask_choice prompt choices default max_retries s) = Done ans ->
       In ans choices
       /\ exists line,
            In (Typed line) (keyboard s)
            /\ choice_answer default line = ans.
Proof.
  revert s. induction max_retries as [|n IH]; intros s.
  - rewrite ask_choice_none_left. cbn [fst snd].
    refine (conj I (conj _ _));
      [apply only_talked_here | intros b Hb; discriminate Hb].
  - destruct (keyboard s) as [|[line|] rest] eqn:Hk.
    + rewrite (ask_choice_eof prompt choices default n s Hk). cbn [fst snd].
      refine (conj I (conj _ _)); [|intros b Hb; discriminate Hb].
      rewrite <- Hk. apply only_talked_here.
    + rewrite (ask_choice_typed prompt choices default n s line rest Hk).
      destruct (str_in (choice_answer default line) choices) eqn:Hin.
      * cbn [fst snd]. refine (conj I (conj _ _)).
        -- now apply only_talked_one_key with (key := Typed line).
        -- intros ans Hans. injection Hans as <-.
           split; [now apply str_in_In|].
           exists line. split; [now left | reflexivity].
      * destruct (IH (talked s [Asked prompt; invalid_selection choices] rest))
          as (Hr & Ht & Hs).
        refine (conj Hr (conj _ _)).
        -- now apply only_talked_step
             with (shown := [Asked prompt; invalid_selection choices])
                  (key := Typed line) (rest := rest).
        -- intros ans Hans. destruct (Hs ans Hans) as (Hc & l & Hl & Ha).
           split; [exact Hc|]. exists l. split; [right; exact Hl | exact Ha].
    + rewrite (ask_choice_interrupted prompt choices default n s rest Hk).
      cbn [fst snd].
      refine (conj I (conj _ _)); [|intros b Hb; discriminate Hb].
      now apply only_talked_one_key with (key := CtrlC).
Qed.

(** X4.  However the keyboard stands, [ask_choice] ends by returning or by
    [sys.exit(1)], takes at most [max_retries] keys and touches nothing but
    keyboard and screen; what it returns is one of [choices], and is a
    typed line without its outer blanks, or the default for an empty one.
    A default that is not among the choices is never returned. *)
Theorem ask_choice_returns_member (prompt : str) (choices : list str)
    (default : option str) (max_retries : nat) (s : Session) :
  returns_or_exits (fst (ask_choice prompt choices default max_retries s))
  /\ only_talked max_retries s
       (snd (ask_choice prompt choices default max_retries s))
  /\ forall ans,
       fst (ask_choice prompt choices default max_retries s) = Done ans ->
       In ans choices
       /\ exists line,
            In (Typed line) (keyboard s)
            /\ choice_answer default line = ans.
Proof.
  revert s. induction max_retries as [|n IH]; intros s.
  - rewrite ask_choice_none_left. cbn [fst snd].
    refine (conj I (conj _ _));
      [apply only_talked_here | intros b Hb; discriminate Hb].
  - destruct (keyboard s) as [|[line|] rest] eqn:Hk.
    + rewrite (ask_choice_eof prompt choices default n s Hk). cbn [fst snd].
      refine (conj I (conj _ _)); [|intros b Hb; discriminate Hb].
      rewrite <- Hk. apply only_talked_here.
    + rewrite (ask_choice_typed prompt choices default n s line rest Hk).
      destruct (str_in (choice_answer default line) choices) eqn:Hin.
      * cbn [fst snd]. refine (conj I (conj _ _)).
        -- now apply only_talked_one_key with (key := Typed line).
        -- intros ans Hans. injection Hans as <-.
           split; [now apply str_in_In|].
           exists line. split; [now left | reflexivity].
      * destruct (IH (talked s [Asked prompt; invalid_selection choices] rest))
          as (Hr & Ht & Hs).
        refine (conj Hr (conj _ _)).
        -- now apply only_talked_step
             with (shown := [Asked prompt; invalid_selection choices])
                  (key := Typed line) (rest := rest).
        -- intros ans Hans. destruct (Hs ans Hans) as (Hc & l & Hl & Ha).
           split; [exact Hc|]. exists l. split; [right; exact Hl | exact Ha].
    + rewrite (ask_choice_interrupted prompt choices default n s rest Hk).
      cbn [fst snd].
      refine (conj I (conj _ _)); [|intros b Hb; discriminate Hb].
      now apply only_talked_one_key with (key := CtrlC).
Qed.

Section Passwords.

Variables prompt1 prompt2 : str.

Lemma get_password_confirm_none_left (s : Session) :
  get_password_confirm prompt1 prompt2 0 s
  = (Stopped (SystemExit 1), talked s [too_many_passwords] (keyboard s)).
Proof. reflexivity. Qed.

Lemma get_password_confirm_eof (n : nat) (s : Session) :
  keyboard s = [] ->
  get_password_confirm prompt1 prompt2 (S n) s
  = (Stopped (SystemExit 1), talked s [password_prompt prompt1; aborted] []).
Proof.
  intros Hk. destruct s as [w kb sc cl de fl]. cbn in Hk. subst kb.
  cbn [get_password_confirm]. unfold password_prompt. io_step. reflexivity.
Qed.

Lemma get_password_confirm_interrupted (n : nat) (s : Session)
    (rest : list Key) :
  keyboard s = CtrlC :: rest ->
  get_password_confirm prompt1 prompt2 (S n) s
  = (Stopped (SystemExit 1), talked s [password_prompt prompt1; aborted] rest).
Proof.
  intros Hk. destruct s as [w kb sc cl de fl]. cbn in Hk. subst kb.
  cbn [get_password_confirm]. unfold password_prompt. io_step. reflexivity.
Qed.

Lemma get_password_confirm_empty (n : nat) (s : Session) (rest : list Key) :
  keyboard s = Typed [] :: rest ->
  get_password_confirm prompt1 prompt2 (S n) s
  = get_password_confirm prompt1 prompt2 n
      (talked s [password_prompt prompt1; empty_password] rest).
Proof.
  intros Hk. destruct s as [w kb sc cl de fl]. cbn in Hk. subst kb.
  cbn [get_password_confirm]. unfold password_prompt. io_step. reflexivity.
Qed.

Lemma get_password_confirm_then_eof (n : nat) (s : Session) (pw : str) :
  pw <> [] ->
  keyboard s = [Typed pw] ->
  get_password_confirm prompt1 prompt2 (S n) s
  = (Stopped (SystemExit 1), talked s [password_prompt prompt1; password_prompt prompt2; aborted] []).
Proof.
  intros Hpw Hk. destruct s as [w kb sc cl de fl]. cbn in Hk. subst kb.
  destruct pw as [|c pw]; [congruence|].
  cbn [get_password_confirm]. unfold password_prompt. io_step. reflexivity.
Qed.

Lemma get_password_confirm_then_interrupted (n : nat) (s : Session)
    (pw : str) (rest : list Key) :
  pw <> [] ->
  keyboard s = Typed pw :: CtrlC :: rest ->
  get_password_confirm prompt1 prompt2 (S n) s
  = (Stopped (SystemExit 1), talked s [password_prompt prompt1; password_prompt prompt2; aborted] rest).
Proof.
  intros Hpw Hk. destruct s as [w kb sc cl de fl]. cbn in Hk. subst kb.
  destruct pw as [|c pw]; [congruence|].
  cbn [get_password_confirm]. unfold password_prompt. io_step. reflexivity.
Qed.

Lemma get_password_confirm_twice (n : nat) (s : Session)
    (pw confirm : str) (rest : list Key) :
  pw <> [] ->
  keyboard s = Typed pw :: Typed confirm :: rest ->
  get_password_confirm prompt1 prompt2 (S n) s
  = if str_eq pw confirm
    then (Done pw, talked s [password_prompt prompt1; password_prompt prompt2] rest)
    else get_password_confirm prompt1 prompt2 n
           (talked s [password_prompt prompt1; password_prompt prompt2; no_match] rest).
Proof.
  intros Hpw Hk. destruct s as [w kb sc cl de fl]. cbn in Hk. subst kb.
  destruct pw as [|c pw]; [congruence|].
  cbn [get_password_confirm]. unfold password_prompt. io_step.
  destruct (str_eq (c :: pw) confirm); io_tidy.
Qed.

End Passwords.

Lemma only_talked_keys (s : Session) (shown : list Output)
    (front rest : list Key) (n : nat) :
  keyboard s = front ++ rest ->
  (List.length front <= n)%nat ->
  only_talked n s (talked s shown rest).
Proof.
  intros Hk Hn.
  replace rest with (skipn (List.length front) (keyboard s))
    by (rewrite Hk; apply skipn_exact).
  now apply talked_only_talked.
Qed.

Lemma only_talked_then (s s' : Session) (shown : list Output)
    (front rest : list Key) (m n : nat) :
  keyboard s = front ++ rest ->
  (List.length front + m <= n)%nat ->
  only_talked m (talked s shown rest) s' ->
  only_talked n s s'.
Proof.
  intros Hk Hn Ht.
  apply only_talked_weaken with (m := (List.length front + m)%nat);
    [exact Hn|].
  apply only_talked_trans with (s2 := talked s shown rest); [|exact Ht].
  now apply only_talked_keys with (front := front).
Qed.

(** The facts about [get_password_confirm] that hold on every session. *)
Lemma get_password_confirm_behaviour (prompt1 prompt2 : str)
    (max_retries : nat) (s : Session) :
  returns_or_exits (fst (get_password_confirm prompt1 prompt2 max_retries s))
  /\ only_talked (2 * max_retries) s
       (snd (get_password_confirm prompt1 prompt2 max_retries s))
  /\ forall pw,
       fst (get_password_confirm prompt1 prompt2 max_retries s) = Done pw ->
       pw <> []
       /\ exists before,
            keyboard s
            = before ++ Typed pw :: Typed pw
                :: keyboard
                     (snd (get_password_confirm prompt1 prompt2
                             max_retries s)).
Proof.
  revert s. induction max_retries as [|n IH]; intros s.
  - rewrite get_password_confirm_none_left. cbn [fst snd].
    refine (conj I (conj _ _));
      [apply only_talked_here | intros b Hb; discriminate Hb].
  - destruct (keyboard s) as [|[[|c pw]|] rest] eqn:Hk.
    + (* end of input at the first prompt *)
      rewrite (get_password_confirm_eof prompt1 prompt2 n s Hk).
      cbn [fst snd].
      refine (conj I (conj _ _)); [|intros b Hb; discriminate Hb].
      rewrite <- Hk. apply only_talked_here.
    + (* an empty password *)
      rewrite (get_password_confirm_empty prompt1 prompt2 n s rest Hk).
      destruct (IH (talked s [password_prompt prompt1; empty_password] rest))
        as (Hr & Ht & Hs).
      refine (conj Hr (conj _ _)).
      * apply only_talked_then
          with (shown := [password_prompt prompt1; empty_password])
               (front := [Typed []]) (rest := rest) (m := (2 * n)%nat);
          [exact Hk | cbn; lia | exact Ht].
      * intros pw Hpw. destruct (Hs pw Hpw) as (Hne & before & Hb).
        split; [exact Hne|]. exists (Typed [] :: before).
        cbn [app]. f_equal. exact Hb.
    + (* a password, then the confirmation *)
      assert (Hne : c :: pw <> []) by discriminate.
      destruct rest as [|[confirm|] rest].
      * rewrite (get_password_confirm_then_eof prompt1 prompt2 n s (c :: pw)
                   Hne Hk).
        cbn [fst snd].
        refine (conj I (conj _ _)); [|intros b Hb; discriminate Hb].
        apply only_talked_keys with (front := [Typed (c :: pw)]);
          [exact Hk | cbn; lia].
      * rewrite (get_password_confirm_twice prompt1 prompt2 n s (c :: pw)
                   confirm rest Hne Hk).
        destruct (str_eq (c :: pw) confirm) eqn:He.
        -- apply str_eq_true in He. subst confirm. cbn [fst snd].
           refine (conj I (conj _ _)).
           ++ apply only_talked_keys
                with (front := [Typed (c :: pw); Typed (c :: pw)]);
                [exact Hk | cbn; lia].
           ++ intros pw' Hpw'. injection Hpw' as <-.
              split; [exact Hne|]. exists []. reflexivity.
        -- destruct (IH (talked s [password_prompt prompt1;
                                   password_prompt prompt2; no_match] rest))
             as (Hr & Ht & Hs).
           refine (conj Hr (conj _ _)).
           ++ apply only_talked_then
                with (shown := [password_prompt prompt1;
                                password_prompt prompt2; no_match])
                     (front := [Typed (c :: pw); Typed confirm])
                     (rest := rest) (m := (2 * n)%nat);
                [exact Hk | cbn; lia | exact Ht].
           ++ intros pw' Hpw'. destruct (Hs pw' Hpw') as (Hne' & before & Hb).
              split; [exact Hne'|].
              exists (Typed (c :: pw) :: Typed confirm :: before).
              cbn [app]. do 2 f_equal. exact Hb.
      * rewrite (get_password_confirm_then_interrupted prompt1 prompt2 n s
                   (c :: pw) rest Hne Hk).
        cbn [fst snd].
        refine (conj I (conj _ _)); [|intros b Hb; discriminate Hb].
        apply only_talked_keys with (front := [Typed (c :: pw); CtrlC]);
          [exact Hk | cbn; lia].
    + (* an interrupt at the first prompt *)
      rewrite (get_password_confirm_interrupted prompt1 prompt2 n s rest Hk).
      cbn [fst snd].
      refine (conj I (conj _ _)); [|intros b Hb; discriminate Hb].
      apply only_talked_keys with (front := [CtrlC]); [exact Hk | cbn; lia].
Qed.

(** X5.  However the keyboard stands, [get_password_confirm] ends by
    returning or by [sys.exit(1)], takes at most two keys per attempt and
    touches nothing but keyboard and screen; a password it returns is not
    empty and was typed twice in a row, as the last two lines read. *)
Theorem get_password_confirm_typed_twice (prompt1 prompt2 : str)
    (max_retries : nat) (s : Session) :
  returns_or_exits (fst (get_password_confirm prompt1 prompt2 max_retries s))
  /\ only_talked (2 * max_retries) s
       (snd (get_password_confirm prompt1 prompt2 max_retries s))
  /\ forall pw,
       fst (get_password_confirm prompt1 prompt2 max_retries s) = Done pw ->
       pw <> []
       /\ exists before,
            keyboard s
            = before ++ Typed pw :: Typed pw
                :: keyboard
                     (snd (get_password_confirm prompt1 prompt2
                             max_retries s)).
Proof.
  revert s. induction max_retries as [|n IH]; intros s.
  - rewrite get_password_confirm_none_left. cbn [fst snd].
    refine (conj I (conj _ _));
      [apply only_talked_here | intros b Hb; discriminate Hb].
  - destruct (keyboard s) as [|[[|c pw]|] rest] eqn:Hk.
    + (* end of input at the first prompt *)
      rewrite (get_password_confirm_eof prompt1 prompt2 n s Hk).
      cbn [fst snd].
      refine (conj I (conj _ _)); [|intros b Hb; discriminate Hb].
      rewrite <- Hk. apply only_talked_here.
    + (* an empty password *)
      rewrite (get_password_confirm_empty prompt1 prompt2 n s rest Hk).
      destruct (IH (talked s [password_prompt prompt1; empty_password] rest))
        as (Hr & Ht & Hs).
      refine (conj Hr (conj _ _)).
      * apply only_talked_then
          with (shown := [password_prompt prompt1; empty_password])
               (front := [Typed []]) (rest := rest) (m := (2 * n)%nat);
          [exact Hk | cbn; lia | exact Ht].
      * intros pw Hpw. destruct (Hs pw Hpw) as (Hne & before & Hb).
        split; [exact Hne|]. exists (Typed [] :: before).
        cbn [app]. f_equal. exact Hb.
    + (* a password, then the confirmation *)
      assert (Hne : c :: pw <> []) by discriminate.
      destruct rest as [|[confirm|] rest].
      * rewrite (get_password_confirm_then_eof prompt1 prompt2 n s (c :: pw)
                   Hne Hk).
        cbn [fst snd].
        refine (conj I (conj _ _)); [|intros b Hb; discriminate Hb].
        apply only_talked_keys with (front := [Typed (c :: pw)]);
          [exact Hk | cbn; lia].
      * rewrite (get_password_confirm_twice prompt1 prompt2 n s (c :: pw)
                   confirm rest Hne Hk).
        destruct (str_eq (c :: pw) confirm) eqn:He.
        -- apply str_eq_true in He. subst confirm. cbn [fst snd].
           refine (conj I (conj _ _)).
           ++ apply only_talked_keys
                with (front := [Typed (c :: pw); Typed (c :: pw)]);
                [exact Hk | cbn; lia].
           ++ intros pw' Hpw'. injection Hpw' as <-.
              split; [exact Hne|]. exists []. reflexivity.
        -- destruct (IH (talked s [password_prompt prompt1;
                                   password_prompt prompt2; no_match] rest))
             as (Hr & Ht & Hs).
           refine (conj Hr (conj _ _)).
           ++ apply only_talked_then
                with (shown := [password_prompt prompt1;
                                password_prompt prompt2; no_match])
                     (front := [Typed (c :: pw); Typed confirm])
                     (rest := rest) (m := (2 * n)%nat);
                [exact Hk | cbn; lia | exact Ht].
           ++ intros pw' Hpw'. destruct (Hs pw' Hpw') as (Hne' & before & Hb).
              split; [exact Hne'|].
              exists (Typed (c :: pw) :: Typed confirm :: before).
              cbn [app]. do 2 f_equal. exact Hb.
      * rewrite (get_password_confirm_then_interrupted prompt1 prompt2 n s
                   (c :: pw) rest Hne Hk).
        cbn [fst snd].
        refine (conj I (conj _ _)); [|intros b Hb; discriminate Hb].
        apply only_talked_keys with (front := [Typed (c :: pw); CtrlC]);
          [exact Hk | cbn; lia].
    + (* an interrupt at the first prompt *)
      rewrite (get_password_confirm_interrupted prompt1 prompt2 n s rest Hk).
      cbn [fst snd].
      refine (conj I (conj _ _)); [|intros b Hb; discriminate Hb].
      apply only_talked_keys with (front := [CtrlC]); [exact Hk | cbn; lia].
Qed.

(** X6.  Each empty password uses up one attempt and one key, without a
    confirmation prompt; after [max_retries] of them the function leaves by
    [sys.exit(1)]. *)
Theorem get_password_confirm_empty_attempts (prompt1 prompt2 : str)
    (max_retries : nat) (s : Session) (rest : list Key) :
  keyboard s = repeat (Typed []) max_retries ++ rest ->
  get_password_confirm prompt1 prompt2 max_retries s
  = (Stopped (SystemExit 1),
     talked s
       (List.concat (repeat [password_prompt prompt1; empty_password]
                       max_retries) ++ [too_many_passwords]) rest).
Proof.
  revert s. induction max_retries as [|n IH]; intros s Hk.
  - rewrite get_password_confirm_none_left. cbn in Hk. now rewrite Hk.
  - cbn [repeat app] in Hk.
    rewrite (get_password_confirm_empty prompt1 prompt2 n s _ Hk).
    rewrite IH by reflexivity.
    rewrite talked_talked. reflexivity.
Qed.

(* ===================================================================== *)
(** ** Exporting a keystore *)
(* ===================================================================== *)

Section Exporting.

Context {P : Primitives} {Pl : Platform} {H : Host}.

(** [export_keystore], prompt by prompt. *)
Lemma export_keystore_run (keypair : Keypair) (seed_bytes : bytes)
    (s : Session) :
  export_keystore keypair seed_bytes s
  = match ask_yes_no export_question (Some (lit "n")) 3
            (talked s [export_header] (keyboard s)) with
    | (Stopped sig, s1) => (Stopped sig, s1)
    | (Done false, s1) => (Done tt, s1)
    | (Done true, s1) =>
        match get_password_confirm (lit "Enter password for keystore")
                (lit "Confirm password") 3 s1 with
        | (Stopped sig, s2) => (Stopped sig, s2)
        | (Done password, s2) =>
            match ask_choice format_question [lit "1"; lit "2"]
                    (Some (lit "1")) 3
                    (talked s2 format_menu (keyboard s2)) with
            | (Stopped sig, s3) => (Stopped sig, s3)
            | (Done choice, s3) =>
                if str_eq choice (lit "1")
                then finish_web3 seed_bytes password s3
                else finish_polkadot keypair seed_bytes password s3
            end
        end
    end.
Proof.
  unfold export_keystore.
  unfold io_bind at 1. unfold print at 1. unfold show at 1. cbv beta iota.
  unfold io_bind at 1.
  change (mkSession (world s) (keyboard s) (screen s ++ [Printed
            (lit "Generate JSON keystore file for Enjin Wallet import?")])
            (clock_s s) (disk_error s) (files s))
    with (talked s [export_header] (keyboard s)).
  fold export_question.
  destruct (ask_yes_no export_question (Some (lit "n")) 3
              (talked s [export_header] (keyboard s))) as [[[|]|sig] s1];
    [|reflexivity|reflexivity].
  cbn [negb]. cbv beta iota.
  unfold io_bind at 1.
  destruct (get_password_confirm (lit "Enter password for keystore")
              (lit "Confirm password") 3 s1) as [[password|sig] s2];
    [|reflexivity].
  unfold io_bind at 1. unfold print at 1. unfold show at 1. cbv beta iota.
  unfold io_bind at 1. unfold print at 1. unfold show at 1. cbv beta iota.
  unfold io_bind at 1. unfold print at 1. unfold show at 1. cbv beta iota.
  cbn [keyboard world screen clock_s disk_error files].
  unfold io_bind at 1.
  fold format_question.
  match goal with
  | |- context [ask_choice _ _ _ _ ?x] =>
      replace x with (talked s2 format_menu (keyboard s2))
        by (unfold talked, format_menu; cbn [keyboard world screen clock_s
              disk_error files]; rewrite <- !app_assoc; reflexivity)
  end.
  destruct (ask_choice format_question [lit "1"; lit "2"] (Some (lit "1")) 3
              (talked s2 format_menu (keyboard s2))) as [[choice|sig] s3];
    [|reflexivity].
  destruct (str_eq choice (lit "1")).
  - unfold finish_web3, build_web3_keystore, run_M.
    destruct (Account_encrypt (lit "0x" ++ ToHex seed_bytes) password
                (world s3)) as [[ks|e] w'].
    + unfold io_bind, time_s, write_json, print, show, wrote, in_world,
        web3_report, web3_filename.
      cbv beta iota.
      cbn [keyboard world screen clock_s disk_error files].
      destruct (disk_error s3) as [e|]; [reflexivity|].
      cbv beta iota. cbn [keyboard world screen clock_s disk_error files].
      rewrite <- !app_assoc. reflexivity.
    + cbn [is_Exception caught_text]. reflexivity.
  - unfold finish_polkadot, run_M.
    unfold io_bind at 1.
    destruct (build_keystore keypair seed_bytes password (world s3))
      as [[ks|e] w'].
    + unfold io_bind, time_s, write_json, print, show, wrote, in_world,
        polkadot_report, polkadot_filename.
      cbv beta iota.
      cbn [keyboard world screen clock_s disk_error files].
      destruct (disk_error s3) as [e|]; [reflexivity|].
      cbv beta iota. cbn [keyboard world screen clock_s disk_error files].
      rewrite <- !app_assoc. reflexivity.
    + reflexivity.
Qed.

Lemma only_talked_world (n : nat) (s s' : Session) :
  only_talked n s s' -> world s' = world s.
Proof. now intros (Hw & _). Qed.

Lemma only_talked_files (n : nat) (s s' : Session) :
  only_talked n s s' -> files s' = files s.
Proof. now intros (_ & _ & _ & Hf & _). Qed.

Lemma exit_is_no_escape {A B} (sig : Signal) :
  returns_or_exits (Stopped sig : result A) ->
  returns_exits_or_raises (Stopped sig : result B).
Proof.
  destruct sig as [e| | |code]; cbn; try tauto.
Qed.

(** The answer of a line that lowers to nothing, to "n" or to "no", when
    the default is "n". *)
Lemma declining_line (line : str) :
  str_lower (str_strip line) = []
  \/ In (str_lower (str_strip line)) [lit "n"; lit "no"] ->
  yes_no_verdict (Some (lit "n")) line = Some false.
Proof.
  unfold yes_no_verdict.
  intros [E|[E|[E|[]]]].
  - rewrite E. reflexivity.
  - rewrite <- E. reflexivity.
  - rewrite <- E. reflexivity.
Qed.

(** X7.  When the line typed at "Export keystore? (y/n)" is empty (the
    default is "n") or is "n" or "no" once stripped and lowered,
    [export_keystore] returns at once: no password is asked for, nothing
    is computed, nothing is written. *)
Theorem export_keystore_declined (keypair : Keypair) (seed_bytes : bytes)
    (s : Session) (line : str) (rest : list Key) :
  keyboard s = Typed line :: rest ->
  str_lower (str_strip line) = []
  \/ In (str_lower (str_strip line)) [lit "n"; lit "no"] ->
  export_keystore keypair seed_bytes s
  = (Done tt, talked s [export_header; Asked export_question] rest).
Proof.
  intros Hk Hline. rewrite export_keystore_run.
  rewrite (ask_yes_no_typed export_question (Some (lit "n")) 2
             (talked s [export_header] (keyboard s)) line rest)
    by (cbn; exact Hk).
  rewrite (declining_line line Hline), talked_talked. reflexivity.
Qed.

(** The facts about [export_keystore] that hold on every session. *)
Lemma export_keystore_behaviour (keypair : Keypair)
    (seed_bytes : bytes) (s : Session) :
  returns_exits_or_raises (fst (export_keystore keypair seed_bytes s))
  /\ (files (snd (export_keystore keypair seed_bytes s)) = files s
      \/ exists password path doc,
           password <> []
           /\ fst (export_keystore keypair seed_bytes s) = Done tt
           /\ files (snd (export_keystore keypair seed_bytes s))
              = files s ++ [(path, doc)]
           /\ ((exists ks,
                  doc = Web3Json ks
                  /\ Account_encrypt (lit "0x" ++ ToHex seed_bytes) password
                       (world s)
                     = (Return ks,
                        world (snd (export_keystore keypair seed_bytes s))))
               \/ (exists ks,
                     doc = PolkadotJson ks
                     /\ build_keystore keypair seed_bytes password (world s)
                        = (Return ks,
                           world
                             (snd (export_keystore keypair seed_bytes s)))))).
Proof.
  rewrite export_keystore_run.
  set (s0 := talked s [export_header] (keyboard s)).
  destruct (ask_yes_no_behaviour H export_question (Some (lit "n")) 3 s0)
    as (Hr1 & Ht1 & _).
  destruct (ask_yes_no export_question (Some (lit "n")) 3 s0)
    as [[[|]|sig] s1]; cbn [fst snd] in *.
  2: { split; [exact I|]. left. now rewrite (only_talked_files _ _ _ Ht1). }
  2: { split; [exact (@exit_is_no_escape bool unit sig Hr1)|].
       left. now rewrite (only_talked_files _ _ _ Ht1). }
  destruct (get_password_confirm_behaviour
              (lit "Enter password for keystore") (lit "Confirm password") 3
              s1) as (Hr2 & Ht2 & Hpw).
  destruct (get_password_confirm (lit "Enter password for keystore")
              (lit "Confirm password") 3 s1) as [[password|sig] s2];
    cbn [fst snd] in *.
  2: { split; [exact (@exit_is_no_escape str unit sig Hr2)|].
       left. rewrite (only_talked_files _ _ _ Ht2).
       now rewrite (only_talked_files _ _ _ Ht1). }
  destruct (Hpw password eq_refl) as (Hne & _). clear Hpw.
  set (s2' := talked s2 format_menu (keyboard s2)).
  destruct (ask_choice_behaviour format_question [lit "1"; lit "2"]
              (Some (lit "1")) 3 s2') as (Hr3 & Ht3 & _).
  destruct (ask_choice format_question [lit "1"; lit "2"] (Some (lit "1")) 3
              s2') as [[choice|sig] s3]; cbn [fst snd] in *.
  2: { split; [exact (@exit_is_no_escape str unit sig Hr3)|].
       left. rewrite (only_talked_files _ _ _ Ht3). unfold s2'. cbn [files talked].
       rewrite (only_talked_files _ _ _ Ht2).
       now rewrite (only_talked_files _ _ _ Ht1). }
  assert (Hf : files s3 = files s).
  { rewrite (only_talked_files _ _ _ Ht3). unfold s2'. cbn [files talked].
    rewrite (only_talked_files _ _ _ Ht2).
    now rewrite (only_talked_files _ _ _ Ht1). }
  assert (Hw : world s3 = world s).
  { rewrite (only_talked_world _ _ _ Ht3). unfold s2'. cbn [world talked].
    rewrite (only_talked_world _ _ _ Ht2).
    now rewrite (only_talked_world _ _ _ Ht1). }
  destruct (str_eq choice (lit "1")).
  - unfold finish_web3. rewrite Hw.
    destruct (Account_encrypt (lit "0x" ++ ToHex seed_bytes) password
                (world s)) as [[ks|e] w'] eqn:Henc.
    + destruct (disk_error s3) as [e|]; cbn [fst snd].
      * split; [exact I|]. left. exact Hf.
      * split; [exact I|]. right.
        exists password,
          (os_path_join script_dir (web3_filename ks (clock_s s3))),
          (Web3Json ks).
        repeat apply conj; try reflexivity; try assumption.
        -- cbn. now rewrite Hf.
        -- left. exists ks. split; [reflexivity | exact Henc].
    + cbn [fst snd]. split; [exact I|]. left. exact Hf.
  - unfold finish_polkadot. rewrite Hw.
    destruct (build_keystore keypair seed_bytes password (world s))
      as [[ks|e] w'] eqn:Henc.
    + destruct (disk_error s3) as [e|]; cbn [fst snd].
      * split; [exact I|]. left. exact Hf.
      * split; [exact I|]. right.
        exists password,
          (os_path_join script_dir (polkadot_filename keypair (clock_s s3))),
          (PolkadotJson ks).
        repeat apply conj; try reflexivity; try assumption.
        -- cbn. now rewrite Hf.
        -- right. exists ks. split; [reflexivity | exact Henc].
    + cbn [fst snd]. split; [exact I|]. left. exact Hf.
Qed.

(** X8.  However the keyboard stands, [export_keystore] ends by returning,
    by [sys.exit(1)] or with an exception of the encoder or of the disk;
    and either it writes no file, or it returns after writing exactly one,
    which holds what [Account.encrypt] (on "0x" and the hex of the seed) or
    [build_keystore] returned for a password that is not empty. *)
Theorem export_keystore_writes_under_password (keypair : Keypair)
    (seed_bytes : bytes) (s : Session) :
  returns_exits_or_raises (fst (export_keystore keypair seed_bytes s))
  /\ (files (snd (export_keystore keypair seed_bytes s)) = files s
      \/ exists password path doc,
           password <> []
           /\ fst (export_keystore keypair seed_bytes s) = Done tt
           /\ files (snd (export_keystore keypair seed_bytes s))
              = files s ++ [(path, doc)]
           /\ ((exists ks,
                  doc = Web3Json ks
                  /\ Account_encrypt (lit "0x" ++ ToHex seed_bytes) password
                       (world s)
                     = (Return ks,
                        world (snd (export_keystore keypair seed_bytes s))))
               \/ (exists ks,
                     doc = PolkadotJson ks
                     /\ build_keystore keypair seed_bytes password (world s)
                        = (Return ks,
                           world
                             (snd (export_keystore keypair seed_bytes s)))))).
Proof.
  rewrite export_keystore_run.
  set (s0 := talked s [export_header] (keyboard s)).
  destruct (ask_yes_no_behaviour H export_question (Some (lit "n")) 3 s0)
    as (Hr1 & Ht1 & _).
  destruct (ask_yes_no export_question (Some (lit "n")) 3 s0)
    as [[[|]|sig] s1]; cbn [fst snd] in *.
  2: { split; [exact I|]. left. now rewrite (only_talked_files _ _ _ Ht1). }
  2: { split; [exact (@exit_is_no_escape bool unit sig Hr1)|].
       left. now rewrite (only_talked_files _ _ _ Ht1). }
  destruct (get_password_confirm_behaviour
              (lit "Enter password for keystore") (lit "Confirm password") 3
              s1) as (Hr2 & Ht2 & Hpw).
  destruct (get_password_confirm (lit "Enter password for keystore")
              (lit "Confirm password") 3 s1) as [[password|sig] s2];
    cbn [fst snd] in *.
  2: { split; [exact (@exit_is_no_escape str unit sig Hr2)|].
       left. rewrite (only_talked_files _ _ _ Ht2).
       now rewrite (only_talked_files _ _ _ Ht1). }
  destruct (Hpw password eq_refl) as (Hne & _). clear Hpw.
  set (s2' := talked s2 format_menu (keyboard s2)).
  destruct (ask_choice_behaviour format_question [lit "1"; lit "2"]
              (Some (lit "1")) 3 s2') as (Hr3 & Ht3 & _).
  destruct (ask_choice format_question [lit "1"; lit "2"] (Some (lit "1")) 3
              s2') as [[choice|sig] s3]; cbn [fst snd] in *.
  2: { split; [exact (@exit_is_no_escape str unit sig Hr3)|].
       left. rewrite (only_talked_files _ _ _ Ht3). unfold s2'. cbn [files talked].
       rewrite (only_talked_files _ _ _ Ht2).
       now rewrite (only_talked_files _ _ _ Ht1). }
  assert (Hf : files s3 = files s).
  { rewrite (only_talked_files _ _ _ Ht3). unfold s2'. cbn [files talked].
    rewrite (only_talked_files _ _ _ Ht2).
    now rewrite (only_talked_files _ _ _ Ht1). }
  assert (Hw : world s3 = world s).
  { rewrite (only_talked_world _ _ _ Ht3). unfold s2'. cbn [world talked].
    rewrite (only_talked_world _ _ _ Ht2).
    now rewrite (only_talked_world _ _ _ Ht1). }
  destruct (str_eq choice (lit "1")).
  - unfold finish_web3. rewrite Hw.
    destruct (Account_encrypt (lit "0x" ++ ToHex seed_bytes) password
                (world s)) as [[ks|e] w'] eqn:Henc.
    + destruct (disk_error s3) as [e|]; cbn [fst snd].
      * split; [exact I|]. left. exact Hf.
      * split; [exact I|]. right.
        exists password,
          (os_path_join script_dir (web3_filename ks (clock_s s3))),
          (Web3Json ks).
        repeat apply conj; try reflexivity; try assumption.
        -- cbn. now rewrite Hf.
        -- left. exists ks. split; [reflexivity | exact Henc].
    + cbn [fst snd]. split; [exact I|]. left. exact Hf.
  - unfold finish_polkadot. rewrite Hw.
    destruct (build_keystore keypair seed_bytes password (world s))
      as [[ks|e] w'] eqn:Henc.
    + destruct (disk_error s3) as [e|]; cbn [fst snd].
      * split; [exact I|]. left. exact Hf.
      * split; [exact I|]. right.
        exists password,
          (os_path_join script_dir (polkadot_filename keypair (clock_s s3))),
          (PolkadotJson ks).
        repeat apply conj; try reflexivity; try assumption.
        -- cbn. now rewrite Hf.
        -- right. exists ks. split; [reflexivity | exact Henc].
    + cbn [fst snd]. split; [exact I|]. left. exact Hf.
Qed.

(** The run in which the user says yes, types a password twice and picks
    a format. *)
Lemma export_keystore_asked (keypair : Keypair) (seed_bytes : bytes)
    (s : Session) (yes password selection : str) (rest : list Key) :
  keyboard s
  = Typed yes :: Typed password :: Typed password :: Typed selection :: rest ->
  yes_no_verdict (Some (lit "n")) yes = Some true ->
  password <> [] ->
  In (choice_answer (Some (lit "1")) selection) [lit "1"; lit "2"] ->
  export_keystore keypair seed_bytes s
  = if str_eq (choice_answer (Some (lit "1")) selection) (lit "1")
    then finish_web3 seed_bytes password (asked_all s rest)
    else finish_polkadot keypair seed_bytes password (asked_all s rest).
Proof.
  intros Hk Hyes Hpw Hsel. rewrite export_keystore_run.
  rewrite (ask_yes_no_typed export_question (Some (lit "n")) 2
             (talked s [export_header] (keyboard s)) yes
             (Typed password :: Typed password :: Typed selection :: rest))
    by (cbn; exact Hk).
  rewrite Hyes, talked_talked.
  match goal with
  | |- context [get_password_confirm _ _ _ ?x] =>
      rewrite (get_password_confirm_twice (lit "Enter password for keystore")
                 (lit "Confirm password") 2 x password password
                 (Typed selection :: rest) Hpw eq_refl)
  end.
  replace (str_eq password password) with true
    by (symmetry; now apply str_eq_true).
  rewrite talked_talked.
  cbn [keyboard talked]. rewrite talked_talked.
  match goal with
  | |- context [ask_choice _ _ _ _ ?x] =>
      rewrite (ask_choice_typed format_question [lit "1"; lit "2"]
                 (Some (lit "1")) 2 x selection rest eq_refl)
  end.
  apply str_in_In in Hsel. rewrite Hsel, talked_talked.
  unfold asked_all. rewrite <- !app_assoc. reflexivity.
Qed.

(** X9.  Saying yes, typing a password twice and pressing Enter at the
    format prompt (or typing 1) gives the Web3 format: what
    [Account.encrypt] returns for "0x" followed by the hex of the seed
    bytes is written to
    [enjin-snap-keystore-web3-<first 8 of address>-<seconds>.json] in the
    script's directory, and [build_keystore] is not run. *)
Theorem export_keystore_web3_by_default (keypair : Keypair)
    (seed_bytes : bytes) (s : Session) (yes password selection : str)
    (rest : list Key) (ks : Web3Keystore) (w' : World) :
  keyboard s
  = Typed yes :: Typed password :: Typed password :: Typed selection :: rest ->
  yes_no_verdict (Some (lit "n")) yes = Some true ->
  password <> [] ->
  str_strip selection = [] \/ str_strip selection = lit "1" ->
  disk_error s = None ->
  Account_encrypt (lit "0x" ++ ToHex seed_bytes) password (world s)
  = (Return ks, w') ->
  export_keystore keypair seed_bytes s
  = (Done tt,
     wrote (in_world (asked_all s rest) w')
       (os_path_join script_dir
          (lit "enjin-snap-keystore-web3-"
             ++ firstn 8 (address_or_unknown ks) ++ lit "-"
             ++ str_of_N (clock_s s) ++ lit ".json"))
       (Web3Json ks) (web3_report ks (clock_s s))).
Proof.
  intros Hk Hyes Hpw Hsel Hdisk Henc.
  assert (Hc : choice_answer (Some (lit "1")) selection = lit "1").
  { unfold choice_answer. destruct Hsel as [E|E]; rewrite E; reflexivity. }
  rewrite (export_keystore_asked keypair seed_bytes s yes password selection
             rest Hk Hyes Hpw) by (rewrite Hc; now left).
  rewrite Hc. cbn [str_eq]. change (str_eq (lit "1") (lit "1")) with true.
  cbv iota. unfold finish_web3.
  change (world (asked_all s rest)) with (world s).
  change (disk_error (asked_all s rest)) with (disk_error s).
  change (clock_s (asked_all s rest)) with (clock_s s).
  rewrite Henc, Hdisk. reflexivity.
Qed.

(** X10.  In the Web3 format an exception of [Account.encrypt] is caught:
    [export_keystore] prints "Error building Web3 keystore" with the
    exception's text and returns, having written nothing. *)
Theorem export_keystore_web3_error_caught (keypair : Keypair)
    (seed_bytes : bytes) (s : Session) (yes password selection : str)
    (rest : list Key) (e : PyExc) (w' : World) :
  keyboard s
  = Typed yes :: Typed password :: Typed password :: Typed selection :: rest ->
  yes_no_verdict (Some (lit "n")) yes = Some true ->
  password <> [] ->
  str_strip selection = [] \/ str_strip selection = lit "1" ->
  Account_encrypt (lit "0x" ++ ToHex seed_bytes) password (world s)
  = (Raise e, w') ->
  export_keystore keypair seed_bytes s
  = (Done tt,
     talked (in_world (asked_all s rest) w')
       [Printed (lit "  Error building Web3 keystore: " ++ exc_text e)] rest).
Proof.
  intros Hk Hyes Hpw Hsel Henc.
  assert (Hc : choice_answer (Some (lit "1")) selection = lit "1").
  { unfold choice_answer. destruct Hsel as [E|E]; rewrite E; reflexivity. }
  rewrite (export_keystore_asked keypair seed_bytes s yes password selection
             rest Hk Hyes Hpw) by (rewrite Hc; now left).
  rewrite Hc. change (str_eq (lit "1") (lit "1")) with true.
  cbv iota. unfold finish_web3.
  change (world (asked_all s rest)) with (world s).
  rewrite Henc. reflexivity.
Qed.

(** X11.  In the Polkadot format (2 typed at the format prompt) an
    exception of [build_keystore] is not caught: it leaves
    [export_keystore], nothing is written and nothing more is printed. *)
Theorem export_keystore_polkadot_error_escapes (keypair : Keypair)
    (seed_bytes : bytes) (s : Session) (yes password selection : str)
    (rest : list Key) (e : PyExc) (w' : World) :
  keyboard s
  = Typed yes :: Typed password :: Typed password :: Typed selection :: rest ->
  yes_no_verdict (Some (lit "n")) yes = Some true ->
  password <> [] ->
  str_strip selection = lit "2" ->
  build_keystore keypair seed_bytes password (world s) = (Raise e, w') ->
  export_keystore keypair seed_bytes s
  = (Stopped (Exc e), in_world (asked_all s rest) w').
Proof.
  intros Hk Hyes Hpw Hsel Henc.
  assert (Hc : choice_answer (Some (lit "1")) selection = lit "2").
  { unfold choice_answer. rewrite Hsel. reflexivity. }
  rewrite (export_keystore_asked keypair seed_bytes s yes password selection
             rest Hk Hyes Hpw) by (rewrite Hc; right; now left).
  rewrite Hc. change (str_eq (lit "2") (lit "1")) with false.
  cbv iota. unfold finish_polkadot.
  change (world (asked_all s rest)) with (world s).
  rewrite Henc. reflexivity.
Qed.

End Exporting.

(* ===================================================================== *)
(** ** The main function *)
(* ===================================================================== *)

Lemma stopped_returns_or_exits {A B} (sig : Signal) :
  returns_or_exits (Stopped sig : result A) ->
  returns_or_exits (Stopped sig : result B).
Proof. destruct sig; cbn; tauto. Qed.

Lemma stopped_returns_exits_or_raises {A B} (sig : Signal) :
  returns_exits_or_raises (Stopped sig : result A) ->
  returns_exits_or_raises (Stopped sig : result B).
Proof. destruct sig; cbn; tauto. Qed.

Lemma ends_well_print (x : str) : ends_well (print x).
Proof. intros s. exact I. Qed.

Lemma ends_well_bind {A B} (c : IO A) (k : A -> IO B) :
  ends_well c -> (forall a, ends_well (k a)) -> ends_well (io_bind c k).
Proof.
  intros Hc Hk s. unfold io_bind. specialize (Hc s).
  destruct (c s) as [[a|sig] s1]; [apply Hk|].
  exact (@stopped_returns_or_exits A B sig Hc).
Qed.

Lemma ends_or_raises_bind {A B} (c : IO A) (k : A -> IO B) :
  ends_or_raises c -> (forall a, ends_or_raises (k a)) ->
  ends_or_raises (io_bind c k).
Proof.
  intros Hc Hk s. unfold io_bind. specialize (Hc s).
  destruct (c s) as [[a|sig] s1]; [apply Hk|].
  exact (@stopped_returns_exits_or_raises A B sig Hc).
Qed.

Lemma ends_well_or_raises {A} (c : IO A) : ends_well c -> ends_or_raises c.
Proof.
  intros Hc s. specialize (Hc s).
  destruct (fst (c s)) as [a|sig]; [exact I|].
  now apply (@exit_is_no_escape A A).
Qed.

Lemma ends_or_raises_run_M {A} (c : M A) : ends_or_raises (run_M c).
Proof.
  intros s. unfold run_M. destruct (c (world s)) as [[a|e] w']; exact I.
Qed.

(** [try: body  except Exception as e: handler] ends well when the body
    ends or raises and the handler ends well. *)
Lemma ends_well_try {A} (body : IO A) (handler : Signal -> IO A) :
  ends_or_raises body -> (forall sig, ends_well (handler sig)) ->
  ends_well (io_try body is_Exception handler).
Proof.
  intros Hb Hh s. unfold io_try. specialize (Hb s).
  destruct (body s) as [[a|sig] s1]; [exact I|].
  destruct sig as [e| | |code]; cbn [is_Exception fst] in *;
    try apply Hh; try contradiction.
  exact Hb.
Qed.

Lemma keeps_screen_print (x : str) : keeps_screen (print x).
Proof. intros s. now exists [Printed x]. Qed.

Lemma keeps_screen_run_M {A} (c : M A) : keeps_screen (run_M c).
Proof.
  intros s. exists []. unfold run_M.
  destruct (c (world s)) as [[a|e] w']; cbn; now rewrite app_nil_r.
Qed.

Lemma keeps_screen_bind {A B} (c : IO A) (k : A -> IO B) :
  keeps_screen c -> (forall a, keeps_screen (k a)) ->
  keeps_screen (io_bind c k).
Proof.
  intros Hc Hk s. unfold io_bind. destruct (Hc s) as (sh & Hs).
  destruct (c s) as [[a|sig] s1]; cbn [snd] in *.
  - destruct (Hk a s1) as (sh' & Hs'). exists (sh ++ sh').
    now rewrite Hs', Hs, app_assoc.
  - now exists sh.
Qed.

Lemma keeps_screen_try {A} (body : IO A) (catches : Signal -> bool)
    (handler : Signal -> IO A) :
  keeps_screen body -> (forall sig, keeps_screen (handler sig)) ->
  keeps_screen (io_try body catches handler).
Proof.
  intros Hb Hh s. unfold io_try. destruct (Hb s) as (sh & Hs).
  destruct (body s) as [[a|sig] s1]; cbn [snd] in *.
  - now exists sh.
  - destruct (catches sig).
    + destruct (Hh sig s1) as (sh' & Hs'). exists (sh ++ sh').
      now rewrite Hs', Hs, app_assoc.
    + now exists sh.
Qed.

Lemma only_talked_screen (n : nat) (s s' : Session) :
  only_talked n s s' -> exists shown, screen s' = screen s ++ shown.
Proof. now intros (_ & _ & _ & _ & Hs & _). Qed.

Section MainFacts.

Context {L : WalletLibs} {P : Primitives} {Pl : Platform} {H : Host}.

Lemma ends_or_raises_export_keystore (keypair : Keypair)
    (seed_bytes : bytes) :
  ends_or_raises (export_keystore keypair seed_bytes).
Proof.
  intros s.
  exact (proj1 (export_keystore_behaviour keypair seed_bytes s)).
Qed.

Lemma keeps_screen_export_keystore (keypair : Keypair)
    (seed_bytes : bytes) :
  keeps_screen (export_keystore keypair seed_bytes).
Proof.
  intros s. rewrite export_keystore_run.
  set (s0 := talked s [export_header] (keyboard s)).
  destruct (ask_yes_no_behaviour H export_question (Some (lit "n")) 3 s0)
    as (_ & Ht1 & _).
  apply only_talked_screen in Ht1. destruct Ht1 as (sh1 & Hs1).
  change (screen s0) with (screen s ++ [export_header]) in Hs1.
  destruct (ask_yes_no export_question (Some (lit "n")) 3 s0)
    as [[[|]|sig] s1]; cbn [fst snd] in *;
    try (exists ([export_header] ++ sh1); now rewrite Hs1, app_assoc).
  destruct (get_password_confirm_behaviour
              (lit "Enter password for keystore") (lit "Confirm password") 3
              s1) as (_ & Ht2 & _).
  apply only_talked_screen in Ht2. destruct Ht2 as (sh2 & Hs2).
  destruct (get_password_confirm (lit "Enter password for keystore")
              (lit "Confirm password") 3 s1) as [[password|sig] s2];
    cbn [fst snd] in *;
    try (exists ([export_header] ++ sh1 ++ sh2);
         now rewrite Hs2, Hs1, <- ?app_assoc).
  set (s2' := talked s2 format_menu (keyboard s2)).
  destruct (ask_choice_behaviour format_question [lit "1"; lit "2"]
              (Some (lit "1")) 3 s2') as (_ & Ht3 & _).
  apply only_talked_screen in Ht3. destruct Ht3 as (sh3 & Hs3).
  change (screen s2') with (screen s2 ++ format_menu) in Hs3.
  assert (Hs : screen (snd (ask_choice format_question [lit "1"; lit "2"]
                              (Some (lit "1")) 3 s2'))
               = screen s
                 ++ [export_header] ++ sh1 ++ sh2 ++ format_menu ++ sh3)
    by (now rewrite Hs3, Hs2, Hs1, <- ?app_assoc).
  clear Hs1 Hs2 Hs3.
  destruct (ask_choice format_question [lit "1"; lit "2"] (Some (lit "1")) 3
              s2') as [[choice|sig] s3]; cbn [fst snd] in *;
    [|eexists; exact Hs].
  destruct (str_eq choice (lit "1")).
  - unfold finish_web3.
    destruct (Account_encrypt _ _ _) as [[ks|e] w'].
    + destruct (disk_error s3); cbn [snd wrote in_world screen];
        rewrite Hs; eexists; rewrite <- ?app_assoc;
        reflexivity.
    + cbn [snd talked in_world screen]. rewrite Hs.
      eexists. rewrite <- ?app_assoc. reflexivity.
  - unfold finish_polkadot.
    destruct (build_keystore _ _ _ _) as [[ks|e] w'].
    + destruct (disk_error s3); cbn [snd wrote in_world screen];
        rewrite Hs; eexists; rewrite <- ?app_assoc;
        reflexivity.
    + cbn [snd in_world screen]. rewrite Hs.
      eexists. rewrite <- ?app_assoc. reflexivity.
Qed.

End MainFacts.

Lemma always_gives_print (x : str) : always_gives tt (print x).
Proof. intros s. reflexivity. Qed.

(** A derivation followed by the print of its result, inside
    [try ... except Exception as e: print(...)], always returns. *)
Lemma always_gives_try_print {A} (c : M A) (f : A -> str)
    (g : Signal -> str) :
  always_gives tt
    (io_try (io_bind (run_M c) (fun x => print (f x))) is_Exception
       (fun e => print (g e))).
Proof.
  intros s. unfold io_try, io_bind, run_M.
  destruct (c (world s)) as [[a|e] w']; reflexivity.
Qed.

Lemma shows_print (x : str) : shows (Printed x) (print x).
Proof. intros s. cbn. apply in_or_app. right. now left. Qed.

Lemma shows_after {A B} (o : Output) (a : A) (c : IO A) (k : A -> IO B) :
  always_gives a c -> shows o (k a) -> shows o (io_bind c k).
Proof.
  intros Hc Hk s. unfold io_bind. specialize (Hc s).
  destruct (c s) as [r s1]. cbn [fst] in Hc. subst r. apply Hk.
Qed.

Lemma shows_before {A B} (o : Output) (c : IO A) (k : A -> IO B) :
  shows o c -> (forall a, keeps_screen (k a)) -> shows o (io_bind c k).
Proof.
  intros Hc Hk s. unfold io_bind. specialize (Hc s).
  destruct (c s) as [[a|sig] s1]; cbn [snd] in *; [|exact Hc].
  destruct (Hk a s1) as (sh & Hs). rewrite Hs. apply in_or_app. now left.
Qed.

Lemma shows_try {A} (o : Output) (body : IO A) (catches : Signal -> bool)
    (handler : Signal -> IO A) :
  shows o body -> (forall sig, keeps_screen (handler sig)) ->
  shows o (io_try body catches handler).
Proof.
  intros Hb Hh s. unfold io_try. specialize (Hb s).
  destruct (body s) as [[a|sig] s1]; cbn [snd] in *; [exact Hb|].
  destruct (catches sig); [|exact Hb].
  destruct (Hh sig s1) as (sh & Hs). rewrite Hs. apply in_or_app. now left.
Qed.

Ltac ends :=
  cbv beta;
  lazymatch goal with
  | |- forall _, _ => intro; ends
  | |- ends_well (print _) => apply ends_well_print
  | |- ends_well (io_bind _ _) => apply ends_well_bind; ends
  | |- ends_well (io_try _ is_Exception _) => apply ends_well_try; ends
  | |- ends_or_raises (run_M _) => apply ends_or_raises_run_M
  | |- ends_or_raises (export_keystore _ _) =>
      apply ends_or_raises_export_keystore
  | |- ends_or_raises (io_bind _ _) => apply ends_or_raises_bind; ends
  | |- ends_or_raises (print _) =>
      apply ends_well_or_raises; apply ends_well_print
  | |- ends_or_raises (match ?p with (_, _) => _ end) => destruct p; ends
  end.

(** X12.  Once [load_mnemonic] has returned, [main] ends by returning or
    by [sys.exit(1)] (the user gave up at a prompt): no exception of a
    derivation, of an encoder or of the disk leaves it, and a failure of
    one derivation does not keep the next from running. *)
Theorem main_ends_well (L : WalletLibs) (P : Primitives) (Pl : Platform)
    (H : Host) (s s0 : Session) (mnemonic : str) :
  load_mnemonic s = (Done mnemonic, s0) ->
  returns_or_exits (fst (main s)).
Proof.
  intros Hload. unfold main. unfold io_bind at 1. rewrite Hload.
  match goal with
  | |- returns_or_exits (fst (?c s0)) =>
      cut (ends_well c); [intros Hc; exact (Hc s0)|]
  end.
  ends.
Qed.

(** X13.  When the seed generator, the SLIP-10 derivation and the key pair
    construction return (the scalar having at least 15 bytes), [main]
    prints the private key as "0x" followed by the hex of the seed bytes,
    which are themselves the text "0x..." of the scalar: the line shown is
    "0x3078" followed by the hex of the codes of the first 30 hex digits
    of the scalar, 66 characters, and it stays on the screen however
    [main] ends afterwards. *)
Theorem main_shows_hex_of_hex (L : WalletLibs) (P : Primitives)
    (Pl : Platform) (H : Host) (s s0 : Session) (mnemonic : str)
    (seed : bytes) (node : Bip32Node) (keypair : Keypair) :
  load_mnemonic s = (Done mnemonic, s0) ->
  Bip39SeedGenerator_Generate mnemonic (lit "") = Return seed ->
  Bip32Slip10Secp256k1_FromSeedAndPath seed (lit "m/44'/1155'")
    = Return node ->
  (15 <= List.length (PrivateKey_Raw node))%nat ->
  Keypair_create_from_seed
    (map byte_of_N (firstn 32 (lit "0x" ++ ToHex (PrivateKey_Raw node))))
    SS58_FORMAT ED25519 = Return keypair ->
  let digits := firstn 30 (ToHex (PrivateKey_Raw node)) in
  let shown_key := lit "0x3078" ++ ToHex (map byte_of_N digits) in
  In (Printed (lit "Private key (hex seed) for wallet import:" ++ [10]
                 ++ lit "  " ++ shown_key))
    (screen (snd (main s)))
  /\ List.length shown_key = 66%nat.
Proof.
  intros Hload Hseed Hnode Hlen Hkp digits shown_key.
  set (seed_bytes :=
         map byte_of_N (firstn 32 (lit "0x" ++ ToHex (PrivateKey_Raw node)))).
  assert (Hkey : lit "0x" ++ ToHex seed_bytes = shown_key).
  { unfold seed_bytes, shown_key, digits.
    rewrite snap_text_shape by exact Hlen.
    change 30%nat with (2 * 15)%nat.
    rewrite firstn_ToHex, (ToHex_nibbles (firstn 15 (PrivateKey_Raw node))).
    reflexivity. }
  split.
  - assert (Hin : In (private_key_line seed_bytes) (screen (snd (main s)))).
    { unfold main. unfold io_bind at 1. rewrite Hload.
      match goal with
      | |- In _ (screen (snd (?c s0))) =>
          cut (shows (private_key_line seed_bytes) c);
            [intros Hc; exact (Hc s0)|]
      end.
      apply shows_after with (a := tt); [apply always_gives_print|].
      cbv beta.
      apply shows_after with (a := tt); [apply always_gives_try_print|].
      cbv beta.
      apply shows_after with (a := tt); [apply always_gives_print|].
      cbv beta.
      apply shows_after with (a := tt); [apply always_gives_try_print|].
      cbv beta.
      apply shows_after with (a := tt); [apply always_gives_print|].
      cbv beta.
      apply shows_before; [|intros []; apply keeps_screen_print].
      apply shows_try; [|intros sig; apply keeps_screen_print].
      apply shows_after with (a := (keypair, seed_bytes)).
      { intros s1. unfold run_M.
        rewrite (derive_enjin_snap_ed25519_run mnemonic (world s1) seed node
                   Hseed Hnode).
        unfold seed_bytes. rewrite Hkp. reflexivity. }
      cbv beta iota.
      apply shows_after with (a := tt); [apply always_gives_print|].
      cbv beta.
      apply shows_after with (a := tt); [apply always_gives_print|].
      cbv beta.
      apply shows_after with (a := tt); [apply always_gives_print|].
      cbv beta.
      apply shows_before; [apply shows_print|].
      intros []. apply keeps_screen_bind; [apply keeps_screen_print|].
      intros []. apply keeps_screen_export_keystore. }
    unfold private_key_line in Hin. rewrite Hkey in Hin. exact Hin.
  - unfold shown_key, digits. rewrite length_app, ToHex_length, length_map.
    rewrite length_firstn, ToHex_length.
    rewrite Nat.min_l by lia. reflexivity.
Qed.

(* ===================================================================== *)
(** ** Edges of the core functions *)
(* ===================================================================== *)

(** X14.  [derive_enjin_snap_ed25519] has no length check of its own: for
    a scalar of [n] bytes the seed it hands to the key pair construction,
    and returns, has [min(32, 2 + 2n)] bytes (2 bytes, "0x", for an empty
    scalar), and the world is left as it was. *)
Theorem derive_enjin_snap_seed_length (L : WalletLibs) (mnemonic : str)
    (w w' : World) (seed : bytes) (node : Bip32Node) (keypair : Keypair)
    (seed_bytes : bytes) :
  Bip39SeedGenerator_Generate mnemonic (lit "") = Return seed ->
  Bip32Slip10Secp256k1_FromSeedAndPath seed (lit "m/44'/1155'")
    = Return node ->
  derive_enjin_snap_ed25519 mnemonic w = (Return (keypair, seed_bytes), w') ->
  List.length seed_bytes
  = Nat.min 32 (2 + 2 * List.length (PrivateKey_Raw node))
  /\ Keypair_create_from_seed seed_bytes SS58_FORMAT ED25519 = Return keypair
  /\ w' = w.
Proof.
  intros Hseed Hnode Hrun.
  rewrite (derive_enjin_snap_ed25519_run mnemonic w seed node Hseed Hnode)
    in Hrun.
  cbv zeta in Hrun.
  remember (map byte_of_N
              (firstn 32 (lit "0x" ++ ToHex (PrivateKey_Raw node))))
    as sb eqn:Hsb.
  destruct (Keypair_create_from_seed sb SS58_FORMAT ED25519) as [kp|e] eqn:Hkp;
    cbn [obind] in Hrun; [|discriminate Hrun].
  injection Hrun as <- <- <-.
  repeat apply conj; [|exact Hkp|reflexivity].
  rewrite Hsb, length_map, length_firstn, length_app, ToHex_length.
  reflexivity.
Qed.

Lemma utf8_char_error (c : char) (e : PyExc) :
  utf8_char c = Raise e -> e = UnicodeEncodeError.
Proof.
  unfold utf8_char.
  repeat match goal with
         | |- context [if ?b then _ else _] => destruct b
         end; intros H; congruence.
Qed.

Lemma utf8_encode_error (s : str) (e : PyExc) :
  utf8_encode s = Raise e -> e = UnicodeEncodeError.
Proof.
  induction s as [|c s IH]; cbn [utf8_encode]; [discriminate|].
  destruct (utf8_char c) as [b|e'] eqn:Hc; cbn [obind].
  - destruct (utf8_encode s) as [bs|e'']; cbn [obind]; [discriminate|].
    intros H. injection H as <-. now apply IH.
  - intros H. injection H as <-. now apply utf8_char_error in Hc.
Qed.

Lemma utf8_encode_surrogate (s : str) (c : char) :
  In c s -> 55296 <= c <= 57343 -> utf8_encode s = Raise UnicodeEncodeError.
Proof.
  intros Hin Hc. induction s as [|d s IH]; [contradiction|].
  cbn [utf8_encode].
  destruct (utf8_char d) as [b|e] eqn:Hd; cbn [obind].
  - destruct Hin as [->|Hin].
    + unfold utf8_char in Hd.
      destruct (N.ltb_spec c 128); [lia|].
      destruct (N.ltb_spec c 2048); [lia|].
      destruct (N.leb_spec 55296 c); [|lia].
      destruct (N.leb_spec c 57343); [|lia].
      discriminate Hd.
    + now rewrite (IH Hin).
  - now rewrite (utf8_char_error d e Hd).
Qed.

(** X15.  A password that holds a lone surrogate (a code point from U+D800
    to U+DFFF) cannot be encoded: [build_keystore] raises
    [UnicodeEncodeError], after it has taken the 32 bytes of the salt from
    the CSPRNG. *)
Theorem build_keystore_unencodable_password (P : Primitives)
    (Pl : Platform) (keypair : Keypair) (seed_bytes : bytes)
    (password : str) (w : World) (c : char) :
  In c password ->
  55296 <= c <= 57343 ->
  build_keystore keypair seed_bytes password w
  = (Raise UnicodeEncodeError, after_draw 32 w).
Proof.
  intros Hin Hc.
  rewrite build_keystore_run, (utf8_encode_surrogate password c Hin Hc).
  reflexivity.
Qed.

(** X16.  On an interpreter whose hashlib has scrypt and whose OpenSSL
    keeps its 32 MiB limit, picking format 2 in [export_keystore] never
    produces a keystore: [build_keystore] raises [ValueError] once the
    salt is drawn, the exception leaves [export_keystore], and no file is
    written. *)
Theorem export_keystore_polkadot_on_stock_platform (P : Primitives)
    (Pl : Platform) (H : Host) (keypair : Keypair) (seed_bytes : bytes)
    (s : Session) (yes password selection : str) (rest : list Key)
    (password_bytes : bytes) :
  hashlib_has_scrypt = true ->
  openssl_scrypt_max_mem = 33554432 ->
  keyboard s
  = Typed yes :: Typed password :: Typed password :: Typed selection :: rest ->
  yes_no_verdict (Some (lit "n")) yes = Some true ->
  password <> [] ->
  str_strip selection = lit "2" ->
  utf8_encode password = Return password_bytes ->
  export_keystore keypair seed_bytes s
  = (Stopped (Exc ValueError),
     in_world (asked_all s rest) (after_draw 32 (world s)))
  /\ files (snd (export_keystore keypair seed_bytes s)) = files s.
Proof.
  intros Has Hmem Hk Hyes Hpw Hsel Henc.
  assert (Hc : choice_answer (Some (lit "1")) selection = lit "2").
  { unfold choice_answer. rewrite Hsel. reflexivity. }
  rewrite (export_keystore_asked keypair seed_bytes s yes password selection
             rest Hk Hyes Hpw) by (rewrite Hc; right; now left).
  rewrite Hc. change (str_eq (lit "2") (lit "1")) with false.
  cbv iota. unfold finish_polkadot.
  change (world (asked_all s rest)) with (world s).
  rewrite (stock_platform_raises P Pl keypair seed_bytes password (world s)
             password_bytes Has Hmem Henc).
  split; reflexivity.
Qed.

(* ===================================================================== *)
(** ** The statements above on a small run *)
(* ===================================================================== *)

Lemma ask_yes_no_first_answer_witness :
  ask_yes_no (H := Demo.host) (lit "? ") (Some (lit "n")) 3
    (Demo.session [Typed (lit "maybe"); Typed (lit " YES ");
                   Typed (lit "left")])
  = (Done true,
     talked
       (Demo.session [Typed (lit "maybe"); Typed (lit " YES ");
                      Typed (lit "left")])
       [Asked (lit "? "); please; Asked (lit "? ")] [Typed (lit "left")]).
Proof.
  apply (ask_yes_no_first_answer (H := Demo.host) (lit "? ")
           (Some (lit "n")) 3 _ [lit "maybe"] (lit " YES ")
           [Typed (lit "left")] true).
  - reflexivity.
  - cbn. lia.
  - repeat constructor.
  - reflexivity.
Defined.

Lemma ask_yes_no_gives_up_witness :
  ask_yes_no (H := Demo.host) (lit "? ") (Some (lit "n")) 3
    (Demo.session [Typed (lit "a"); Typed (lit "b"); Typed (lit "c");
                   Typed (lit "y")])
  = (Stopped (SystemExit 1),
     talked
       (Demo.session [Typed (lit "a"); Typed (lit "b"); Typed (lit "c");
                      Typed (lit "y")])
       [Asked (lit "? "); please; Asked (lit "? "); please;
        Asked (lit "? "); please; too_many]
       [Typed (lit "y")]).
Proof.
  apply (ask_yes_no_gives_up (H := Demo.host) (lit "? ") (Some (lit "n")) 3
           _ [lit "a"; lit "b"; lit "c"] [Typed (lit "y")]).
  - reflexivity.
  - reflexivity.
  - repeat constructor.
Defined.

Lemma get_password_confirm_empty_attempts_witness :
  fst (get_password_confirm (lit "Enter password") (lit "Confirm") 3
         (Demo.session [Typed []; Typed []; Typed []; Typed (lit "pw")]))
  = Stopped (SystemExit 1).
Proof.
  rewrite (get_password_confirm_empty_attempts (lit "Enter password")
             (lit "Confirm") 3
             (Demo.session [Typed []; Typed []; Typed []; Typed (lit "pw")])
             [Typed (lit "pw")] eq_refl).
  reflexivity.
Defined.

Lemma export_keystore_declined_witness :
  export_keystore (P := Toy.prims) (Pl := Toy.stock) (H := Demo.host)
    Toy.keypair Toy.seed32 (Demo.session [Typed []; Typed (lit "left")])
  = (Done tt,
     talked (Demo.session [Typed []; Typed (lit "left")])
       [export_header; Asked export_question] [Typed (lit "left")]).
Proof.
  apply (export_keystore_declined (P := Toy.prims) (Pl := Toy.stock)
           (H := Demo.host) Toy.keypair Toy.seed32 _ [] [Typed (lit "left")]).
  - reflexivity.
  - left. reflexivity.
Defined.

Lemma export_keystore_web3_by_default_witness :
  exists s',
    export_keystore (P := Toy.prims) (Pl := Toy.stock) (H := Demo.host)
      Toy.keypair Toy.seed32 (Demo.exporting [])
    = (Done tt, s')
    /\ List.length (files s') = 1%nat.
Proof.
  eexists. split.
  - eapply (export_keystore_web3_by_default (P := Toy.prims)
              (Pl := Toy.stock) (H := Demo.host) Toy.keypair Toy.seed32
              (Demo.exporting []) (lit "y") (lit "pw") []
              [Typed (lit "left")]).
    + reflexivity.
    + reflexivity.
    + discriminate.
    + left. reflexivity.
    + reflexivity.
    + reflexivity.
  - reflexivity.
Defined.

Lemma export_keystore_web3_error_caught_witness :
  exists s',
    export_keystore (P := Toy.prims) (Pl := Toy.stock)
      (H := Demo.failing_host) Toy.keypair Toy.seed32
      (Demo.exporting (lit " 1 "))
    = (Done tt, s')
    /\ files s' = [].
Proof.
  eexists. split.
  - eapply (export_keystore_web3_error_caught (P := Toy.prims)
              (Pl := Toy.stock) (H := Demo.failing_host) Toy.keypair
              Toy.seed32 (Demo.exporting (lit " 1 ")) (lit "y") (lit "pw")
              (lit " 1 ") [Typed (lit "left")]).
    + reflexivity.
    + reflexivity.
    + discriminate.
    + right. reflexivity.
    + reflexivity.
  - reflexivity.
Defined.

Lemma export_keystore_polkadot_error_escapes_witness :
  exists s',
    export_keystore (P := Toy.prims) (Pl := Toy.stock) (H := Demo.host)
      Toy.keypair Toy.seed32 (Demo.exporting (lit "2"))
    = (Stopped (Exc ValueError), s')
    /\ files s' = [].
Proof.
  eexists. split.
  - eapply (export_keystore_polkadot_error_escapes (P := Toy.prims)
              (Pl := Toy.stock) (H := Demo.host) Toy.keypair Toy.seed32
              (Demo.exporting (lit "2")) (lit "y") (lit "pw") (lit "2")
              [Typed (lit "left")]).
    + reflexivity.
    + reflexivity.
    + discriminate.
    + reflexivity.
    + reflexivity.
  - reflexivity.
Defined.

Lemma main_ends_well_witness :
  returns_or_exits
    (fst (main (L := Toy.libs) (P := Toy.prims) (Pl := Toy.stock)
            (H := Demo.host) (Demo.exporting (lit "2")))).
Proof.
  exact (main_ends_well Toy.libs Toy.prims Toy.stock Demo.host
           (Demo.exporting (lit "2")) (Demo.exporting (lit "2"))
           Toy.good_words eq_refl).
Defined.

Lemma main_shows_hex_of_hex_witness :
  List.length
    (lit "0x3078" ++ ToHex (map byte_of_N (firstn 30 (ToHex Toy.scalar))))
  = 66%nat.
Proof.
  refine (proj2 (main_shows_hex_of_hex Toy.libs Toy.prims Toy.stock
                   Demo.host (Demo.session []) (Demo.session [])
                   Toy.good_words (repeat x01 64) Demo.node
                   (Toy.keypair_of Demo.snap_seed)
                   eq_refl eq_refl eq_refl _ eq_refl)).
  vm_compute. lia.
Defined.

Lemma derive_enjin_snap_seed_length_witness :
  List.length Demo.snap_seed = Nat.min 32 (2 + 2 * 32).
Proof.
  exact (proj1 (derive_enjin_snap_seed_length Toy.libs Toy.good_words
                  Toy.world0 Toy.world0 (repeat x01 64) Demo.node
                  (Toy.keypair_of Demo.snap_seed) Demo.snap_seed
                  eq_refl eq_refl eq_refl)).
Defined.

Lemma build_keystore_unencodable_password_witness :
  build_keystore (P := Toy.prims) (Pl := Toy.roomy) Toy.keypair Toy.seed32
    [112; 55296] Toy.world0
  = (Raise UnicodeEncodeError, after_draw 32 Toy.world0).
Proof.
  apply (build_keystore_unencodable_password Toy.prims Toy.roomy Toy.keypair
           Toy.seed32 [112; 55296] Toy.world0 55296).
  - right. left. reflexivity.
  - lia.
Defined.

Lemma export_keystore_polkadot_on_stock_platform_witness :
  files
    (snd (export_keystore (P := Toy.prims) (Pl := Toy.stock)
            (H := Demo.host) Toy.keypair Toy.seed32
            (Demo.exporting (lit "2"))))
  = [].
Proof.
  refine (proj2 (export_keystore_polkadot_on_stock_platform Toy.prims
                   Toy.stock Demo.host Toy.keypair Toy.seed32
                   (Demo.exporting (lit "2")) (lit "y") (lit "pw") (lit "2")
                   [Typed (lit "left")] [x70; x77]
                   eq_refl eq_refl eq_refl eq_refl _ eq_refl eq_refl)).
  discriminate.
Defined.
